(** * The shift-class reschedule engine

    A shallow embedding of the shift-class route (the POST handler that applies
    a shift and the GET handler that previews it) together with its helpers
    [getDayName], [getDayIndex] and [findNextDay].

    Conventions of the embedding.
    - A calendar date string ['YYYY-MM-DD'] is represented by its day number,
      the count of days since 1970-01-01 (a Thursday); only well-formed
      calendar dates are represented.
    - A JavaScript [Date] is represented by its time value, the number of
      milliseconds since the epoch.
    - The first part of the file is the route on a server whose local time
      zone is UTC, where local midnight, local noon and the ISO (UTC)
      calendar day of a time value are all computed from the same day
      number.  Module [Zoned] is the route on a server in any time zone, with
      or without clock changes.  The two agree at the zone UTC
      ([zoned_POST_utc], [zoned_GET_utc]), and at every zone without clock
      changes that is at most twelve hours from UTC once the clock is read in
      local time ([fixedOffset_POST], [fixedOffset_GET]).
    - A string is represented by the bytes of its UTF-8 encoding.
    - Row ids are integers inside the range that JavaScript numbers hold
      exactly; the columns a row carries are never null.
    - Console logging is not modelled. *)

From Stdlib Require Import ZArith List String Ascii Bool Lia DecimalString.
From Stdlib Require Import Sorting.Sorted Sorting.Permutation.
Import ListNotations.

Local Open Scope string_scope.
Local Open Scope Z_scope.

(** ** Dates, on a server in UTC *)

Module JsDate.

(** [1000 * 60 * 60 * 24], the length of a day in milliseconds. *)
Definition msPerDay : Z := 1000 * 60 * 60 * 24.

(** [new Date(d + 'T12:00:00').getTime()]: noon of the calendar day [d],
    local time, which is UTC here. *)
Definition parseNoon (d : Z) : Z := d * msPerDay + 12 * 60 * 60 * 1000.

(** [new Date(d).getTime()] for a date-only string: midnight of day [d] in
    UTC, whatever the zone of the server. *)
Definition parseDateOnly (d : Z) : Z := d * msPerDay.

(** [t.setHours(0, 0, 0, 0)]: the start of the day that holds instant [t]. *)
Definition setHours0 (t : Z) : Z := t - t mod msPerDay.

(** [t.getDay()]: 0 = Sunday .. 6 = Saturday; day number 0 is a Thursday. *)
Definition getDay (t : Z) : Z := (t / msPerDay + 4) mod 7.

(** [t.setDate(t.getDate() + 1)]: the same time of day, one day later. *)
Definition nextDate (t : Z) : Z := t + msPerDay.

(** [t.toISOString().split('T')[0]]: the calendar day of instant [t] in UTC,
    whatever the zone of the server. *)
Definition toISODate (t : Z) : Z := t / msPerDay.

End JsDate.

Import JsDate.

(** ** Data model *)

(** One row of a cohort schedule table.  The columns the engine never reads
    (time, subject_type, subject_topic, the material and recording links,
    created_at) are left out. *)
Record Session := mkSession {
  id : Z;
  week_number : Z;
  session_number : Z;
  date : Z;
  day : string;
  session_type : string;
  subject_name : string
}.

(** An element of the [updates] array: [{ id, date, day }]. *)
Record Update := mkUpdate {
  u_id : Z;
  u_date : Z;
  u_day : string
}.

(** What a lookup in the [days] table of [getDayIndex] can evaluate to.  The
    table is a plain object literal, so besides its seven own keys a lookup
    also finds the members every object inherits from [Object.prototype];
    those are functions or objects, never numbers. *)
Inductive JsValue :=
| JsNumber (n : Z)
| JsInherited (key : string).

(** A field of the parsed JSON request body. *)
Inductive JsonValue :=
| JUndefined
| JNull
| JBool (b : bool)
| JNumber (n : Z)
| JString (s : string)
| JObject.

(** ** Helpers of the route *)

Definition dayNames : list string :=
  ["Sunday"; "Monday"; "Tuesday"; "Wednesday"; "Thursday"; "Friday"; "Saturday"].

(** Helper to get day name from date. *)
Definition getDayName (t : Z) : string :=
  nth (Z.to_nat (getDay t)) dayNames "".

Definition dayTable : list (string * Z) :=
  [("Sunday", 0); ("Monday", 1); ("Tuesday", 2); ("Wednesday", 3);
   ("Thursday", 4); ("Friday", 5); ("Saturday", 6)].

(** The property names of [Object.prototype]. *)
Definition objectPrototypeKeys : list string :=
  ["constructor"; "__defineGetter__"; "__defineSetter__"; "hasOwnProperty";
   "__lookupGetter__"; "__lookupSetter__"; "isPrototypeOf";
   "propertyIsEnumerable"; "toString"; "valueOf"; "__proto__";
   "toLocaleString"].

Fixpoint ownProperty (key : string) (table : list (string * Z)) : option Z :=
  match table with
  | [] => None
  | (k, v) :: rest => if String.eqb k key then Some v else ownProperty key rest
  end.

(** [days[dayName]]: an own key first, then the prototype chain, else
    [undefined] (here [None]). *)
Definition lookupDays (dayName : string) : option JsValue :=
  match ownProperty dayName dayTable with
  | Some n => Some (JsNumber n)
  | None =>
      if existsb (String.eqb dayName) objectPrototypeKeys
      then Some (JsInherited dayName)
      else None
  end.

(** Helper to get day index (0 = Sunday, 1 = Monday, etc.):
    [days[dayName] ?? -1]. *)
Definition getDayIndex (dayName : string) : JsValue :=
  match lookupDays dayName with
  | Some v => v
  | None => JsNumber (-1)
  end.

(** [targetDays.includes(n)] for a number [n]. *)
Definition includes (n : Z) (targetDays : list JsValue) : bool :=
  existsb (fun v => match v with JsNumber m => m =? n | JsInherited _ => false end)
          targetDays.

(** The [for (let i = 0; i < 7; i++)] loop of [findNextDay], with [fuel]
    iterations left and [result] the date under examination. *)
Fixpoint scanDays (fuel : nat) (result : Z) (targetDays : list JsValue) : Z :=
  match fuel with
  | O => result
  | S fuel' =>
      if includes (getDay result) targetDays then result
      else scanDays fuel' (nextDate result) targetDays
  end.

(** Find the next occurrence of any of the given days from a start date. *)
Definition findNextDay (fromDate : Z) (targetDays : list JsValue) : Z :=
  scanDays 7 (nextDate fromDate) targetDays.

(** ** Day-pattern detection (steps 3 of POST and GET) *)

Definition isContest (s : Session) : bool :=
  String.eqb (session_type s) "contest".

(** [allSessions.filter(s => s.session_type !== 'contest')] *)
Definition regularSessions (allSessions : list Session) : list Session :=
  filter (fun s => negb (isContest s)) allSessions.

(** [[...new Set(l)]]: the distinct elements of [l] in first-seen order. *)
Fixpoint newSet (l : list string) : list string :=
  match l with
  | [] => []
  | x :: rest => x :: filter (fun y => negb (String.eqb y x)) (newSet rest)
  end.

(** [[...new Set(regularSessions.map(s => s.day))].filter(Boolean)]: the
    empty string is the falsy day name. *)
Definition uniqueDays (allSessions : list Session) : list string :=
  filter (fun d => negb (String.eqb d ""))
         (newSet (map day (regularSessions allSessions))).

(** [i !== -1] *)
Definition notMinusOne (i : JsValue) : bool :=
  match i with
  | JsNumber n => negb (n =? -1)
  | JsInherited _ => true
  end.

(** [uniqueDays.map(d => getDayIndex(d)).filter(i => i !== -1)] *)
Definition mappedDays (allSessions : list Session) : list JsValue :=
  filter notMinusOne (map getDayIndex (uniqueDays allSessions)).

(** Monday, Wednesday, Friday. *)
Definition defaultPattern : list JsValue := [JsNumber 1; JsNumber 3; JsNumber 5].

(** [dayPattern] after the [if (dayPattern.length === 0) dayPattern.push(1, 3, 5)]. *)
Definition dayPattern (allSessions : list Session) : list JsValue :=
  match mappedDays allSessions with
  | [] => defaultPattern
  | p => p
  end.

(** Mon-Fri, the target days of a contest. *)
Definition weekdays : list JsValue :=
  [JsNumber 1; JsNumber 2; JsNumber 3; JsNumber 4; JsNumber 5].

(** ** The cascade (step 6 of POST, the same loop in GET) *)

(** One turn of the loop: the next [currentDate] for [session]. *)
Definition nextSessionDate (currentDate : Z) (pattern : list JsValue)
    (session : Session) : Z :=
  if isContest session then findNextDay currentDate weekdays
  else findNextDay currentDate pattern.

(** The [updates] pushed for the sessions after the shifted one, walked in
    the order of [allSessions]. *)
Fixpoint reschedule (currentDate : Z) (pattern : list JsValue)
    (subsequent : list Session) : list Update :=
  match subsequent with
  | [] => []
  | session :: rest =>
      let currentDate' := nextSessionDate currentDate pattern session in
      mkUpdate (id session) (toISODate currentDate') (getDayName currentDate')
        :: reschedule currentDate' pattern rest
  end.

(** ** Week and session renumbering (step 8 of POST, the same loop in GET) *)

Record WeekState := mkWeekState {
  currentWeekNumber : Z;
  sessionInWeek : Z;
  weekStartDate : Z
}.

(** The state before the loop, for a list whose first date is [firstDate]. *)
Definition initialWeek (firstDate : Z) : WeekState :=
  mkWeekState 1 0 (parseNoon firstDate).

(** [Math.floor((sessionDate.getTime() - weekStartDate.getTime()) / msPerDay)] *)
Definition daysSinceWeekStart (st : WeekState) (sessionDate : Z) : Z :=
  (sessionDate - weekStartDate st) / msPerDay.

(** The body of the loop up to and including [sessionInWeek++], for a row
    dated [d]. *)
Definition advanceWeek (st : WeekState) (d : Z) : WeekState :=
  let sessionDate := parseNoon d in
  let st1 :=
    if daysSinceWeekStart st sessionDate >=? 7
    then mkWeekState (currentWeekNumber st + 1) 0 sessionDate
    else st in
  mkWeekState (currentWeekNumber st1) (sessionInWeek st1 + 1) (weekStartDate st1).

(** The pairs the loop assigns to rows with the given dates, from state [st]. *)
Fixpoint assignFrom (st : WeekState) (dates : list Z) : list (Z * Z) :=
  match dates with
  | [] => []
  | d :: rest =>
      let st' := advanceWeek st d in
      (currentWeekNumber st', sessionInWeek st') :: assignFrom st' rest
  end.

(** The renumberer: the (week_number, session_number) pair assigned to each
    row of a list, in the order of the list. *)
Definition renumber (dates : list Z) : list (Z * Z) :=
  match dates with
  | [] => []
  | firstDate :: _ => assignFrom (initialWeek firstDate) dates
  end.

(** The pair a row stores. *)
Definition storedPair (s : Session) : Z * Z := (week_number s, session_number s).

(** [session.week_number !== currentWeekNumber ||
     session.session_number !== sessionInWeek] *)
Definition pairChanged (s : Session) (st : WeekState) : bool :=
  negb (week_number s =? currentWeekNumber st)
  || negb (session_number s =? sessionInWeek st).

(** ** Array helpers *)

(** [l.findIndex(p)], with -1 when no element satisfies [p]. *)
Fixpoint findIndex {A : Type} (p : A -> bool) (l : list A) : Z :=
  match l with
  | [] => -1
  | x :: rest =>
      if p x then 0
      else let i := findIndex p rest in if i =? -1 then -1 else i + 1
  end.

(** [l.sort((a, b) => key(a) - key(b))]; the sort of an array is stable. *)
Fixpoint insertSorted {A : Type} (key : A -> Z) (x : A) (l : list A) : list A :=
  match l with
  | [] => [x]
  | y :: rest =>
      if key x <=? key y then x :: y :: rest
      else y :: insertSorted key x rest
  end.

Fixpoint sortBy {A : Type} (key : A -> Z) (l : list A) : list A :=
  match l with
  | [] => []
  | x :: rest => insertSorted key x (sortBy key rest)
  end.

(** Template-literal rendering of a number. *)
Definition showNat (n : nat) : string := NilEmpty.string_of_uint (Nat.to_uint n).
Definition showZ (z : Z) : string := NilZero.string_of_int (Z.to_int z).

(** ** The storage service *)

(** What a query resolves to: [{ data, error }]. *)
Record Reply := mkReply {
  data : option (list Session);
  error : option string
}.

(** Everything outside the route that a request depends on: the clock, what
    the two [select] queries resolve to for the rows the table holds, and,
    for the n-th [update] call of the request, the error message it resolves
    to if it fails. *)
Record Env := mkEnv {
  now : Z;
  selectByWeekSession : list Session -> Reply;
  selectByDate : list Session -> Reply;
  updateFails : nat -> option string
}.

(** The table, and the number of [update] calls issued so far. *)
Record World := mkWorld {
  table : list Session;
  calls : nat
}.

(** Computations that read and write the table. *)
Definition DB (A : Type) : Type := World -> A * World.

Definition ret {A : Type} (a : A) : DB A := fun w => (a, w).

Definition bind {A B : Type} (m : DB A) (k : A -> DB B) : DB B :=
  fun w => let (a, w') := m w in k a w'.

Notation "x <- m ;; k" := (bind m (fun x => k))
  (at level 61, m at next level, right associativity).

(** [await supabaseB.from(tableName).select('*').order(...)] *)
Definition dbSelect (query : list Session -> Reply) : DB Reply :=
  fun w => (query (table w), w).

(** [await supabaseB.from(tableName).update(patch).eq('id', target)]: resolves
    to the error of the call, if any; a failed call changes no row. *)
Definition dbUpdate (env : Env) (patch : Session -> Session) (target : Z)
    : DB (option string) :=
  fun w =>
    match updateFails env (calls w) with
    | Some message => (Some message, mkWorld (table w) (S (calls w)))
    | None =>
        (None,
         mkWorld (map (fun r => if id r =? target then patch r else r) (table w))
                 (S (calls w)))
    end.

(** [{ date: d, day: dy }] *)
Definition setDateDay (d : Z) (dy : string) (r : Session) : Session :=
  mkSession (id r) (week_number r) (session_number r) d dy
            (session_type r) (subject_name r).

(** [{ week_number: w, session_number: n }] *)
Definition setNumbers (w n : Z) (r : Session) : Session :=
  mkSession (id r) w n (date r) (day r) (session_type r) (subject_name r).

(** A store that answers both queries, in the order asked for. *)
Definition answers (env : Env) : Prop :=
  forall rows,
    selectByWeekSession env rows
      = mkReply (Some (sortBy week_number (sortBy session_number rows))) None
    /\ selectByDate env rows = mkReply (Some (sortBy date rows)) None.

(** ** Requests and responses *)

(** The body of a POST: [{ tableName, sessionId, newDate }].  A missing
    [tableName] is the empty string, a missing [newDate] is [None]. *)
Record ShiftBody := mkShiftBody {
  tableName : string;
  sessionId : JsonValue;
  newDate : option Z
}.

(** The query of a GET; [searchParams.get] gives a string or null. *)
Record ShiftQuery := mkShiftQuery {
  q_tableName : option string;
  q_sessionId : option string;
  q_newDate : option Z
}.

(** An element of the [preview] array. *)
Record PreviewRow := mkPreviewRow {
  p_id : Z;
  oldWeek : Z;
  oldSession : Z;
  newWeek : Z;
  newSession : Z;
  p_session_type : string;
  p_subject_name : string;
  oldDate : Z;
  oldDay : string;
  p_newDate : Z;
  p_newDay : string
}.

(** The JSON bodies the two handlers answer with. *)
Inductive Body :=
| ErrorBody (error : string)
    (* { error } *)
| CaughtBody (error details : string)
    (* { error, details } *)
| FailureBody (error : string)
    (* { success: false, error } *)
| PartialBody (message : string) (updatedCount : nat) (errors : list string)
    (* { success: false, message, updatedCount, errors } *)
| AppliedBody (message : string) (updatedCount : nat) (updates : list Update)
    (* { success: true, message, updatedCount, updates } *)
| PreviewBody (shiftedSession : Z * Z * Z) (affectedCount : nat)
    (pattern : list string) (preview : list PreviewRow).
    (* { success: true, shiftedSession, affectedCount, dayPattern, preview } *)

Record Response := mkResponse {
  status : Z;
  body : Body
}.

(** [NextResponse.json(body)] answers with status 200. *)
Definition json (b : Body) : Response := mkResponse 200 b.

(** The [success] field of a body, when it has one. *)
Definition success (b : Body) : option bool :=
  match b with
  | ErrorBody _ | CaughtBody _ _ => None
  | FailureBody _ | PartialBody _ _ _ => Some false
  | AppliedBody _ _ _ | PreviewBody _ _ _ _ => Some true
  end.

(** [!!v] *)
Definition truthy (v : JsonValue) : bool :=
  match v with
  | JUndefined | JNull => false
  | JBool b => b
  | JNumber n => negb (n =? 0)
  | JString s => negb (String.eqb s "")
  | JObject => true
  end.

(** [n === v] for a number [n]: no coercion. *)
Definition strictEq (n : Z) (v : JsonValue) : bool :=
  match v with
  | JNumber m => n =? m
  | _ => false
  end.

(** [newDateObj <= today], with [today] the start of the current day and
    [newDateObj] noon of the requested day. *)
Definition notAfterToday (env : Env) (newDate : Z) : bool :=
  let today := setHours0 (now env) in
  let newDateObj := parseNoon newDate in
  newDateObj <=? today.

(** ** parseInt *)

(** The code of a byte. *)
Definition byteOf (c : ascii) : Z := Z.of_nat (nat_of_ascii c).

(** The white space and line terminators of one byte that [parseInt] skips:
    TAB, LF, VT, FF, CR and the space. *)
Definition isWhiteSpace (c : ascii) : bool :=
  let n := nat_of_ascii c in
  ((9 <=? n) && (n <=? 13) || (n =? 32))%nat.

(** Those of two bytes: U+00A0, the no-break space. *)
Definition isWhiteSpace2 (c1 c2 : ascii) : bool :=
  (byteOf c1 =? 194) && (byteOf c2 =? 160).

(** Those of three bytes: U+1680; U+2000 to U+200A, U+2028, U+2029 and
    U+202F; U+205F; U+3000; U+FEFF. *)
Definition isWhiteSpace3 (c1 c2 c3 : ascii) : bool :=
  let '(b1, b2, b3) := (byteOf c1, byteOf c2, byteOf c3) in
  (b1 =? 225) && (b2 =? 154) && (b3 =? 128)
  || (b1 =? 226) && (b2 =? 128)
     && ((128 <=? b3) && (b3 <=? 138) || (b3 =? 168) || (b3 =? 169) || (b3 =? 175))
  || (b1 =? 226) && (b2 =? 129) && (b3 =? 159)
  || (b1 =? 227) && (b2 =? 128) && (b3 =? 128)
  || (b1 =? 239) && (b2 =? 187) && (b3 =? 191).

(** The string without its leading white space. *)
Fixpoint trimStart (s : string) : string :=
  match s with
  | EmptyString => s
  | String c1 rest1 =>
      if isWhiteSpace c1 then trimStart rest1
      else
        match rest1 with
        | EmptyString => s
        | String c2 rest2 =>
            if isWhiteSpace2 c1 c2 then trimStart rest2
            else
              match rest2 with
              | EmptyString => s
              | String c3 rest3 =>
                  if isWhiteSpace3 c1 c2 c3 then trimStart rest3 else s
              end
        end
  end.

(** The value of a character as a digit: 0-9, then a-z and A-Z for 10-35. *)
Definition digitValue (c : ascii) : option Z :=
  let n := Z.of_nat (nat_of_ascii c) in
  if (48 <=? n) && (n <=? 57) then Some (n - 48)
  else if (97 <=? n) && (n <=? 122) then Some (n - 87)
  else if (65 <=? n) && (n <=? 90) then Some (n - 55)
  else None.

(** The number spelled by the longest prefix of [s] made of digits of the
    radix; [acc] is the value read so far, [None] while no digit was read. *)
Fixpoint digitsPrefix (radix : Z) (s : string) (acc : option Z) : option Z :=
  match s with
  | EmptyString => acc
  | String c rest =>
      match digitValue c with
      | Some v =>
          if v <? radix
          then digitsPrefix radix rest
                 (Some (match acc with Some a => a * radix + v | None => v end))
          else acc
      | None => acc
      end
  end.

(** What [parseInt] returns: NaN, an infinity, or an integer that a Number
    holds exactly. *)
Inductive Parsed :=
| NaN
| Infinite (negative : bool)
| Finite (n : Z).

(** The Number for the integer [m]: [m] itself up to 53 bits, beyond that
    [m] rounded to 53 significant bits, a tie going to the even neighbour,
    and an infinity from 2^1024 on.  (Past the twentieth significant digit
    the language lets an implementation read the later digits as zeros; the
    value here is the one it defines without that licence.) *)
Definition toNumber (m : Z) : Parsed :=
  let a := Z.abs m in
  let e := Z.log2 a - 52 in
  if e <=? 0 then Finite m
  else
    let q := Z.shiftr a e in
    let r := a - Z.shiftl q e in
    let half := Z.shiftl 1 (e - 1) in
    let q' := if (half <? r) || ((r =? half) && Z.odd q) then q + 1 else q in
    if 1024 <=? Z.log2 (Z.shiftl q' e) then Infinite (m <? 0)
    else Finite (Z.sgn m * Z.shiftl q' e).

(** [parseInt(s)] with no radix argument.  The sign of a zero is not kept:
    [-0 === 0]. *)
Definition parseInt (s : string) : Parsed :=
  let s1 := trimStart s in
  let '(sign, s2) :=
    match s1 with
    | String "-" rest => (-1, rest)
    | String "+" rest => (1, rest)
    | _ => (1, s1)
    end in
  let '(radix, s3) :=
    match s2 with
    | String "0" (String "x" rest) => (16, rest)
    | String "0" (String "X" rest) => (16, rest)
    | _ => (10, s2)
    end in
  match digitsPrefix radix s3 None with
  | Some m => toNumber (sign * m)
  | None => NaN
  end.

(** [n === parseInt(s)]; NaN and the infinities equal no stored id. *)
Definition eqParsed (n : Z) (s : string) : bool :=
  match parseInt s with
  | Finite m => n =? m
  | _ => false
  end.

(** ** POST: apply a shift *)

(** [`Session ${update.id}: ${updateError.message}`] *)
Definition errorLine (update : Update) (message : string) : string :=
  ("Session " ++ showZ (u_id update) ++ ": " ++ message)%string.

(** Step 7: apply all updates, collecting [errors] and [successfulUpdates]. *)
Fixpoint applyUpdates (env : Env) (updates : list Update)
    : DB (list string * list Z) :=
  match updates with
  | [] => ret ([], [])
  | update :: rest =>
      updateError <-
        dbUpdate env (setDateDay (u_date update) (u_day update)) (u_id update) ;;
      r <- applyUpdates env rest ;;
      ret (match updateError with
           | Some message =>
               (errorLine update message :: fst r, snd r)
           | None => (fst r, u_id update :: snd r)
           end)
  end.

(** The loop of step 8 over [updatedSessions]; the outcome of each update is
    not looked at. *)
Fixpoint renumberRows (env : Env) (st : WeekState) (rows : list Session)
    : DB unit :=
  match rows with
  | [] => ret tt
  | session :: rest =>
      let st' := advanceWeek st (date session) in
      _ <- (if pairChanged session st'
            then _ <- dbUpdate env
                        (setNumbers (currentWeekNumber st') (sessionInWeek st'))
                        (id session) ;;
                 ret tt
            else ret tt) ;;
      renumberRows env st' rest
  end.

(** Step 8: re-fetch by date and renumber, when the re-fetch gave rows. *)
Definition renumberPass (env : Env) : DB unit :=
  reply <- dbSelect (selectByDate env) ;;
  match error reply, data reply with
  | None, Some (first :: rest) =>
      renumberRows env (initialWeek (date first)) (first :: rest)
  | _, _ => ret tt
  end.

Definition msgMissingFields : string :=
  "Missing required fields: tableName, sessionId, newDate".
Definition msgMissingParams : string :=
  "Missing required params: tableName, sessionId, newDate".
Definition msgFetchFailed : string := "Failed to fetch sessions".
Definition msgNotFound : string := "Session not found".
Definition msgSameDatePost : string :=
  "New date is the same as current date. No changes needed.".
Definition msgSameDateGet : string :=
  "New date is the same as current date. Please select a different date.".
Definition msgNotFuture : string :=
  "New date must be greater than today. Cannot shift to past or current date.".
Definition msgUndefined : string := "Cannot read properties of undefined".

(** Steps 4 to 6: the [updates] array for shifting the row at [sessionIndex]
    to [newDate].  The first update carries the id of the row found, which
    is the [sessionId] it was found by. *)
Definition buildUpdates (allSessions : list Session) (sessionIndex : nat)
    (sessionToShift : Session) (newDate : Z) : list Update :=
  let shiftedDate := parseNoon newDate in
  mkUpdate (id sessionToShift) newDate (getDayName shiftedDate)
    :: reschedule shiftedDate (dayPattern allSessions)
         (skipn (S sessionIndex) allSessions).

(** The answer after steps 7 and 8: 207 when some update failed, else 200. *)
Definition shiftResult (updates : list Update) (errors : list string)
    (successfulUpdates : list Z) : Response :=
  if (0 <? List.length errors)%nat
  then mkResponse 207
         (PartialBody
            ("Partially updated. "
               ++ showNat (List.length successfulUpdates)
               ++ " succeeded, " ++ showNat (List.length errors)
               ++ " failed.")%string
            (List.length successfulUpdates) errors)
  else json
         (AppliedBody
            ("Successfully shifted class and rescheduled "
               ++ showNat (List.length updates - 1)%nat
               ++ " subsequent classes")%string
            (List.length updates) updates).

Definition POST (env : Env) (req : ShiftBody) : DB Response :=
  match negb (String.eqb (tableName req) ""), truthy (sessionId req), newDate req with
  | true, true, Some newDate =>
      reply <- dbSelect (selectByWeekSession env) ;;
      match error reply, data reply with
      | None, Some allSessions =>
          let sessionIndex :=
            findIndex (fun s => strictEq (id s) (sessionId req)) allSessions in
          if sessionIndex =? -1
          then ret (mkResponse 404 (ErrorBody msgNotFound))
          else
            match nth_error allSessions (Z.to_nat sessionIndex) with
            | None =>
                ret (mkResponse 500 (CaughtBody "Failed to shift class" msgUndefined))
            | Some sessionToShift =>
                if date sessionToShift =? newDate
                then ret (mkResponse 400 (ErrorBody msgSameDatePost))
                else if notAfterToday env newDate
                then ret (mkResponse 400 (ErrorBody msgNotFuture))
                else
                  let updates :=
                    buildUpdates allSessions (Z.to_nat sessionIndex)
                                 sessionToShift newDate in
                  r <- applyUpdates env updates ;;
                  _ <- renumberPass env ;;
                  ret (shiftResult updates (fst r) (snd r))
            end
      | _, _ => ret (mkResponse 500 (ErrorBody msgFetchFailed))
      end
  | _, _, _ => ret (mkResponse 400 (ErrorBody msgMissingFields))
  end.

(** ** GET: preview a shift *)

(** An element of [newDates] and [allNewDates]:
    [{ id, newDate, newDay, oldData }]. *)
Record NewDateItem := mkNewDateItem {
  i_id : Z;
  i_newDate : Z;
  i_newDay : string;
  oldData : Session
}.

(** A row before the shifted one: it stays unchanged. *)
Definition unchangedItem (s : Session) : NewDateItem :=
  mkNewDateItem (id s) (date s) (day s) s.

(** The new dates of the sessions after the shifted one. *)
Fixpoint projectDates (currentDate : Z) (pattern : list JsValue)
    (subsequent : list Session) : list NewDateItem :=
  match subsequent with
  | [] => []
  | session :: rest =>
      let currentDate' := nextSessionDate currentDate pattern session in
      mkNewDateItem (id session) (toISODate currentDate')
                    (getDayName currentDate') session
        :: projectDates currentDate' pattern rest
  end.

(** [allNewDates], sorted by new date. *)
Definition allNewDates (allSessions : list Session) (sessionIndex : nat)
    (sessionToShift : Session) (newDate : Z) : list NewDateItem :=
  let shiftedDate := parseNoon newDate in
  let newDates :=
    mkNewDateItem (id sessionToShift) newDate (getDayName shiftedDate)
                  sessionToShift
      :: projectDates shiftedDate (dayPattern allSessions)
           (skipn (S sessionIndex) allSessions) in
  sortBy (fun a => parseDateOnly (i_newDate a))
         (map unchangedItem (firstn sessionIndex allSessions) ++ newDates).

(** Whether an item is the shifted session or comes after it. *)
Definition affected (allSessions : list Session) (sessionIndex : Z)
    (sessionToShift : Session) (item : NewDateItem) : bool :=
  (id (oldData item) =? id sessionToShift)
  || (findIndex (fun s => id s =? i_id item) allSessions >? sessionIndex).

(** The renumbering loop of the preview. *)
Fixpoint previewRows (allSessions : list Session) (sessionIndex : Z)
    (sessionToShift : Session) (st : WeekState) (items : list NewDateItem)
    : list PreviewRow :=
  match items with
  | [] => []
  | item :: rest =>
      let st' := advanceWeek st (i_newDate item) in
      let later := previewRows allSessions sessionIndex sessionToShift st' rest in
      if affected allSessions sessionIndex sessionToShift item
      then mkPreviewRow (i_id item)
             (week_number (oldData item)) (session_number (oldData item))
             (currentWeekNumber st') (sessionInWeek st')
             (session_type (oldData item)) (subject_name (oldData item))
             (date (oldData item)) (day (oldData item))
             (i_newDate item) (i_newDay item)
           :: later
      else later
  end.

(** [!!s] for a query parameter. *)
Definition present (o : option string) : bool :=
  match o with
  | Some s => negb (String.eqb s "")
  | None => false
  end.

Definition GET (env : Env) (req : ShiftQuery) : DB Response :=
  match present (q_tableName req), q_sessionId req, q_newDate req with
  | true, Some sessionId, Some newDate =>
      if String.eqb sessionId ""
      then ret (mkResponse 400 (ErrorBody msgMissingParams))
      else
      reply <- dbSelect (selectByWeekSession env) ;;
      match error reply, data reply with
      | None, Some allSessions =>
          let sessionIndex :=
            findIndex (fun s => eqParsed (id s) sessionId) allSessions in
          if sessionIndex =? -1
          then ret (mkResponse 404 (ErrorBody msgNotFound))
          else
            match nth_error allSessions (Z.to_nat sessionIndex) with
            | None =>
                ret (mkResponse 500
                       (CaughtBody "Failed to preview shift" msgUndefined))
            | Some sessionToShift =>
                if date sessionToShift =? newDate
                then ret (mkResponse 400 (FailureBody msgSameDateGet))
                else if notAfterToday env newDate
                then ret (mkResponse 400 (FailureBody msgNotFuture))
                else
                  let items :=
                    allNewDates allSessions (Z.to_nat sessionIndex)
                                sessionToShift newDate in
                  match items with
                  | [] =>
                      ret (mkResponse 500
                             (CaughtBody "Failed to preview shift" msgUndefined))
                  | first :: _ =>
                      let preview :=
                        previewRows allSessions sessionIndex sessionToShift
                                    (initialWeek (i_newDate first)) items in
                      ret (json
                             (PreviewBody
                                (id sessionToShift, week_number sessionToShift,
                                 session_number sessionToShift)
                                (List.length preview)
                                (uniqueDays allSessions)
                                preview))
                  end
            end
      | _, _ => ret (mkResponse 500 (ErrorBody msgFetchFailed))
      end
  | _, _, _ => ret (mkResponse 400 (ErrorBody msgMissingParams))
  end.

(** ** Small runs *)

Definition demoRows : list Session :=
  [mkSession 1 1 1 20003 "Monday" "class" "Arrays";
   mkSession 2 1 2 20005 "Wednesday" "class" "Strings";
   mkSession 3 2 1 20008 "Saturday" "contest" "Contest 1";
   mkSession 4 2 2 20010 "Monday" "class" "Trees"].

Definition demoEnv (t : Z) : Env :=
  mkEnv t
        (fun rows => mkReply (Some (sortBy week_number (sortBy session_number rows))) None)
        (fun rows => mkReply (Some (sortBy date rows)) None)
        (fun _ => None).

(** A store whose second update call of a request fails. *)
Definition flakyEnv (t : Z) : Env :=
  mkEnv t
        (fun rows => mkReply (Some (sortBy week_number (sortBy session_number rows))) None)
        (fun rows => mkReply (Some (sortBy date rows)) None)
        (fun k => if (k =? 1)%nat then Some "connection reset" else None).

(** A store whose re-fetch by date fails. *)
Definition blindEnv (t : Z) : Env :=
  mkEnv t
        (fun rows => mkReply (Some (sortBy week_number (sortBy session_number rows))) None)
        (fun _ => mkReply None (Some "timeout"))
        (fun _ => None).

(** A store whose first query fails. *)
Definition deafEnv (t : Z) : Env :=
  mkEnv t
        (fun _ => mkReply None (Some "timeout"))
        (fun rows => mkReply (Some (sortBy date rows)) None)
        (fun _ => None).

(** Shift session 2 of [demoRows] to day 20012, a Wednesday. *)
Definition demoShift : ShiftBody :=
  mkShiftBody "basic2_0_schedule" (JNumber 2) (Some 20012).

Definition demoSession2 : Session :=
  mkSession 2 1 2 20005 "Wednesday" "class" "Strings".

(** The preview of [demoShift]. *)
Definition demoQuery : ShiftQuery :=
  mkShiftQuery (Some "basic2_0_schedule"%string) (Some "2"%string) (Some 20012).

(** Half past nine in the morning of day 20012. *)
Definition morningOf20012 : Z := parseDateOnly 20012 + (9 * 60 + 30) * 60 * 1000.

(** ** The table after renumbering *)

(** A list of rows with the given pairs written into them, row by row. *)
Definition withPairs (rows : list Session) (pairs : list (Z * Z)) : list Session :=
  map (fun rp => setNumbers (fst (snd rp)) (snd (snd rp)) (fst rp))
      (combine rows pairs).

(** A list of rows as the renumberer numbers it. *)
Definition relabel (rows : list Session) : list Session :=
  withPairs rows (renumber (map date rows)).

(** A row with the pair that a list of (id, pair) entries gives its id. *)
Definition numbersOf (entries : list (Z * (Z * Z))) (r : Session) : Session :=
  match find (fun e => fst e =? id r) entries with
  | Some (_, (w, n)) => setNumbers w n r
  | None => r
  end.

(** A store on which no update call fails. *)
Definition reliable (env : Env) : Prop := forall k, updateFails env k = None.

(** The pair a preview row announces. *)
Definition previewPair (p : PreviewRow) : Z * Z := (newWeek p, newSession p).

(** ** The detector as the specification words it *)

(** The name-to-index table read as a partial map on names: a weekday name
    has an index, every other name is unmapped. *)
Definition indexOfName (d : string) : list Z :=
  match ownProperty d dayTable with
  | Some n => [n]
  | None => []
  end.

(** Leave out the contests, take the distinct day names of the rest in
    first-seen order, map each through the table dropping the unmapped ones,
    and fall back to Monday, Wednesday, Friday when nothing is left. *)
Definition detectorOfSpec (allSessions : list Session) : list Z :=
  match flat_map indexOfName (newSet (map day (regularSessions allSessions))) with
  | [] => [1; 3; 5]
  | p => p
  end.

(** A pattern that holds at least one weekday index. *)
Definition hasWeekday (pattern : list JsValue) : Prop :=
  exists n, 0 <= n < 7 /\ In (JsNumber n) pattern.

(** The weekday, 0 = Sunday .. 6 = Saturday, of calendar day [d]. *)
Definition weekdayOf (d : Z) : Z := getDay (parseNoon d).

(** Lexicographic order on (week_number, session_number) pairs. *)
Definition pairLt (p q : Z * Z) : Prop :=
  fst p < fst q \/ (fst p = fst q /\ snd p < snd q).

(** The step from one assigned pair to the next: the next position of the
    same week, or position 1 of the next week. *)
Definition pairNext (p q : Z * Z) : Prop :=
  (fst q = fst p /\ snd q = snd p + 1) \/ (fst q = fst p + 1 /\ snd q = 1).

(** Two regular sessions whose day is the name of an inherited member. *)
Definition oddRows : list Session :=
  [mkSession 1 1 1 20003 "constructor" "class" "Arrays";
   mkSession 2 1 2 20005 "constructor" "class" "Strings"].

(** ** Outcomes of the update calls *)

(** The updates of a batch that fail, with their messages, when the first
    of them is the [k]-th update call of the request. *)
Fixpoint failedFrom (env : Env) (k : nat) (updates : list Update)
    : list (Update * string) :=
  match updates with
  | [] => []
  | u :: rest =>
      match updateFails env k with
      | Some message => (u, message) :: failedFrom env (S k) rest
      | None => failedFrom env (S k) rest
      end
  end.

(** The updates of the batch that succeed. *)
Fixpoint succeededFrom (env : Env) (k : nat) (updates : list Update)
    : list Update :=
  match updates with
  | [] => []
  | u :: rest =>
      match updateFails env k with
      | Some _ => succeededFrom env (S k) rest
      | None => u :: succeededFrom env (S k) rest
      end
  end.

(** The date and day a succeeded update writes. *)
Definition patchOf (u : Update) (r : Session) : Session :=
  if id r =? u_id u then setDateDay (u_date u) (u_day u) r else r.

(** The patches of a list of succeeded updates, in order. *)
Definition patchAll (us : list Update) (t : list Session) : list Session :=
  fold_left (fun t u => map (patchOf u) t) us t.

(** The columns step 8 never writes. *)
Definition fixedColumns (r : Session) : Z * Z * string * string * string :=
  (id r, date r, day r, session_type r, subject_name r).

(** A POST that passes every check before step 3: the fields are there, the
    first query answers [allSessions], the session is found at
    [sessionIndex], and the requested day [d] is not its stored day and
    passes the date check. *)
Definition ShiftAccepted (env : Env) (req : ShiftBody) (w : World)
    (allSessions : list Session) (sessionIndex : nat)
    (sessionToShift : Session) (d : Z) : Prop :=
  tableName req <> ""
  /\ truthy (sessionId req) = true
  /\ newDate req = Some d
  /\ selectByWeekSession env (table w) = mkReply (Some allSessions) None
  /\ findIndex (fun s => strictEq (id s) (sessionId req)) allSessions
     = Z.of_nat sessionIndex
  /\ nth_error allSessions sessionIndex = Some sessionToShift
  /\ date sessionToShift <> d
  /\ notAfterToday env d = false.

(** A re-fetch that step 8 cannot use: an error, no data, or no rows. *)
Definition refetchUnusable (reply : Reply) : Prop :=
  error reply <> None \/ data reply = None \/ data reply = Some [].

(** A POST that reaches the row to shift: the fields are there, the first
    query answers [allSessions], and the session is found at [sessionIndex];
    [d] is the requested day. *)
Definition ShiftFound (env : Env) (req : ShiftBody) (w : World)
    (allSessions : list Session) (sessionIndex : nat)
    (sessionToShift : Session) (d : Z) : Prop :=
  tableName req <> ""
  /\ truthy (sessionId req) = true
  /\ newDate req = Some d
  /\ selectByWeekSession env (table w) = mkReply (Some allSessions) None
  /\ findIndex (fun s => strictEq (id s) (sessionId req)) allSessions
     = Z.of_nat sessionIndex
  /\ nth_error allSessions sessionIndex = Some sessionToShift.

(** The patches of a list of succeeded updates on one row. *)
Definition patchRow (us : list Update) (r : Session) : Session :=
  fold_left (fun r u => patchOf u r) us r.

(** The rows of a list whose stored pair is not the pair listed for them. *)
Definition changedRows (rows : list Session) (pairs : list (Z * Z))
    : list (Session * (Z * Z)) :=
  filter (fun rp => negb (week_number (fst rp) =? fst (snd rp))
                    || negb (session_number (fst rp) =? snd (snd rp)))
         (combine rows pairs).

(** The update a preview row announces, and the one an item stands for. *)
Definition previewUpdate (p : PreviewRow) : Update :=
  mkUpdate (p_id p) (p_newDate p) (p_newDay p).

Definition itemUpdate (item : NewDateItem) : Update :=
  mkUpdate (i_id item) (i_newDate item) (i_newDay item).

(** A GET that passes every check: the parameters are there, the first
    query answers [allSessions], the session is found at [sessionIndex],
    and the requested day [d] is not its stored day and passes the date
    check. *)
Definition PreviewAccepted (env : Env) (req : ShiftQuery) (w : World)
    (allSessions : list Session) (sessionIndex : nat)
    (sessionToShift : Session) (d : Z) : Prop :=
  present (q_tableName req) = true
  /\ (exists sid, q_sessionId req = Some sid /\ sid <> ""
                  /\ findIndex (fun r => eqParsed (id r) sid) allSessions
                     = Z.of_nat sessionIndex)
  /\ q_newDate req = Some d
  /\ selectByWeekSession env (table w) = mkReply (Some allSessions) None
  /\ nth_error allSessions sessionIndex = Some sessionToShift
  /\ date sessionToShift <> d
  /\ notAfterToday env d = false.

(** * The route on a server in any time zone

    [new Date(d + 'T12:00:00')], [getDay], [setDate] and [setHours] work in
    the local time of the server; [toISOString] and [new Date(d)] for a
    date-only string work in UTC.  The functions above are the route on a
    server whose zone is UTC.  This module has the same functions with the
    zone of the server as a parameter; what does not depend on the zone (the
    day-pattern detection, the update calls, the sort, the answers) is
    shared. *)

Module Zoned.

(** A time zone, as the Date object sees it: the offset of local time from
    UTC, in milliseconds, in force at a time value, and the offset with
    which a local time is turned into a time value.  Around a clock change
    the two differ: a local time that the change skips or repeats is turned
    into a time value with the offset in force before the change. *)
Record Zone := mkZone {
  offsetAt : Z -> Z;
  offsetOfLocal : Z -> Z
}.

(** [LocalTime(t)] and [UTC(t)] of the language specification. *)
Definition LocalTime (z : Zone) (t : Z) : Z := t + offsetAt z t.
Definition UTC (z : Zone) (t : Z) : Z := t - offsetOfLocal z t.

(** Twelve o'clock of calendar day [d], as a local time. *)
Definition localNoon (d : Z) : Z := d * msPerDay + 12 * 60 * 60 * 1000.

(** [new Date(d + 'T12:00:00').getTime()]: a date-time string with no offset
    is a local time. *)
Definition parseNoon (z : Zone) (d : Z) : Z := UTC z (localNoon d).

(** [t.setHours(0, 0, 0, 0)]: the start of the local day that holds [t]. *)
Definition setHours0 (z : Zone) (t : Z) : Z :=
  let local := LocalTime z t in
  UTC z (local - local mod msPerDay).

(** [t.getDay()]: the weekday of the local day that holds [t]. *)
Definition getDay (z : Zone) (t : Z) : Z :=
  (LocalTime z t / msPerDay + 4) mod 7.

(** [t.setDate(t.getDate() + 1)]: the same local time of day, on the next
    local day. *)
Definition nextDate (z : Zone) (t : Z) : Z :=
  UTC z (LocalTime z t + msPerDay).

Definition getDayName (z : Zone) (t : Z) : string :=
  nth (Z.to_nat (getDay z t)) dayNames "".

Fixpoint scanDays (z : Zone) (fuel : nat) (result : Z)
    (targetDays : list JsValue) {struct fuel} : Z :=
  match fuel with
  | O => result
  | S fuel' =>
      if includes (getDay z result) targetDays then result
      else scanDays z fuel' (nextDate z result) targetDays
  end.

Definition findNextDay (z : Zone) (fromDate : Z) (targetDays : list JsValue)
    : Z :=
  scanDays z 7 (nextDate z fromDate) targetDays.

Definition nextSessionDate (z : Zone) (currentDate : Z)
    (pattern : list JsValue) (session : Session) : Z :=
  if isContest session then findNextDay z currentDate weekdays
  else findNextDay z currentDate pattern.

(** The date of an update is the UTC day of [currentDate], its day the name
    of the local weekday. *)
Fixpoint reschedule (z : Zone) (currentDate : Z) (pattern : list JsValue)
    (subsequent : list Session) {struct subsequent} : list Update :=
  match subsequent with
  | [] => []
  | session :: rest =>
      let currentDate' := nextSessionDate z currentDate pattern session in
      mkUpdate (id session) (toISODate currentDate') (getDayName z currentDate')
        :: reschedule z currentDate' pattern rest
  end.

Definition initialWeek (z : Zone) (firstDate : Z) : WeekState :=
  mkWeekState 1 0 (parseNoon z firstDate).

Definition advanceWeek (z : Zone) (st : WeekState) (d : Z) : WeekState :=
  let sessionDate := parseNoon z d in
  let st1 :=
    if daysSinceWeekStart st sessionDate >=? 7
    then mkWeekState (currentWeekNumber st + 1) 0 sessionDate
    else st in
  mkWeekState (currentWeekNumber st1) (sessionInWeek st1 + 1) (weekStartDate st1).

Fixpoint renumberRows (z : Zone) (env : Env) (st : WeekState)
    (rows : list Session) {struct rows} : DB unit :=
  match rows with
  | [] => ret tt
  | session :: rest =>
      let st' := advanceWeek z st (date session) in
      _ <- (if pairChanged session st'
            then _ <- dbUpdate env
                        (setNumbers (currentWeekNumber st') (sessionInWeek st'))
                        (id session) ;;
                 ret tt
            else ret tt) ;;
      renumberRows z env st' rest
  end.

Definition renumberPass (z : Zone) (env : Env) : DB unit :=
  reply <- dbSelect (selectByDate env) ;;
  match error reply, data reply with
  | None, Some (first :: rest) =>
      renumberRows z env (initialWeek z (date first)) (first :: rest)
  | _, _ => ret tt
  end.

Definition buildUpdates (z : Zone) (allSessions : list Session)
    (sessionIndex : nat) (sessionToShift : Session) (newDate : Z)
    : list Update :=
  let shiftedDate := parseNoon z newDate in
  mkUpdate (id sessionToShift) newDate (getDayName z shiftedDate)
    :: reschedule z shiftedDate (dayPattern allSessions)
         (skipn (S sessionIndex) allSessions).

Definition notAfterToday (z : Zone) (env : Env) (newDate : Z) : bool :=
  let today := setHours0 z (now env) in
  let newDateObj := parseNoon z newDate in
  newDateObj <=? today.

Definition POST (z : Zone) (env : Env) (req : ShiftBody) : DB Response :=
  match negb (String.eqb (tableName req) ""), truthy (sessionId req), newDate req with
  | true, true, Some newDate =>
      reply <- dbSelect (selectByWeekSession env) ;;
      match error reply, data reply with
      | None, Some allSessions =>
          let sessionIndex :=
            findIndex (fun s => strictEq (id s) (sessionId req)) allSessions in
          if sessionIndex =? -1
          then ret (mkResponse 404 (ErrorBody msgNotFound))
          else
            match nth_error allSessions (Z.to_nat sessionIndex) with
            | None =>
                ret (mkResponse 500 (CaughtBody "Failed to shift class" msgUndefined))
            | Some sessionToShift =>
                if date sessionToShift =? newDate
                then ret (mkResponse 400 (ErrorBody msgSameDatePost))
                else if notAfterToday z env newDate
                then ret (mkResponse 400 (ErrorBody msgNotFuture))
                else
                  let updates :=
                    buildUpdates z allSessions (Z.to_nat sessionIndex)
                                 sessionToShift newDate in
                  r <- applyUpdates env updates ;;
                  _ <- renumberPass z env ;;
                  ret (shiftResult updates (fst r) (snd r))
            end
      | _, _ => ret (mkResponse 500 (ErrorBody msgFetchFailed))
      end
  | _, _, _ => ret (mkResponse 400 (ErrorBody msgMissingFields))
  end.

Fixpoint projectDates (z : Zone) (currentDate : Z) (pattern : list JsValue)
    (subsequent : list Session) {struct subsequent} : list NewDateItem :=
  match subsequent with
  | [] => []
  | session :: rest =>
      let currentDate' := nextSessionDate z currentDate pattern session in
      mkNewDateItem (id session) (toISODate currentDate')
                    (getDayName z currentDate') session
        :: projectDates z currentDate' pattern rest
  end.

(** The sort key is [new Date(a.newDate).getTime()], a UTC midnight. *)
Definition allNewDates (z : Zone) (allSessions : list Session)
    (sessionIndex : nat) (sessionToShift : Session) (newDate : Z)
    : list NewDateItem :=
  let shiftedDate := parseNoon z newDate in
  let newDates :=
    mkNewDateItem (id sessionToShift) newDate (getDayName z shiftedDate)
                  sessionToShift
      :: projectDates z shiftedDate (dayPattern allSessions)
           (skipn (S sessionIndex) allSessions) in
  sortBy (fun a => parseDateOnly (i_newDate a))
         (map unchangedItem (firstn sessionIndex allSessions) ++ newDates).

Fixpoint previewRows (z : Zone) (allSessions : list Session) (sessionIndex : Z)
    (sessionToShift : Session) (st : WeekState) (items : list NewDateItem)
    {struct items} : list PreviewRow :=
  match items with
  | [] => []
  | item :: rest =>
      let st' := advanceWeek z st (i_newDate item) in
      let later :=
        previewRows z allSessions sessionIndex sessionToShift st' rest in
      if affected allSessions sessionIndex sessionToShift item
      then mkPreviewRow (i_id item)
             (week_number (oldData item)) (session_number (oldData item))
             (currentWeekNumber st') (sessionInWeek st')
             (session_type (oldData item)) (subject_name (oldData item))
             (date (oldData item)) (day (oldData item))
             (i_newDate item) (i_newDay item)
           :: later
      else later
  end.

Definition GET (z : Zone) (env : Env) (req : ShiftQuery) : DB Response :=
  match present (q_tableName req), q_sessionId req, q_newDate req with
  | true, Some sessionId, Some newDate =>
      if String.eqb sessionId ""
      then ret (mkResponse 400 (ErrorBody msgMissingParams))
      else
      reply <- dbSelect (selectByWeekSession env) ;;
      match error reply, data reply with
      | None, Some allSessions =>
          let sessionIndex :=
            findIndex (fun s => eqParsed (id s) sessionId) allSessions in
          if sessionIndex =? -1
          then ret (mkResponse 404 (ErrorBody msgNotFound))
          else
            match nth_error allSessions (Z.to_nat sessionIndex) with
            | None =>
                ret (mkResponse 500
                       (CaughtBody "Failed to preview shift" msgUndefined))
            | Some sessionToShift =>
                if date sessionToShift =? newDate
                then ret (mkResponse 400 (FailureBody msgSameDateGet))
                else if notAfterToday z env newDate
                then ret (mkResponse 400 (FailureBody msgNotFuture))
                else
                  let items :=
                    allNewDates z allSessions (Z.to_nat sessionIndex)
                                sessionToShift newDate in
                  match items with
                  | [] =>
                      ret (mkResponse 500
                             (CaughtBody "Failed to preview shift" msgUndefined))
                  | first :: _ =>
                      let preview :=
                        previewRows z allSessions sessionIndex sessionToShift
                                    (initialWeek z (i_newDate first)) items in
                      ret (json
                             (PreviewBody
                                (id sessionToShift, week_number sessionToShift,
                                 session_number sessionToShift)
                                (List.length preview)
                                (uniqueDays allSessions)
                                preview))
                  end
            end
      | _, _ => ret (mkResponse 500 (ErrorBody msgFetchFailed))
      end
  | _, _, _ => ret (mkResponse 400 (ErrorBody msgMissingParams))
  end.

(** ** Zones *)

Definition hour : Z := 60 * 60 * 1000.

(** A zone whose clocks never change: local time is UTC plus [o]. *)
Definition fixedOffset (o : Z) : Zone := mkZone (fun _ => o) (fun _ => o).

Definition utc : Zone := fixedOffset 0.

(** Asia/Kolkata: UTC+05:30 the whole year. *)
Definition kolkata : Zone := fixedOffset (5 * hour + 30 * 60 * 1000).

(** Pacific/Kiritimati: UTC+14 the whole year. *)
Definition kiritimati : Zone := fixedOffset (14 * hour).

(** The time value at which the clocks of New York went forward in 2024:
    07:00 UTC on 10 March (day 19792), 02:00 of the local winter time. *)
Definition springForward : Z := 19792 * msPerDay + 7 * hour.

(** America/New_York around that change: UTC-5 before it, UTC-4 after it.
    The local hour from 02:00 to 03:00 of that day is skipped, and is read
    with the offset in force before the change. *)
Definition newYork : Zone :=
  mkZone (fun t => if t <? springForward then - (5 * hour) else - (4 * hour))
         (fun local => if local <? springForward - 4 * hour
                       then - (5 * hour) else - (4 * hour)).

(** ** What a statement may ask of the zone *)

(** Noon exists on every day: the time value of the local noon of a day
    reads back as that noon. *)
Definition noonExists (z : Zone) : Prop :=
  forall d, LocalTime z (parseNoon z d) = localNoon d.

(** The local noon of every day exists and falls on the same calendar day
    in UTC. *)
Definition noonOnSameDay (z : Zone) : Prop :=
  noonExists z /\ forall d, toISODate (parseNoon z d) = d.

(** The offset with which the local noon of day [d] is read. *)
Definition noonOffset (z : Zone) (d : Z) : Z := offsetOfLocal z (localNoon d).

(** The name of the weekday of calendar day [d]; day 0 is a Thursday. *)
Definition weekdayName (d : Z) : string :=
  nth (Z.to_nat ((d + 4) mod 7)) dayNames "".

(** The clock of a server whose local time is [o] ahead: what the UTC
    server of the first part has to read to see the same local day. *)
Definition localClock (o : Z) (env : Env) : Env :=
  mkEnv (now env + o) (selectByWeekSession env) (selectByDate env)
        (updateFails env).

(** The state of the renumbering loop with the start of its week [o]
    earlier: the state the loop is in on a server whose noons fall [o]
    before those of UTC. *)
Definition moveAnchor (o : Z) (st : WeekState) : WeekState :=
  mkWeekState (currentWeekNumber st) (sessionInWeek st) (weekStartDate st - o).

(** [ShiftAccepted] on a server in zone [z]. *)
Definition ShiftAccepted (z : Zone) (env : Env) (req : ShiftBody) (w : World)
    (allSessions : list Session) (sessionIndex : nat)
    (sessionToShift : Session) (d : Z) : Prop :=
  tableName req <> ""
  /\ truthy (sessionId req) = true
  /\ newDate req = Some d
  /\ selectByWeekSession env (table w) = mkReply (Some allSessions) None
  /\ findIndex (fun s => strictEq (id s) (sessionId req)) allSessions
     = Z.of_nat sessionIndex
  /\ nth_error allSessions sessionIndex = Some sessionToShift
  /\ date sessionToShift <> d
  /\ notAfterToday z env d = false.

(** ** A weekly class across the clock change *)

(** Three Monday classes: 4, 11 and 18 March 2024, one a week. *)
Definition mondayRows : list Session :=
  [mkSession 1 1 1 19786 "Monday" "class" "Arrays";
   mkSession 2 2 1 19793 "Monday" "class" "Strings";
   mkSession 3 3 1 19800 "Monday" "class" "Trees"].

(** Move the third of them one day on, to Tuesday 19 March. *)
Definition mondayShift : ShiftBody :=
  mkShiftBody "basic2_0_schedule" (JNumber 3) (Some 19801).

(** 14:00 UTC on 1 March 2024. *)
Definition firstOfMarch : Z := 19783 * msPerDay + 14 * hour.

End Zoned.

(** * The meeting route

    The POST handler that creates an online meeting, with its helpers
    [getAccessToken] and [createOnlineMeeting].  The network is a function
    from the request sent to what [fetch] does with it; the handler runs
    over the log of the requests it has sent. *)

Module Teams.

Definition MS_GRAPH_AUTH_URL : string := "https://login.microsoftonline.com".
Definition MS_GRAPH_API_URL : string := "https://graph.microsoft.com/v1.0".

(** [process.env]: each variable is a string or undefined. *)
Record Config := mkConfig {
  MS_TENANT_ID : option string;
  MS_CLIENT_ID : option string;
  MS_CLIENT_SECRET : option string;
  MS_ORGANIZER_USER_ID : option string
}.

(** The body of a request: the form parameters of the token request, or the
    JSON of [meetingBody], whose lobby and presenter settings are fixed. *)
Inductive Payload :=
| FormParams (params : list (string * string))
| MeetingBody (startDateTime endDateTime subject : string).

Record Request := mkRequest {
  url : string;
  method : string;
  headers : list (string * string);
  payload : Payload
}.

(** What [response.json()] gives: a SyntaxError, or an object read through
    its string fields. *)
Inductive JsonResult :=
| JsonThrows (message : string)
| JsonFields (fields : list (string * string)).

Record FetchResponse := mkFetchResponse {
  ok : bool;
  text : string;
  parsed : JsonResult
}.

(** What [fetch] does: reject with an error, or resolve to a response. *)
Inductive FetchOutcome :=
| Rejects (message : string)
| Resolves (response : FetchResponse).

Definition Network : Type := Request -> FetchOutcome.

(** A computation that may throw, over the log of the requests sent. *)
Inductive Result (A : Type) :=
| Returns (a : A)
| Throws (message : string).
Arguments Returns {A} a.
Arguments Throws {A} message.

Definition Async (A : Type) : Type := list Request -> Result A * list Request.

Definition resolve {A : Type} (a : A) : Async A := fun log => (Returns a, log).

Definition throw {A : Type} (message : string) : Async A :=
  fun log => (Throws message, log).

Definition andThen {A B : Type} (m : Async A) (k : A -> Async B) : Async B :=
  fun log =>
    match m log with
    | (Returns a, log') => k a log'
    | (Throws message, log') => (Throws message, log')
    end.

Notation "'await' x <- m ; k" := (andThen m (fun x => k))
  (at level 10, x name, m at level 100, k at level 200).

(** [await fetch(url, init)] *)
Definition fetch (net : Network) (request : Request) : Async FetchResponse :=
  fun log =>
    match net request with
    | Rejects message => (Throws message, (log ++ [request])%list)
    | Resolves response => (Returns response, (log ++ [request])%list)
    end.

(** [await response.json()] *)
Definition json (response : FetchResponse) : Async (list (string * string)) :=
  match parsed response with
  | JsonThrows message => throw message
  | JsonFields fields => resolve fields
  end.

(** [data.name]: the field, or undefined. *)
Fixpoint field (name : string) (fields : list (string * string)) : option string :=
  match fields with
  | [] => None
  | (k, v) :: rest => if String.eqb k name then Some v else field name rest
  end.

(** A value in a template literal. *)
Definition interpolate (v : option string) : string :=
  match v with
  | Some s => s
  | None => "undefined"
  end.

(** The value of a variable or a field when it is truthy. *)
Definition truthyString (v : option string) : option string :=
  match v with
  | Some s => if String.eqb s "" then None else Some s
  | None => None
  end.

Definition tokenRequest (tenantId clientId clientSecret : string) : Request :=
  mkRequest
    (MS_GRAPH_AUTH_URL ++ "/" ++ tenantId ++ "/oauth2/v2.0/token")
    "POST"
    [("Content-Type", "application/x-www-form-urlencoded")]
    (FormParams [("client_id", clientId); ("client_secret", clientSecret);
                 ("scope", "https://graph.microsoft.com/.default");
                 ("grant_type", "client_credentials")]).

(** Get access token using client credentials flow. *)
Definition getAccessToken (cfg : Config) (net : Network) : Async (option string) :=
  match truthyString (MS_TENANT_ID cfg), truthyString (MS_CLIENT_ID cfg),
        truthyString (MS_CLIENT_SECRET cfg) with
  | Some tenantId, Some clientId, Some clientSecret =>
      await response <- fetch net (tokenRequest tenantId clientId clientSecret) ;
      if negb (ok response)
      then throw ("Failed to get access token: " ++ text response)
      else await data <- json response ;
           resolve (field "access_token" data)
  | _, _, _ => throw "Missing Microsoft credentials in environment variables"
  end.

Record MeetingDetails := mkMeetingDetails {
  subject : string;
  startDateTime : string;
  endDateTime : string;
  timeZone : string
}.

Definition meetingRequest (accessToken : option string) (userId : string)
    (meeting : MeetingDetails) : Request :=
  mkRequest
    (MS_GRAPH_API_URL ++ "/users/" ++ userId ++ "/onlineMeetings")
    "POST"
    [("Authorization", "Bearer " ++ interpolate accessToken);
     ("Content-Type", "application/json")]
    (MeetingBody (startDateTime meeting) (endDateTime meeting) (subject meeting)).

(** Create an online meeting: [{ joinUrl, meetingId }]. *)
Definition createOnlineMeeting (net : Network) (accessToken : option string)
    (userId : string) (meeting : MeetingDetails)
    : Async (option string * option string) :=
  await response <- fetch net (meetingRequest accessToken userId meeting) ;
  if negb (ok response)
  then throw ("Failed to create meeting: " ++ text response)
  else await data <- json response ;
       resolve (field "joinWebUrl" data, field "id" data).

(** The parsed body of the incoming request; a field is a string or
    undefined. *)
Record MeetingForm := mkMeetingForm {
  f_subject : option string;
  f_startDateTime : option string;
  f_endDateTime : option string;
  f_timeZone : option string
}.

(** [await request.json()] of the incoming request. *)
Inductive Incoming :=
| Unparsable (message : string)
| Parsed (form : MeetingForm).

Inductive Body :=
| ErrorBody (error : string)
| CreatedBody (joinUrl meetingId : option string).

Record Response := mkResponse {
  status : Z;
  body : Body
}.

Definition msgMissing : string :=
  "Missing required fields: subject, startDateTime, endDateTime".
Definition msgNoOrganizer : string := "MS_ORGANIZER_USER_ID not configured".
Definition msgNoCredentials : string :=
  "Missing Microsoft credentials in environment variables".
Definition msgFallback : string := "Failed to create Teams meeting".

(** The [try] block of the handler, after the body is parsed. *)
Definition attempt (cfg : Config) (net : Network) (form : MeetingForm)
    : Async Response :=
  match truthyString (f_subject form), truthyString (f_startDateTime form),
        truthyString (f_endDateTime form) with
  | Some subject, Some startDateTime, Some endDateTime =>
      let timeZone :=
        match f_timeZone form with Some tz => tz | None => "Asia/Kolkata" end in
      await accessToken <- getAccessToken cfg net ;
      match truthyString (MS_ORGANIZER_USER_ID cfg) with
      | None => resolve (mkResponse 500 (ErrorBody msgNoOrganizer))
      | Some organizerUserId =>
          await meeting <-
            createOnlineMeeting net accessToken organizerUserId
              (mkMeetingDetails subject startDateTime endDateTime timeZone) ;
          resolve (mkResponse 200 (CreatedBody (fst meeting) (snd meeting)))
      end
  | _, _, _ => resolve (mkResponse 400 (ErrorBody msgMissing))
  end.

(** The [catch] block: [{ error: error.message || msgFallback }], 500. *)
Definition caught (message : string) : Response :=
  mkResponse 500 (ErrorBody (if String.eqb message "" then msgFallback else message)).

Definition POST (cfg : Config) (net : Network) (incoming : Incoming)
    (log : list Request) : Response * list Request :=
  match incoming with
  | Unparsable message => (caught message, log)
  | Parsed form =>
      match attempt cfg net form log with
      | (Returns response, log') => (response, log')
      | (Throws message, log') => (caught message, log')
      end
  end.

(** The three credentials, when all of them are set. *)
Definition credentials (cfg : Config) : option (string * string * string) :=
  match truthyString (MS_TENANT_ID cfg), truthyString (MS_CLIENT_ID cfg),
        truthyString (MS_CLIENT_SECRET cfg) with
  | Some tenantId, Some clientId, Some clientSecret =>
      Some (tenantId, clientId, clientSecret)
  | _, _, _ => None
  end.

(** The three required fields of the form, when all of them are set. *)
Definition required (form : MeetingForm) : option (string * string * string) :=
  match truthyString (f_subject form), truthyString (f_startDateTime form),
        truthyString (f_endDateTime form) with
  | Some subject, Some startDateTime, Some endDateTime =>
      Some (subject, startDateTime, endDateTime)
  | _, _, _ => None
  end.

(** A sample configuration, network and form. *)
Definition demoConfig : Config :=
  mkConfig (Some "tenant-1") (Some "client-1") (Some "secret-1")
           (Some "organizer@example.org").

Definition demoNetwork : Network :=
  fun request =>
    match payload request with
    | FormParams _ =>
        Resolves (mkFetchResponse true "" (JsonFields [("access_token", "tok-1")]))
    | MeetingBody _ _ _ =>
        Resolves (mkFetchResponse true ""
                    (JsonFields [("joinWebUrl", "https://teams.example/j/1");
                                 ("id", "meeting-1")]))
    end.

Definition refusingNetwork : Network :=
  fun _ => Resolves (mkFetchResponse false "invalid_client" (JsonThrows "")).

Definition demoForm : MeetingForm :=
  mkMeetingForm (Some "Arrays") (Some "2024-10-07T10:00:00")
                (Some "2024-10-07T11:00:00") None.

End Teams.

(** * The authentication service

    [authService.verifyUserExists]: three calls to the hosted client, each
    of which resolves to a reply or throws; the service runs over the log of
    the calls it has made. *)

Module Auth.

Definition User : Type := string.

(** A session of the hosted client: its token and its user, if any. *)
Record Session := mkSession {
  access_token : string;
  session_user : option User
}.

(** [{ data: { session }, error }] *)
Record SessionReply := mkSessionReply {
  s_session : option Session;
  s_error : option string
}.

(** [{ data: { session, user }, error }] *)
Record RefreshReply := mkRefreshReply {
  r_session : option Session;
  r_user : option User;
  r_error : option string
}.

(** [{ data: { user }, error }] *)
Record UserReply := mkUserReply {
  u_user : option User;
  u_error : option string
}.

Inductive Outcome (A : Type) :=
| Throws
| Replies (reply : A).
Arguments Throws {A}.
Arguments Replies {A} reply.

(** What each call of the client does in this run. *)
Record Client := mkClient {
  getSession : Outcome SessionReply;
  refreshSession : Outcome RefreshReply;
  getUser : Outcome UserReply
}.

Inductive Call := CallGetSession | CallRefreshSession | CallGetUser.

(** [{ isValid, user, session }] *)
Record Verdict := mkVerdict {
  isValid : bool;
  user : option User;
  session : option Session
}.

Definition invalid : Verdict := mkVerdict false None None.

(** Verify if current user still exists and is valid. *)
Definition verifyUserExists (client : Client) (log : list Call)
    : Verdict * list Call :=
  let log1 := (log ++ [CallGetSession])%list in
  match getSession client with
  | Throws => (invalid, log1)
  | Replies sessionReply =>
      match s_error sessionReply, s_session sessionReply with
      | None, Some session =>
          match session_user session with
          | None => (invalid, log1)
          | Some _ =>
              let log2 := (log1 ++ [CallRefreshSession])%list in
              match refreshSession client with
              | Throws => (invalid, log2)
              | Replies refreshData =>
                  match r_error refreshData, r_session refreshData,
                        r_user refreshData with
                  | None, Some refreshed, Some refreshedUser =>
                      let log3 := (log2 ++ [CallGetUser])%list in
                      match getUser client with
                      | Throws => (invalid, log3)
                      | Replies userReply =>
                          match u_error userReply, u_user userReply with
                          | None, Some _ =>
                              (mkVerdict true (Some refreshedUser) (Some refreshed),
                               log3)
                          | _, _ => (invalid, log3)
                          end
                      end
                  | _, _, _ => (invalid, log2)
                  end
              end
          end
      | _, _ => (invalid, log1)
      end
  end.

(** The session call gave a session with a user and no error. *)
Definition sessionGood (client : Client) : Prop :=
  exists session u,
    getSession client = Replies (mkSessionReply (Some session) None)
    /\ session_user session = Some u.

(** The refresh call gave this session and this user and no error. *)
Definition refreshGood (client : Client) (refreshed : Session) (u : User) : Prop :=
  refreshSession client = Replies (mkRefreshReply (Some refreshed) (Some u) None).

(** The user call gave a user and no error. *)
Definition userGood (client : Client) : Prop :=
  exists u, getUser client = Replies (mkUserReply (Some u) None).

Definition demoSession : Session := mkSession "jwt-1" (Some "user-1").

Definition demoClient : Client :=
  mkClient (Replies (mkSessionReply (Some demoSession) None))
           (Replies (mkRefreshReply (Some (mkSession "jwt-2" (Some "user-1")))
                                    (Some "user-1") None))
           (Replies (mkUserReply (Some "user-1") None)).

End Auth.

(** * The cohort form

    [handleSubmit] of the cohort initiator: the validation of the form, the
    one request it sends and what it shows when the handler is done.  The
    timer that clears the form five seconds after a success is not
    modelled. *)

Module CohortForm.

(** The fields of the form; the start date is the ISO string of the date
    picked, or undefined. *)
Record Form := mkForm {
  cohortType : string;
  cohortNumber : string;
  day1 : string;
  day2 : string;
  startDate : option string
}.

(** The JSON body sent to [/api/cohort/create]. *)
Record CreateRequest := mkCreateRequest {
  q_cohortType : string;
  q_cohortNumber : string;
  q_day1 : string;
  q_day2 : string;
  q_startDate : string
}.

(** The parsed answer of the create route, read through the fields the
    handler uses. *)
Record CreateData := mkCreateData {
  setupRequired : bool;
  d_error : option string;
  recordsInserted : option string
}.

Inductive JsonResult :=
| JsonThrows (message : string)
| JsonData (data : CreateData).

Record FetchResponse := mkFetchResponse {
  ok : bool;
  parsed : JsonResult
}.

Inductive FetchOutcome :=
| Rejects (message : string)
| Resolves (response : FetchResponse).

Definition Network : Type := CreateRequest -> FetchOutcome.

(** What the component shows once the handler is done. *)
Record View := mkView {
  error : string;
  success : string;
  setupInfo : option CreateData;
  isLoading : bool
}.

(** [\d] *)
Definition isDigit (c : ascii) : bool :=
  let n := nat_of_ascii c in ((48 <=? n) && (n <=? 57))%nat.

Fixpoint allDigits (s : string) : bool :=
  match s with
  | EmptyString => true
  | String c rest => isDigit c && allDigits rest
  end.

(** What is left of a string after its leading digits. *)
Fixpoint afterDigits (s : string) : string :=
  match s with
  | EmptyString => EmptyString
  | String c rest => if isDigit c then afterDigits rest else s
  end.

(** [/^\d+\.\d+$/.test(s)] *)
Definition cohortNumPattern (s : string) : bool :=
  match s with
  | EmptyString => false
  | String c _ =>
      isDigit c
      && match afterDigits s with
         | String "." rest => negb (String.eqb rest "") && allDigits rest
         | _ => false
         end
  end.

(** [s.replace('.', '_')]: the first dot only. *)
Fixpoint replaceDot (s : string) : string :=
  match s with
  | EmptyString => EmptyString
  | String c rest =>
      if Ascii.eqb c "." then String "_" rest else String c (replaceDot rest)
  end.

(** [v || fallback] *)
Definition orElse (v : option string) (fallback : string) : string :=
  match v with
  | Some s => if String.eqb s "" then fallback else s
  | None => fallback
  end.

Definition interpolate (v : option string) : string :=
  match v with
  | Some s => s
  | None => "undefined"
  end.

Definition msgFill : string := "Please fill in all fields".
Definition msgDays : string := "Please select two different days".
Definition msgFormat : string :=
  "Cohort number should be in format like 2.0, 3.0, etc.".
Definition msgFailed : string := "Failed to create cohort".
Definition msgCaught : string := "An error occurred while creating the cohort".

(** [`Successfully created ... table with ... records!`] *)
Definition successMessage (form : Form) (data : CreateData) : string :=
  ("Successfully created " ++ cohortType form ++ replaceDot (cohortNumber form)
     ++ "_schedule table with " ++ interpolate (recordsInserted data)
     ++ " records!")%string.

(** The handler, from the form and the loading flag it starts with to what
    is shown in the end and the requests sent. *)
Definition handleSubmit (net : Network) (form : Form) (loading : bool)
    : View * list CreateRequest :=
  match startDate form with
  | Some iso =>
      if String.eqb (cohortType form) "" || String.eqb (cohortNumber form) ""
         || String.eqb (day1 form) "" || String.eqb (day2 form) ""
      then (mkView msgFill "" None loading, [])
      else if String.eqb (day1 form) (day2 form)
      then (mkView msgDays "" None loading, [])
      else if negb (cohortNumPattern (cohortNumber form))
      then (mkView msgFormat "" None loading, [])
      else
        let request :=
          mkCreateRequest (cohortType form) (cohortNumber form)
                          (day1 form) (day2 form) iso in
        match net request with
        | Rejects message =>
            (mkView (orElse (Some message) msgCaught) "" None false, [request])
        | Resolves response =>
            match parsed response with
            | JsonThrows message =>
                (mkView (orElse (Some message) msgCaught) "" None false, [request])
            | JsonData data =>
                if negb (ok response)
                then if setupRequired data
                     then (mkView "" "" (Some data) false, [request])
                     else (mkView (orElse (d_error data) msgFailed) "" None false,
                           [request])
                else (mkView "" (successMessage form data) None false, [request])
            end
        end
  | None => (mkView msgFill "" None loading, [])
  end.

(** A form that passes the three checks. *)
Definition valid (form : Form) : Prop :=
  cohortType form <> "" /\ cohortNumber form <> "" /\ day1 form <> ""
  /\ day2 form <> "" /\ startDate form <> None
  /\ day1 form <> day2 form
  /\ cohortNumPattern (cohortNumber form) = true.

(** A string that holds no dot. *)
Fixpoint noDot (s : string) : bool :=
  match s with
  | EmptyString => true
  | String c rest => negb (Ascii.eqb c ".") && noDot rest
  end.

Definition demoForm : Form :=
  mkForm "basic" "2.0" "Monday" "Wednesday" (Some "2024-10-07T00:00:00.000Z").

Definition demoNetwork : Network :=
  fun _ => Resolves (mkFetchResponse true (JsonData (mkCreateData false None (Some "48")))).

End CohortForm.

(** * Properties *)

(** ** Dates *)

Section DateFacts.

Lemma toISODate_parseNoon d : toISODate (parseNoon d) = d.
Proof.
  unfold toISODate, parseNoon.
  symmetry. apply Z.div_unique with (r := 12 * 60 * 60 * 1000).
  - left. unfold msPerDay. lia.
  - lia.
Qed.

Lemma nextDate_parseNoon d : nextDate (parseNoon d) = parseNoon (d + 1).
Proof. unfold nextDate, parseNoon. lia. Qed.

Lemma parseNoon_plus d k : parseNoon d + k * msPerDay = parseNoon (d + k).
Proof. unfold parseNoon. lia. Qed.

Lemma getDay_parseNoon d : getDay (parseNoon d) = (d + 4) mod 7.
Proof.
  unfold getDay. fold (toISODate (parseNoon d)).
  now rewrite toISODate_parseNoon.
Qed.

Lemma getDay_range t : 0 <= getDay t < 7.
Proof. unfold getDay. apply Z.mod_pos_bound. lia. Qed.

Lemma getDay_plus_days t k : getDay (t + k * msPerDay) = (getDay t + k) mod 7.
Proof.
  unfold getDay.
  rewrite Z.div_add by (unfold msPerDay; lia).
  rewrite Zplus_mod_idemp_l. f_equal. lia.
Qed.

(** The time of day is ignored: the whole of day [d] counts as day [d]. *)
Lemma setHours0_day t : setHours0 t = parseDateOnly (toISODate t).
Proof.
  unfold setHours0, parseDateOnly, toISODate.
  pose proof (Z.div_mod t msPerDay) as H.
  assert (msPerDay <> 0) by (unfold msPerDay; lia).
  specialize (H H0). lia.
Qed.

(** The date check as a comparison of day numbers: a requested day passes
    as soon as it is not before the current day. *)
Lemma notAfterToday_spec env d :
  notAfterToday env d = (d <? toISODate (now env)).
Proof.
  unfold notAfterToday. rewrite setHours0_day.
  unfold parseNoon, parseDateOnly, msPerDay.
  destruct (Z.ltb_spec d (toISODate (now env)));
    [apply Z.leb_le | apply Z.leb_gt]; lia.
Qed.

End DateFacts.

(** ** findNextDay *)

Section FindNextDay.

Variable targetDays : list JsValue.

Lemma includes_In n : includes n targetDays = true <-> In (JsNumber n) targetDays.
Proof.
  unfold includes. rewrite existsb_exists. split.
  - intros [[m | key] [Hin Heq]]; [| discriminate].
    apply Z.eqb_eq in Heq. now subst.
  - intros Hin. exists (JsNumber n). split; [assumption | apply Z.eqb_refl].
Qed.

(** The loop with no match in its window ends [fuel] days further. *)
Lemma scanDays_exhausted fuel : forall result,
  (forall k, 0 <= k < Z.of_nat fuel ->
     includes (getDay (result + k * msPerDay)) targetDays = false) ->
  scanDays fuel result targetDays = result + Z.of_nat fuel * msPerDay.
Proof.
  induction fuel as [| fuel IH]; intros result Hno.
  - simpl. lia.
  - cbn [scanDays].
    pose proof (Hno 0 ltac:(lia)) as H0.
    replace (result + 0 * msPerDay) with result in H0 by lia.
    rewrite H0, IH.
    + unfold nextDate. lia.
    + intros k Hk. unfold nextDate.
      replace (result + msPerDay + k * msPerDay)
        with (result + (k + 1) * msPerDay) by lia.
      apply Hno. lia.
Qed.

(** The loop stops at the first match of its window. *)
Lemma scanDays_first fuel : forall result k,
  0 <= k < Z.of_nat fuel ->
  includes (getDay (result + k * msPerDay)) targetDays = true ->
  (forall j, 0 <= j < k ->
     includes (getDay (result + j * msPerDay)) targetDays = false) ->
  scanDays fuel result targetDays = result + k * msPerDay.
Proof.
  induction fuel as [| fuel IH]; intros result k Hk Hyes Hno.
  - lia.
  - cbn [scanDays].
    destruct (Z.eq_dec k 0) as [-> | Hnz].
    + replace (result + 0 * msPerDay) with result in * by lia.
      now rewrite Hyes.
    + pose proof (Hno 0 ltac:(lia)) as H0.
      replace (result + 0 * msPerDay) with result in H0 by lia.
      rewrite H0, (IH (nextDate result) (k - 1)); unfold nextDate.
      * lia.
      * lia.
      * now replace (result + msPerDay + (k - 1) * msPerDay)
          with (result + k * msPerDay) by lia.
      * intros j Hj.
        replace (result + msPerDay + j * msPerDay)
          with (result + (j + 1) * msPerDay) by lia.
        apply Hno. lia.
Qed.

(** Some day of any window of seven consecutive days is a given weekday. *)
Lemma weekday_in_window t n :
  0 <= n < 7 -> exists k, 1 <= k <= 7 /\ getDay (t + k * msPerDay) = n.
Proof.
  intros Hn. exists ((n - getDay t - 1) mod 7 + 1).
  pose proof (Z.mod_pos_bound (n - getDay t - 1) 7 ltac:(lia)).
  split; [lia |].
  rewrite getDay_plus_days.
  replace (getDay t + ((n - getDay t - 1) mod 7 + 1))
    with ((n - getDay t - 1) mod 7 + (getDay t + 1)) by lia.
  rewrite Zplus_mod_idemp_l.
  replace (n - getDay t - 1 + (getDay t + 1)) with n by lia.
  now apply Z.mod_small.
Qed.

(** The least element of a bounded, inhabited, decidable set of integers. *)
Lemma first_match (P : Z -> bool) hi : forall lo,
  lo <= hi -> P hi = true ->
  exists k, lo <= k <= hi /\ P k = true /\ forall j, lo <= j < k -> P j = false.
Proof.
  intros lo Hle Hhi.
  remember (Z.to_nat (hi - lo)) as gap eqn:Hgap.
  revert lo Hle Hgap.
  induction gap as [| gap IH]; intros lo Hle Hgap.
  - assert (lo = hi) by lia. subst lo. exists hi.
    split; [lia | split; [assumption | intros; lia]].
  - destruct (P lo) eqn:Hlo.
    + exists lo. split; [lia | split; [assumption | intros; lia]].
    + destruct (IH (lo + 1)) as [k [Hk [Hyes Hno]]]; [lia | lia |].
      exists k. split; [lia | split; [assumption |]].
      intros j Hj. destruct (Z.eq_dec j lo) as [-> | ?]; [assumption |].
      apply Hno. lia.
Qed.

(** With a weekday among the targets, [findNextDay] returns the first day
    after [fromDate] that falls on a target day, at most a week later. *)
Lemma findNextDay_found fromDate n :
  0 <= n < 7 -> In (JsNumber n) targetDays ->
  exists k, 1 <= k <= 7
    /\ findNextDay fromDate targetDays = fromDate + k * msPerDay
    /\ includes (getDay (fromDate + k * msPerDay)) targetDays = true
    /\ forall j, 1 <= j < k ->
         includes (getDay (fromDate + j * msPerDay)) targetDays = false.
Proof.
  intros Hn Hin.
  destruct (weekday_in_window fromDate n Hn) as [k0 [Hk0 Hday]].
  destruct (first_match
              (fun k => includes (getDay (fromDate + k * msPerDay)) targetDays)
              k0 1 ltac:(lia)) as [k [Hk [Hyes Hno]]].
  { rewrite Hday. now apply includes_In. }
  exists k. split; [lia |]. split; [| split; [assumption |]].
  2: { intros j Hj. apply Hno. lia. }
  unfold findNextDay, nextDate.
  rewrite (scanDays_first 7 (fromDate + msPerDay) (k - 1)).
  - lia.
  - lia.
  - now replace (fromDate + msPerDay + (k - 1) * msPerDay)
      with (fromDate + k * msPerDay) by lia.
  - intros j Hj.
    replace (fromDate + msPerDay + j * msPerDay)
      with (fromDate + (j + 1) * msPerDay) by lia.
    apply Hno. lia.
Qed.

End FindNextDay.

(** C2, as the code has it: when the scan of [findNextDay] meets no target day
    on any of the seven days it examines (start + 1 .. start + 7), the
    function returns start + 8 days, one day past the last day examined; and
    that happens only when the target list holds no weekday index at all. *)
Theorem findNextDay_exhausted fromDate targetDays :
  (forall k, 1 <= k <= 7 ->
     includes (getDay (fromDate + k * msPerDay)) targetDays = false) ->
  findNextDay fromDate targetDays = fromDate + 8 * msPerDay
  /\ forall n, 0 <= n < 7 -> ~ In (JsNumber n) targetDays.
Proof.
  intros Hno. split.
  - unfold findNextDay, nextDate.
    rewrite scanDays_exhausted.
    + simpl Z.of_nat. lia.
    + intros k Hk.
      replace (fromDate + msPerDay + k * msPerDay)
        with (fromDate + (k + 1) * msPerDay) by lia.
      apply Hno. simpl Z.of_nat in Hk. lia.
  - intros n Hn Hin.
    destruct (weekday_in_window fromDate n Hn) as [k [Hk Hday]].
    specialize (Hno k Hk). rewrite Hday in Hno.
    apply includes_In in Hin. congruence.
Qed.

Lemma findNextDay_exhausted_witness :
  findNextDay (parseNoon 20003) [] = parseNoon 20003 + 8 * msPerDay
  /\ forall n, 0 <= n < 7 -> ~ In (JsNumber n) [].
Proof.
  apply (findNextDay_exhausted (parseNoon 20003) []).
  intros k Hk. reflexivity.
Defined.

(** C2 as the spec words it fails: from noon of day 20003 with no target day,
    the scan examines days 20004 .. 20010 and the function returns noon of day
    20011, not of day 20010. *)
Lemma findNextDay_not_seven_days :
  (forall k, 1 <= k <= 7 ->
     includes (getDay (parseNoon 20003 + k * msPerDay)) [] = false)
  /\ toISODate (findNextDay (parseNoon 20003) []) = 20003 + 8
  /\ findNextDay (parseNoon 20003) [] <> parseNoon 20003 + 7 * msPerDay.
Proof.
  split; [intros; reflexivity |].
  split; [reflexivity | discriminate].
Qed.

(** ** Day-pattern detection *)

Section DayPattern.

(** An own key of the table is a day name, and its value is the index of
    that name. *)
Lemma ownProperty_dayTable d n :
  ownProperty d dayTable = Some n ->
  0 <= n < 7 /\ nth (Z.to_nat n) dayNames "" = d.
Proof.
  unfold dayTable. cbn [ownProperty].
  repeat match goal with
  | |- context [String.eqb ?k d] =>
      destruct (String.eqb_spec k d) as [<- | _];
        [intros [= <-]; split; [lia | reflexivity] |]
  end.
  discriminate.
Qed.

(** No day name is a property name of [Object.prototype]. *)
Lemma ownProperty_not_inherited d n :
  ownProperty d dayTable = Some n -> ~ In d objectPrototypeKeys.
Proof.
  intros H Hin. apply ownProperty_dayTable in H as [Hn Hd].
  assert (Hcases : n = 0 \/ n = 1 \/ n = 2 \/ n = 3 \/ n = 4 \/ n = 5 \/ n = 6)
    by lia.
  unfold objectPrototypeKeys in Hin. cbn [In] in Hin.
  repeat destruct Hcases as [-> | Hcases]; try subst n; cbn in Hd; subst d;
    repeat (destruct Hin as [Hin | Hin]; [discriminate |]); exact Hin.
Qed.

Lemma inherited_key_spec d :
  existsb (String.eqb d) objectPrototypeKeys = true <-> In d objectPrototypeKeys.
Proof.
  rewrite existsb_exists. split.
  - intros [k [Hin Heq]]. apply String.eqb_eq in Heq. now subst.
  - intros Hin. exists d. split; [assumption | apply String.eqb_refl].
Qed.

(** What [getDayIndex] returns: the index of a day name, an inherited member
    for a property name of [Object.prototype], and -1 for anything else. *)
Lemma getDayIndex_cases d :
  (exists n, ownProperty d dayTable = Some n /\ getDayIndex d = JsNumber n
             /\ 0 <= n < 7)
  \/ (In d objectPrototypeKeys /\ getDayIndex d = JsInherited d)
  \/ (ownProperty d dayTable = None /\ ~ In d objectPrototypeKeys
      /\ getDayIndex d = JsNumber (-1)).
Proof.
  unfold getDayIndex, lookupDays.
  destruct (ownProperty d dayTable) as [n |] eqn:Hown.
  - left. exists n. repeat split; try reflexivity;
      apply (ownProperty_dayTable d n Hown).
  - destruct (existsb (String.eqb d) objectPrototypeKeys) eqn:Hex.
    + right. left. split; [now apply inherited_key_spec | reflexivity].
    + right. right. repeat split.
      intros Hin. apply inherited_key_spec in Hin. congruence.
Qed.

(** The distinct elements of a list are elements of the list, each once. *)
Lemma newSet_In l : forall x, In x (newSet l) -> In x l.
Proof.
  induction l as [| y l IH]; intros x Hx; [assumption |].
  cbn [newSet] in Hx. destruct Hx as [-> | Hx]; [now left |].
  apply filter_In in Hx as [Hx _]. right. now apply IH.
Qed.

Lemma newSet_NoDup l : NoDup (newSet l).
Proof.
  induction l as [| y l IH]; cbn [newSet]; constructor.
  - intros Hin. apply filter_In in Hin as [_ Hne].
    now rewrite String.eqb_refl in Hne.
  - now apply NoDup_filter.
Qed.

(** The detected pattern is never empty. *)
Lemma dayPattern_nonempty allSessions : dayPattern allSessions <> [].
Proof.
  unfold dayPattern.
  destruct (mappedDays allSessions); [unfold defaultPattern |]; discriminate.
Qed.

(** Every element of the detected pattern is a weekday index or an inherited
    member kept for the day name of a regular session. *)
Lemma dayPattern_elements allSessions v :
  In v (dayPattern allSessions) ->
  (exists n, v = JsNumber n /\ 0 <= n < 7)
  \/ (exists s, In s allSessions /\ isContest s = false
                /\ In (day s) objectPrototypeKeys /\ v = JsInherited (day s)).
Proof.
  unfold dayPattern. intros Hin.
  assert (Hcase : In v defaultPattern \/ In v (mappedDays allSessions)).
  { destruct (mappedDays allSessions); [left | right]; assumption. }
  clear Hin. destruct Hcase as [Hdef | Hmap].
  - left. unfold defaultPattern in Hdef. cbn [In] in Hdef.
    destruct Hdef as [<- | [<- | [<- | []]]]; eexists; (split; [reflexivity | lia]).
  - unfold mappedDays in Hmap. apply filter_In in Hmap as [Hmap Hkeep].
    apply in_map_iff in Hmap as [d [<- Hd]].
    destruct (getDayIndex_cases d) as [[n [_ [-> Hn]]] | [[Hkey ->] | [_ [_ Heq]]]].
    + left. now exists n.
    + right. unfold uniqueDays in Hd. apply filter_In in Hd as [Hd _].
      apply newSet_In in Hd. apply in_map_iff in Hd as [s [<- Hs]].
      unfold regularSessions in Hs. apply filter_In in Hs as [Hs Hreg].
      exists s. repeat split; auto.
      now destruct (isContest s).
    + rewrite Heq in Hkeep. discriminate.
Qed.

(** Where no regular session carries the name of an inherited member as its
    day, the detected pattern is a non-empty list of weekday indices. *)
Lemma dayPattern_weekdays allSessions :
  (forall s, In s allSessions -> isContest s = false ->
             ~ In (day s) objectPrototypeKeys) ->
  dayPattern allSessions <> []
  /\ Forall (fun v => exists n, v = JsNumber n /\ 0 <= n < 7)
            (dayPattern allSessions).
Proof.
  intros Hclean. split; [apply dayPattern_nonempty |].
  apply Forall_forall. intros v Hv.
  destruct (dayPattern_elements allSessions v Hv)
    as [? | [s [Hs [Hreg [Hkey _]]]]]; [assumption |].
  now destruct (Hclean s Hs Hreg).
Qed.

(** The two tables agree: the index of the name of a date is its weekday. *)
Lemma getDayIndex_getDayName t : getDayIndex (getDayName t) = JsNumber (getDay t).
Proof.
  unfold getDayName. pose proof (getDay_range t) as Hrange.
  assert (Hcases : getDay t = 0 \/ getDay t = 1 \/ getDay t = 2 \/ getDay t = 3
                   \/ getDay t = 4 \/ getDay t = 5 \/ getDay t = 6) by lia.
  repeat destruct Hcases as [-> | Hcases]; try rewrite Hcases; reflexivity.
Qed.

End DayPattern.

Section Detector.

Lemma mapped_clean (l : list string) :
  Forall (fun d => ~ In d objectPrototypeKeys) l ->
  filter notMinusOne
         (map getDayIndex (filter (fun d => negb (String.eqb d "")) l))
  = map JsNumber (flat_map indexOfName l).
Proof.
  induction 1 as [| d l Hd _ IH]; [reflexivity |].
  cbn [filter flat_map]. rewrite map_app, <- IH.
  destruct (String.eqb_spec d "") as [-> | Hne]; cbn [negb].
  - reflexivity.
  - cbn [map filter]. unfold indexOfName at 1.
    destruct (getDayIndex_cases d)
      as [[n [Hown [-> Hn]]] | [[Hkey _] | [Hown [_ ->]]]].
    + rewrite Hown. cbn [notMinusOne map app].
      destruct (Z.eqb_spec n (-1)); [lia | reflexivity].
    + contradiction.
    + rewrite Hown. reflexivity.
Qed.

(** Where no regular session carries the name of an inherited member as its
    day, the code computes the detector of the specification. *)
Lemma dayPattern_refines allSessions :
  (forall s, In s allSessions -> isContest s = false ->
             ~ In (day s) objectPrototypeKeys) ->
  dayPattern allSessions = map JsNumber (detectorOfSpec allSessions).
Proof.
  intros Hclean. unfold dayPattern, mappedDays, uniqueDays, detectorOfSpec.
  rewrite mapped_clean.
  - now destruct (flat_map indexOfName _).
  - apply Forall_forall. intros d Hd.
    apply newSet_In in Hd. apply in_map_iff in Hd as [s [<- Hs]].
    unfold regularSessions in Hs. apply filter_In in Hs as [Hs Hreg].
    apply Hclean; [assumption | now destruct (isContest s)].
Qed.

End Detector.

(** C7 fails on the code for a day name that the table inherits: with
    regular sessions whose day is ["constructor"], the lookup finds the
    inherited member, [?? -1] lets it through, the filter keeps it, the
    fallback is not taken, and the detected pattern holds no weekday index. *)
Theorem dayPattern_keeps_inherited_name :
  uniqueDays oddRows = ["constructor"]
  /\ getDayIndex "constructor" = JsInherited "constructor"
  /\ dayPattern oddRows = [JsInherited "constructor"]
  /\ dayPattern oddRows <> defaultPattern
  /\ forall n, ~ In (JsNumber n) (dayPattern oddRows).
Proof.
  repeat split; try reflexivity.
  - discriminate.
  - intros n [H | []]. discriminate.
Qed.

(** ** The cascade *)

Section Cascade.

Variable pattern : list JsValue.
Hypothesis pattern_ok : hasWeekday pattern.

Lemma weekdays_ok : hasWeekday weekdays.
Proof. exists 1. split; [lia | now left]. Qed.

(** One turn of the loop moves to a later calendar day, at most a week on,
    that falls on a target day of the session. *)
Lemma nextSessionDate_spec d session :
  exists d',
    nextSessionDate (parseNoon d) pattern session = parseNoon d'
    /\ d < d' <= d + 7
    /\ In (JsNumber (weekdayOf d'))
          (if isContest session then weekdays else pattern).
Proof.
  unfold nextSessionDate.
  assert (Hgen : forall targets, hasWeekday targets ->
            exists d', findNextDay (parseNoon d) targets = parseNoon d'
                       /\ d < d' <= d + 7
                       /\ In (JsNumber (weekdayOf d')) targets).
  { intros targets [n [Hn Hin]].
    destruct (findNextDay_found targets (parseNoon d) n Hn Hin)
      as [k [Hk [Heq [Hyes _]]]].
    exists (d + k). rewrite Heq, parseNoon_plus in *.
    split; [reflexivity | split; [lia |]].
    now apply includes_In. }
  destruct (isContest session); [apply Hgen, weekdays_ok | apply Hgen, pattern_ok].
Qed.

Lemma getDayName_parseNoon d :
  getDayName (parseNoon d) = nth (Z.to_nat (weekdayOf d)) dayNames "".
Proof. reflexivity. Qed.

(** The updates of the sessions after the shifted one: one per session, in
    the order of the list, on strictly increasing days that start after the
    new day [d] of the shifted session, each on a target day of its session
    and carrying the name of its weekday. *)
Lemma reschedule_spec subsequent : forall d,
  let updates := reschedule (parseNoon d) pattern subsequent in
  StronglySorted Z.lt (d :: map u_date updates)
  /\ Forall2 (fun session u =>
                u_id u = id session
                /\ In (JsNumber (weekdayOf (u_date u)))
                      (if isContest session then weekdays else pattern)
                /\ u_day u = nth (Z.to_nat (weekdayOf (u_date u))) dayNames "")
             subsequent updates.
Proof.
  induction subsequent as [| session rest IH]; intros d; cbn zeta.
  - split; constructor; constructor.
  - cbn [reschedule].
    destruct (nextSessionDate_spec d session) as [d' [-> [Hlt Hday]]].
    rewrite toISODate_parseNoon, getDayName_parseNoon.
    destruct (IH d') as [Hsorted Hall]. cbn [map u_date]. split.
    + constructor; [exact Hsorted |].
      apply StronglySorted_inv in Hsorted as [_ Hhd].
      constructor; [lia |].
      eapply Forall_impl; [| exact Hhd]. cbn. intros; lia.
    + constructor; [| exact Hall]. cbn. auto.
Qed.

(** The preview computes the same cascade as the apply path. *)
Lemma projectDates_reschedule subsequent : forall currentDate,
  map (fun item => mkUpdate (i_id item) (i_newDate item) (i_newDay item))
      (projectDates currentDate pattern subsequent)
  = reschedule currentDate pattern subsequent
  /\ map oldData (projectDates currentDate pattern subsequent) = subsequent.
Proof.
  induction subsequent as [| session rest IH]; intros currentDate;
    [split; reflexivity |].
  cbn [projectDates reschedule map].
  destruct (IH (nextSessionDate currentDate pattern session)) as [-> ->].
  split; reflexivity.
Qed.

End Cascade.

(** A detected pattern holds a weekday index unless every element of it is
    an inherited member. *)
Lemma dayPattern_hasWeekday allSessions :
  (forall s, In s allSessions -> isContest s = false ->
             ~ In (day s) objectPrototypeKeys) ->
  hasWeekday (dayPattern allSessions).
Proof.
  intros Hclean.
  destruct (dayPattern_weekdays allSessions Hclean) as [Hne Hall].
  destruct (dayPattern allSessions) as [| v rest]; [congruence |].
  apply Forall_inv in Hall as [n [-> Hn]].
  exists n. split; [assumption | now left].
Qed.

(** The claim of C3 holds for every session list in which no regular
    session carries the name of an inherited member as its day. *)
Lemma buildUpdates_cascade allSessions sessionIndex sessionToShift newDate :
  (forall s, In s allSessions -> isContest s = false ->
             ~ In (day s) objectPrototypeKeys) ->
  exists later,
    buildUpdates allSessions sessionIndex sessionToShift newDate
    = mkUpdate (id sessionToShift) newDate
               (nth (Z.to_nat (weekdayOf newDate)) dayNames "") :: later
    /\ StronglySorted Z.lt (newDate :: map u_date later)
    /\ Forall2 (fun session u =>
                  u_id u = id session
                  /\ In (JsNumber (weekdayOf (u_date u)))
                        (if isContest session then weekdays
                         else dayPattern allSessions)
                  /\ u_day u = nth (Z.to_nat (weekdayOf (u_date u))) dayNames "")
               (skipn (S sessionIndex) allSessions) later.
Proof.
  intros Hclean. unfold buildUpdates. eexists. split; [reflexivity |].
  apply reschedule_spec, dayPattern_hasWeekday, Hclean.
Qed.

(** C3 fails on the code for the session list of the defect of C7: both
    regular sessions have the day ["constructor"], the detected pattern is
    the inherited member alone, no scan finds a target day, and the session
    after the shifted one is moved eight days on, to day 20018, a Tuesday,
    which is no day of the detected pattern. *)
Theorem cascade_leaves_pattern :
  let env := demoEnv (parseNoon 20000) in
  let req := mkShiftBody "basic2_0_schedule" (JNumber 1) (Some 20010) in
  let query := mkShiftQuery (Some "basic2_0_schedule"%string) (Some "1"%string)
                            (Some 20010) in
  fst (POST env req (mkWorld oddRows 0))
  = json (AppliedBody
            "Successfully shifted class and rescheduled 1 subsequent classes"
            2 [mkUpdate 1 20010 "Monday"; mkUpdate 2 20018 "Tuesday"])
  /\ match body (fst (GET env query (mkWorld oddRows 0))) with
     | PreviewBody _ _ _ preview => map p_newDate preview = [20010; 20018]
     | _ => False
     end
  /\ isContest (mkSession 2 1 2 20005 "constructor" "class" "Strings") = false
  /\ dayPattern oddRows = [JsInherited "constructor"]
  /\ includes (weekdayOf 20018) (dayPattern oddRows) = false.
Proof. repeat split. Qed.

(** ** The renumberer *)

Section Renumber.

Lemma pairNext_lt p q : pairNext p q -> pairLt p q.
Proof. unfold pairNext, pairLt. lia. Qed.

Lemma pairLt_trans p q r : pairLt p q -> pairLt q r -> pairLt p r.
Proof. unfold pairLt. lia. Qed.

Lemma pairLt_irrefl p : ~ pairLt p p.
Proof. unfold pairLt. lia. Qed.

(** Between two noons lies a whole number of days. *)
Lemma daysSinceWeekStart_noon week pos ws d :
  daysSinceWeekStart (mkWeekState week pos (parseNoon ws)) (parseNoon d) = d - ws.
Proof.
  unfold daysSinceWeekStart, parseNoon. cbn [weekStartDate].
  replace (d * msPerDay + 12 * 60 * 60 * 1000 - (ws * msPerDay + 12 * 60 * 60 * 1000))
    with ((d - ws) * msPerDay) by lia.
  apply Z.div_mul. unfold msPerDay. lia.
Qed.

(** One turn of the loop, in days. *)
Lemma advanceWeek_days week pos ws d :
  advanceWeek (mkWeekState week pos (parseNoon ws)) d
  = if d - ws >=? 7 then mkWeekState (week + 1) 1 (parseNoon d)
    else mkWeekState week (pos + 1) (parseNoon ws).
Proof.
  unfold advanceWeek. rewrite daysSinceWeekStart_noon.
  now destruct (d - ws >=? 7).
Qed.

(** Whatever the state, a turn steps to the next pair. *)
Lemma advanceWeek_next st d :
  pairNext (currentWeekNumber st, sessionInWeek st)
           (currentWeekNumber (advanceWeek st d), sessionInWeek (advanceWeek st d)).
Proof.
  unfold advanceWeek, pairNext.
  destruct (daysSinceWeekStart st (parseNoon d) >=? 7); cbn; lia.
Qed.

Lemma assignFrom_chain dates : forall st,
  HdRel pairNext (currentWeekNumber st, sessionInWeek st) (assignFrom st dates)
  /\ Sorted pairNext (assignFrom st dates).
Proof.
  induction dates as [| d rest IH]; intros st; cbn [assignFrom].
  - split; constructor.
  - destruct (IH (advanceWeek st d)) as [Hhd Hsorted].
    split; constructor; auto using advanceWeek_next.
Qed.

(** A chain of steps is strictly increasing. *)
Lemma chain_increasing l :
  Sorted pairNext l -> StronglySorted pairLt l.
Proof.
  intros H. apply Sorted_StronglySorted.
  - intros p q r. apply pairLt_trans.
  - induction H as [| p l _ IH Hhd]; constructor; [assumption |].
    destruct Hhd; constructor. now apply pairNext_lt.
Qed.

Lemma increasing_NoDup l : StronglySorted pairLt l -> NoDup l.
Proof.
  induction 1 as [| p l _ IH Hall]; constructor; [| assumption].
  intros Hin. rewrite Forall_forall in Hall.
  exact (pairLt_irrefl p (Hall p Hin)).
Qed.

Lemma renumber_cons d rest :
  renumber (d :: rest) = (1, 1) :: assignFrom (mkWeekState 1 1 (parseNoon d)) rest.
Proof.
  unfold renumber, initialWeek. cbn [assignFrom].
  rewrite advanceWeek_days. replace (d - d) with 0 by lia. reflexivity.
Qed.

Lemma renumber_chain dates : Sorted pairNext (renumber dates).
Proof.
  destruct dates as [| d rest]; [constructor |].
  unfold renumber. apply assignFrom_chain.
Qed.

Lemma renumber_length dates : List.length (renumber dates) = List.length dates.
Proof.
  assert (H : forall l st, List.length (assignFrom st l) = List.length l).
  { induction l as [| d l IH]; intros st; cbn; [reflexivity | now rewrite IH]. }
  destruct dates; [reflexivity | apply H].
Qed.

End Renumber.

(** On a server in UTC the loop groups the rows into rolling seven-day
    weeks.  With the current week anchored at day [ws], the turn of the loop
    for a row dated [d] opens a new week (week number plus one, position 1,
    anchor moved to [d]) exactly when [d - ws >= 7], and otherwise takes the
    next position of the current week and keeps the anchor; the first row of
    a list opens week 1 and anchors it; and rows on days 0, 2 and 8 from the
    first date get weeks 1, 1 and 2. *)
Lemma renumber_rolling_weeks_utc :
  (forall week pos ws d,
     advanceWeek (mkWeekState week pos (parseNoon ws)) d
     = if d - ws >=? 7 then mkWeekState (week + 1) 1 (parseNoon d)
       else mkWeekState week (pos + 1) (parseNoon ws))
  /\ (forall week pos ws d rest,
        assignFrom (mkWeekState week pos (parseNoon ws)) (d :: rest)
        = if d - ws >=? 7
          then (week + 1, 1)
                 :: assignFrom (mkWeekState (week + 1) 1 (parseNoon d)) rest
          else (week, pos + 1)
                 :: assignFrom (mkWeekState week (pos + 1) (parseNoon ws)) rest)
  /\ (forall d rest,
        renumber (d :: rest)
        = (1, 1) :: assignFrom (mkWeekState 1 1 (parseNoon d)) rest)
  /\ (forall d, renumber [d; d + 2; d + 8] = [(1, 1); (1, 2); (2, 1)]).
Proof.
  assert (Hstep : forall week pos ws d rest,
     assignFrom (mkWeekState week pos (parseNoon ws)) (d :: rest)
     = if d - ws >=? 7
       then (week + 1, 1)
              :: assignFrom (mkWeekState (week + 1) 1 (parseNoon d)) rest
       else (week, pos + 1)
              :: assignFrom (mkWeekState week (pos + 1) (parseNoon ws)) rest).
  { intros. cbn [assignFrom]. rewrite advanceWeek_days.
    now destruct (d - ws >=? 7). }
  split; [exact advanceWeek_days |].
  split; [exact Hstep | split; [exact renumber_cons |]].
  intros d. rewrite renumber_cons, !Hstep.
  replace (d + 2 - d) with 2 by lia. cbn [Z.geb Z.compare Pos.compare Pos.compare_cont].
  replace (d + 8 - d) with 8 by lia. reflexivity.
Qed.


(** ** The apply path *)

Section Apply.

Variable env : Env.

Lemma findIndex_found {A : Type} (p : A -> bool) (l : list A) :
  findIndex p l <> -1 ->
  exists x, nth_error l (Z.to_nat (findIndex p l)) = Some x /\ p x = true
            /\ 0 <= findIndex p l < Z.of_nat (List.length l).
Proof.
  induction l as [| y l IH]; cbn [findIndex]; [congruence |].
  destruct (p y) eqn:Hy.
  - intros _. exists y. cbn. repeat split; auto; lia.
  - destruct (Z.eqb_spec (findIndex p l) (-1)) as [| Hne]; [congruence |].
    intros _. destruct (IH Hne) as [x [Hnth [Hx Hrange]]].
    exists x. replace (Z.to_nat (findIndex p l + 1))
      with (S (Z.to_nat (findIndex p l))) by lia.
    cbn [nth_error List.length]. repeat split; auto; lia.
Qed.

Lemma findIndex_none {A : Type} (p : A -> bool) (l : list A) :
  (forall x, In x l -> p x = false) -> findIndex p l = -1.
Proof.
  induction l as [| y l IH]; intros Hall; cbn [findIndex]; [reflexivity |].
  rewrite (Hall y (or_introl eq_refl)), IH; [reflexivity |].
  intros x Hx. apply Hall. now right.
Qed.

(** An accepted request runs steps 3 to 8. *)
Lemma POST_accepted req w allSessions sessionIndex sessionToShift d :
  ShiftAccepted env req w allSessions sessionIndex sessionToShift d ->
  POST env req w
  = (let updates := buildUpdates allSessions sessionIndex sessionToShift d in
     r <- applyUpdates env updates ;;
     _ <- renumberPass env ;;
     ret (shiftResult updates (fst r) (snd r))) w.
Proof.
  intros (Hname & Hid & Hdate & Hreply & Hidx & Hnth & Hdiff & Hfuture).
  unfold POST. rewrite Hid, Hdate.
  destruct (String.eqb_spec (tableName req) "") as [| _]; [contradiction |].
  cbn [negb]. unfold bind at 1, dbSelect at 1. rewrite Hreply. cbn [error data].
  rewrite Hidx.
  destruct (Z.eqb_spec (Z.of_nat sessionIndex) (-1)) as [| _]; [lia |].
  rewrite Nat2Z.id, Hnth.
  destruct (Z.eqb_spec (date sessionToShift) d) as [| _]; [contradiction |].
  rewrite Hfuture. reflexivity.
Qed.

(** What step 7 collects. *)
Lemma applyUpdates_result updates : forall w,
  fst (applyUpdates env updates w)
  = (map (fun p => errorLine (fst p) (snd p)) (failedFrom env (calls w) updates),
     map u_id (succeededFrom env (calls w) updates)).
Proof.
  induction updates as [| u rest IH]; intros w; [reflexivity |].
  cbn [applyUpdates failedFrom succeededFrom].
  unfold bind at 1, dbUpdate.
  destruct (updateFails env (calls w)) as [message |];
    unfold bind;
    match goal with
    | |- context [applyUpdates env rest ?w1] =>
        specialize (IH w1); destruct (applyUpdates env rest w1) as [r w2]
    end;
    cbn [fst snd calls] in *; unfold ret; cbn [fst snd]; rewrite IH; reflexivity.
Qed.

(** What step 7 leaves in the table: the patches of the succeeded updates,
    in order, and nothing of the failed ones. *)
Lemma applyUpdates_world updates : forall w,
  snd (applyUpdates env updates w)
  = mkWorld (patchAll (succeededFrom env (calls w) updates) (table w))
            (calls w + List.length updates).
Proof.
  induction updates as [| u rest IH]; intros w.
  - cbn. destruct w. cbn. f_equal. lia.
  - cbn [applyUpdates failedFrom succeededFrom].
    unfold bind at 1, dbUpdate.
    destruct (updateFails env (calls w)) as [message |];
      unfold bind;
      match goal with
      | |- context [applyUpdates env rest ?w1] =>
          specialize (IH w1); destruct (applyUpdates env rest w1) as [r w2]
      end;
      cbn [fst snd calls table] in *; unfold ret; cbn [fst snd]; rewrite IH;
      unfold patchAll; cbn [fold_left List.length]; f_equal; lia.
Qed.

Lemma renumberRows_fixedColumns rows : forall st w,
  map fixedColumns (table (snd (renumberRows env st rows w)))
  = map fixedColumns (table w).
Proof.
  induction rows as [| session rest IH]; intros st w; [reflexivity |].
  cbn [renumberRows]. unfold bind at 1.
  destruct (pairChanged session (advanceWeek st (date session))).
  - unfold bind at 1, dbUpdate.
    destruct (updateFails env (calls w)); unfold ret; rewrite IH;
      cbn [table]; [reflexivity |].
    rewrite map_map. apply map_ext. intros r.
    now destruct (id r =? id session).
  - unfold ret. now rewrite IH.
Qed.

Lemma renumberPass_fixedColumns w :
  map fixedColumns (table (snd (renumberPass env w)))
  = map fixedColumns (table w).
Proof.
  unfold renumberPass, bind, dbSelect.
  destruct (error (selectByDate env (table w))); [reflexivity |].
  destruct (data (selectByDate env (table w))) as [[| first rest] |];
    try reflexivity.
  apply renumberRows_fixedColumns.
Qed.

End Apply.

Section Patches.

Lemma patchOf_id u r : id (patchOf u r) = id r.
Proof. unfold patchOf. now destruct (id r =? u_id u). Qed.

Lemma patchOf_storedPair u r : storedPair (patchOf u r) = storedPair r.
Proof. unfold patchOf. now destruct (id r =? u_id u). Qed.


Lemma patchAll_storedPairs us : forall t,
  map storedPair (patchAll us t) = map storedPair t.
Proof.
  induction us as [| u us IH]; intros t; [reflexivity |].
  cbn. fold (patchAll us (map (patchOf u) t)). rewrite IH, map_map.
  apply map_ext, patchOf_storedPair.
Qed.

(** Patches leave alone the rows they do not name. *)
Lemma patchAll_frame us : forall t r,
  In r (patchAll us t) -> ~ In (id r) (map u_id us) -> In r t.
Proof.
  induction us as [| u us IH]; intros t r Hin Hfree; [exact Hin |].
  cbn in Hin. fold (patchAll us (map (patchOf u) t)) in Hin.
  apply IH in Hin; [| intros H; apply Hfree; now right].
  apply in_map_iff in Hin as [r0 [<- Hr0]].
  unfold patchOf in *. destruct (Z.eqb_spec (id r0) (u_id u)) as [Heq | _];
    [| assumption].
  exfalso. apply Hfree. left. cbn. now rewrite <- Heq.
Qed.

(** After patches on distinct ids, every row a patch names carries the date
    and the day of that patch. *)
Lemma patchAll_applied us : NoDup (map u_id us) -> forall t u r,
  In u us -> In r (patchAll us t) -> id r = u_id u ->
  date r = u_date u /\ day r = u_day u.
Proof.
  induction us as [| u0 us IH]; intros Hnd t u r Hu Hr Hid; [contradiction |].
  cbn [map] in Hnd. apply NoDup_cons_iff in Hnd as [Hfresh Hnd].
  cbn in Hr. fold (patchAll us (map (patchOf u0) t)) in Hr.
  destruct Hu as [<- | Hu].
  - apply patchAll_frame in Hr; [| now rewrite Hid].
    apply in_map_iff in Hr as [r0 [<- Hr0]].
    rewrite patchOf_id in Hid. unfold patchOf.
    destruct (Z.eqb_spec (id r0) (u_id u0)); [split; reflexivity | contradiction].
  - now apply (IH Hnd (map (patchOf u0) t) u r).
Qed.

End Patches.

Section Outcomes.

Variable env : Env.

Lemma succeededFrom_In us : forall k u,
  In u (succeededFrom env k us) -> In u us.
Proof.
  induction us as [| u0 us IH]; intros k u Hin; [contradiction |].
  cbn [succeededFrom] in Hin.
  destruct (updateFails env k); [right; eauto |].
  destruct Hin as [<- | Hin]; [now left | right; eauto].
Qed.




Lemma succeededFrom_spec us : forall k u,
  In u (succeededFrom env k us)
  <-> exists i, nth_error us i = Some u /\ updateFails env (k + i) = None.
Proof.
  induction us as [| u0 us IH]; intros k u; cbn [succeededFrom].
  - split; [contradiction | intros [[| i] [H _]]; discriminate].
  - split.
    + intros Hin.
      destruct (updateFails env k) as [m0 |] eqn:Hk.
      * apply IH in Hin as [i [Hi Hm]]. exists (S i).
        now rewrite Nat.add_succ_r.
      * destruct Hin as [<- | Hin].
        -- exists 0%nat. now rewrite Nat.add_0_r.
        -- apply IH in Hin as [i [Hi Hm]]. exists (S i).
           now rewrite Nat.add_succ_r.
    + intros [[| i] [Hi Hm]].
      * cbn in Hi. injection Hi as <-. rewrite Nat.add_0_r in Hm.
        rewrite Hm. now left.
      * cbn in Hi. rewrite Nat.add_succ_r in Hm.
        assert (In u (succeededFrom env (S k) us)) by (apply IH; now exists i).
        destruct (updateFails env k); [assumption | now right].
Qed.

End Outcomes.

Section ApplyRun.

Variable env : Env.

Lemma reschedule_ids subsequent : forall currentDate pattern,
  map u_id (reschedule currentDate pattern subsequent) = map id subsequent.
Proof.
  induction subsequent as [| s rest IH]; intros; cbn; [| rewrite IH]; reflexivity.
Qed.

Lemma buildUpdates_ids allSessions sessionIndex sessionToShift d :
  map u_id (buildUpdates allSessions sessionIndex sessionToShift d)
  = id sessionToShift :: map id (skipn (S sessionIndex) allSessions).
Proof. unfold buildUpdates. cbn [map u_id]. now rewrite reschedule_ids. Qed.

Lemma buildUpdates_length allSessions sessionIndex sessionToShift d :
  List.length (buildUpdates allSessions sessionIndex sessionToShift d)
  = S (List.length (skipn (S sessionIndex) allSessions)).
Proof.
  rewrite <- (length_map u_id), buildUpdates_ids. cbn. now rewrite length_map.
Qed.

(** The updates of a batch name distinct rows. *)
Lemma buildUpdates_NoDup allSessions sessionIndex sessionToShift d :
  NoDup (map id allSessions) ->
  nth_error allSessions sessionIndex = Some sessionToShift ->
  NoDup (map u_id (buildUpdates allSessions sessionIndex sessionToShift d)).
Proof.
  intros Hnd Hnth. rewrite buildUpdates_ids.
  destruct (nth_error_split allSessions sessionIndex Hnth)
    as [before [after [-> Hlen]]].
  replace (skipn (S sessionIndex) (before ++ sessionToShift :: after)) with after.
  - rewrite map_app in Hnd. now apply NoDup_app_remove_l in Hnd.
  - rewrite skipn_app, Hlen, skipn_all2 by lia.
    replace (S sessionIndex - sessionIndex)%nat with 1%nat by lia. reflexivity.
Qed.

(** The run of an accepted request: the answer is made of the outcomes of
    the batch, and the table is what step 8 leaves of the patched table. *)
Lemma POST_run req w allSessions sessionIndex sessionToShift d :
  ShiftAccepted env req w allSessions sessionIndex sessionToShift d ->
  let updates := buildUpdates allSessions sessionIndex sessionToShift d in
  let failed := failedFrom env (calls w) updates in
  let succeeded := succeededFrom env (calls w) updates in
  POST env req w
  = (shiftResult updates (map (fun p => errorLine (fst p) (snd p)) failed)
                 (map u_id succeeded),
     snd (renumberPass env
            (mkWorld (patchAll succeeded (table w))
                     (calls w + List.length updates)))).
Proof.
  intros Hacc. cbn zeta. rewrite (POST_accepted env _ _ _ _ _ _ Hacc). cbn zeta.
  unfold bind at 1.
  pose proof (applyUpdates_result env
                (buildUpdates allSessions sessionIndex sessionToShift d) w) as Hr.
  pose proof (applyUpdates_world env
                (buildUpdates allSessions sessionIndex sessionToShift d) w) as Hw.
  destruct (applyUpdates env _ w) as [r w1]. cbn [fst snd] in Hr, Hw.
  subst r w1. unfold bind, ret.
  destruct (renumberPass env _) as [[] w2]. reflexivity.
Qed.

End ApplyRun.


Lemma demoShift_accepted env :
  now env = parseNoon 20006 ->
  selectByWeekSession env demoRows = mkReply (Some demoRows) None ->
  ShiftAccepted env demoShift (mkWorld demoRows 0) demoRows 1 demoSession2 20012.
Proof.
  intros Hnow Hsel. unfold ShiftAccepted, notAfterToday. rewrite Hnow.
  repeat split; try reflexivity; try assumption; discriminate.
Qed.

Lemma demoRows_NoDup : NoDup (map id demoRows).
Proof.
  cbn. repeat constructor; cbn; intuition discriminate.
Qed.


Section RefetchFailure.

Lemma outcomes_ext e1 e2 us :
  (forall k, updateFails e1 k = updateFails e2 k) ->
  forall k, failedFrom e1 k us = failedFrom e2 k us
            /\ succeededFrom e1 k us = succeededFrom e2 k us.
Proof.
  intros Hext. induction us as [| u us IH]; intros k; [split; reflexivity |].
  cbn [failedFrom succeededFrom]. rewrite Hext.
  destruct (IH (S k)) as [-> ->]. split; reflexivity.
Qed.

(** With no failed update, every update of the batch succeeded. *)
Lemma all_succeeded env us : forall k,
  failedFrom env k us = [] -> succeededFrom env k us = us.
Proof.
  induction us as [| u us IH]; intros k Hnone; [reflexivity |].
  cbn [failedFrom succeededFrom] in *.
  destruct (updateFails env k); [discriminate |].
  now rewrite IH.
Qed.

(** Step 8 does nothing when it cannot use the re-fetch. *)
Lemma renumberPass_skipped env w :
  refetchUnusable (selectByDate env (table w)) -> renumberPass env w = (tt, w).
Proof.
  unfold refetchUnusable, renumberPass, bind, dbSelect, ret.
  intros [Herr | [Hdata | Hdata]].
  - destruct (error (selectByDate env (table w))); [reflexivity | congruence].
  - rewrite Hdata. now destruct (error (selectByDate env (table w))).
  - rewrite Hdata. now destruct (error (selectByDate env (table w))).
Qed.

End RefetchFailure.

(** C9.  An accepted apply request whose date and day updates all succeed
    and whose re-fetch by date fails, or gives no data or no rows: step 8
    issues no update (the table is the patched table, with the stored
    week and session numbers it had before the request), and the answer is
    the 200 answer with [success: true], the very answer the request gets
    whatever the re-fetch resolves to. *)
Theorem refetch_failure_silent env req w allSessions sessionIndex sessionToShift d :
  ShiftAccepted env req w allSessions sessionIndex sessionToShift d ->
  let updates := buildUpdates allSessions sessionIndex sessionToShift d in
  failedFrom env (calls w) updates = [] ->
  refetchUnusable (selectByDate env (patchAll updates (table w))) ->
  let response := fst (POST env req w) in
  let w' := snd (POST env req w) in
  response
  = json (AppliedBody
            ("Successfully shifted class and rescheduled "
               ++ showNat (List.length updates - 1)%nat
               ++ " subsequent classes")%string
            (List.length updates) updates)
  /\ success (body response) = Some true
  /\ w' = mkWorld (patchAll updates (table w)) (calls w + List.length updates)
  /\ map storedPair (table w') = map storedPair (table w)
  /\ forall byDate,
       fst (POST (mkEnv (now env) (selectByWeekSession env) byDate
                        (updateFails env)) req w)
       = response.
Proof.
  intros Hacc updates Hnone Hrefetch response w'. subst response w'.
  pose proof (all_succeeded env updates (calls w) Hnone) as Hall.
  rewrite (POST_run env _ _ _ _ _ _ Hacc). fold updates.
  rewrite Hnone, Hall. cbn [fst snd map].
  rewrite renumberPass_skipped by exact Hrefetch. cbn [snd table].
  unfold shiftResult. cbn [List.length Nat.ltb Nat.leb].
  split; [reflexivity |]. split; [reflexivity |]. split; [reflexivity |].
  split; [apply patchAll_storedPairs |].
  intros byDate.
  set (env' := mkEnv (now env) (selectByWeekSession env) byDate (updateFails env)).
  assert (Hacc' : ShiftAccepted env' req w allSessions sessionIndex sessionToShift d)
    by exact Hacc.
  rewrite (POST_run env' _ _ _ _ _ _ Hacc'). fold updates. cbn [fst].
  destruct (outcomes_ext env' env updates (fun _ => eq_refl) (calls w)) as [-> ->].
  now rewrite Hnone, Hall.
Qed.

Lemma refetch_failure_silent_witness :
  success (body (fst (POST (blindEnv (parseNoon 20006)) demoShift
                           (mkWorld demoRows 0)))) = Some true
  /\ map storedPair (table (snd (POST (blindEnv (parseNoon 20006)) demoShift
                                      (mkWorld demoRows 0))))
     = map storedPair demoRows.
Proof.
  pose proof (refetch_failure_silent (blindEnv (parseNoon 20006)) demoShift
                (mkWorld demoRows 0) demoRows 1 demoSession2 20012
                (demoShift_accepted (blindEnv (parseNoon 20006)) eq_refl eq_refl))
    as H.
  cbn zeta in H.
  destruct H as (_ & Hsuccess & _ & Hpairs & _).
  - reflexivity.
  - right. left. reflexivity.
  - split; assumption.
Defined.

(** ** Looking up the session *)

Section Lookup.

Lemma findIndex_minus_one {A : Type} (p : A -> bool) (l : list A) :
  findIndex p l = -1 -> forall x, In x l -> p x = false.
Proof.
  induction l as [| y l IH]; cbn [findIndex]; intros Hnone x Hx; [contradiction |].
  destruct (p y) eqn:Hy; [discriminate |].
  destruct (Z.eqb_spec (findIndex p l) (-1)) as [Hrest | Hrest].
  - destruct Hx as [<- | Hx]; [assumption | now apply IH].
  - destruct (findIndex_found p l Hrest) as [_ [_ [_ Hrange]]]. lia.
Qed.

Lemma findIndex_ext {A : Type} (p q : A -> bool) (l : list A) :
  (forall x, p x = q x) -> findIndex p l = findIndex q l.
Proof.
  intros Hext. induction l as [| y l IH]; cbn [findIndex]; [reflexivity |].
  now rewrite Hext, IH.
Qed.

(** No stored id is strictly equal to a string. *)
Lemma strictEq_string n s : strictEq n (JString s) = false.
Proof. reflexivity. Qed.

End Lookup.

(** C10, as the code has it.  The apply handler compares the stored ids
    with the [sessionId] of the body by strict equality, with no coercion or
    parsing.  So a request whose [sessionId] is a string never finds a
    session and changes nothing.  It is answered 400 when the field check
    stops it (the string is empty, or the table name or the date is
    missing), 500 when the first query fails, and otherwise, when the lookup
    is reached, 404 "Session not found", whatever ids the table holds.  The
    preview handler compares with [parseInt(sessionId)]: a string that
    [parseInt] reads as the number [n] finds the row with id [n] when there
    is one, and is answered 404 only when there is none. *)
Theorem string_sessionId_not_found env w s :
  (forall req, sessionId req = JString s ->
     snd (POST env req w) = w
     /\ In (status (fst (POST env req w))) [400; 404; 500])
  /\ (forall req, sessionId req = JString s ->
        tableName req = "" \/ s = "" \/ newDate req = None ->
        POST env req w = (mkResponse 400 (ErrorBody msgMissingFields), w))
  /\ (forall t d,
        t <> "" -> s <> "" ->
        error (selectByWeekSession env (table w)) <> None
        \/ data (selectByWeekSession env (table w)) = None ->
        POST env (mkShiftBody t (JString s) (Some d)) w
        = (mkResponse 500 (ErrorBody msgFetchFailed), w))
  /\ forall allSessions t d,
       t <> "" -> s <> "" ->
       selectByWeekSession env (table w) = mkReply (Some allSessions) None ->
       POST env (mkShiftBody t (JString s) (Some d)) w
       = (mkResponse 404 (ErrorBody msgNotFound), w)
       /\ forall n, parseInt s = Finite n ->
            findIndex (fun r => eqParsed (id r) s) allSessions
            = findIndex (fun r => id r =? n) allSessions
            /\ (In n (map id allSessions) ->
                status (fst (GET env (mkShiftQuery (Some t) (Some s) (Some d)) w))
                <> 404)
            /\ (~ In n (map id allSessions) ->
                GET env (mkShiftQuery (Some t) (Some s) (Some d)) w
                = (mkResponse 404 (ErrorBody msgNotFound), w)).
Proof.
  split.
  { intros req Hs. unfold POST. rewrite Hs.
    destruct (negb (String.eqb (tableName req) "")), (truthy (JString s)),
             (newDate req) as [d |];
      try (split; [reflexivity | cbn; auto]).
    unfold bind, dbSelect.
    destruct (selectByWeekSession env (table w)) as [[allSessions |] [message |]];
      cbn [error data]; try (split; [reflexivity | cbn; auto]).
    rewrite findIndex_none by (intros; apply strictEq_string).
    split; [reflexivity | cbn; auto]. }
  split.
  { intros req Hs Hmissing. unfold POST. rewrite Hs. cbn [truthy].
    destruct Hmissing as [Hname | [-> | Hdate]].
    - rewrite Hname. reflexivity.
    - now destruct (negb (String.eqb (tableName req) "")).
    - rewrite Hdate.
      now destruct (negb (String.eqb (tableName req) "")),
                   (negb (String.eqb s "")). }
  split.
  { intros t d Ht Hs Hfailed. unfold POST.
    cbn [tableName sessionId newDate truthy].
    destruct (String.eqb_spec t "") as [| _]; [contradiction |].
    destruct (String.eqb_spec s "") as [| _]; [contradiction |].
    cbn [negb]. unfold bind, dbSelect.
    destruct (error (selectByWeekSession env (table w))) as [message |];
      [reflexivity |].
    destruct Hfailed as [Herror | Hdata]; [congruence |].
    now rewrite Hdata. }
  intros allSessions t d Ht Hs Hreply. split.
  - unfold POST. cbn [tableName sessionId newDate truthy].
    destruct (String.eqb_spec t "") as [| _]; [contradiction |].
    destruct (String.eqb_spec s "") as [| _]; [contradiction |].
    cbn [negb]. unfold bind, dbSelect. rewrite Hreply. cbn [error data].
    rewrite findIndex_none by (intros; apply strictEq_string).
    reflexivity.
  - intros n Hn.
    assert (Hsame : findIndex (fun r => eqParsed (id r) s) allSessions
                    = findIndex (fun r => id r =? n) allSessions).
    { apply findIndex_ext. intros r. unfold eqParsed. now rewrite Hn. }
    split; [exact Hsame |].
    unfold GET. cbn [q_tableName q_sessionId q_newDate present].
    destruct (String.eqb_spec t "") as [| _]; [contradiction |].
    destruct (String.eqb_spec s "") as [| _]; [contradiction |].
    cbn [negb]. unfold bind, dbSelect. rewrite Hreply. cbn [error data].
    rewrite Hsame. split.
    + intros Hin. apply in_map_iff in Hin as [r [Hid Hr]].
      destruct (Z.eqb_spec (findIndex (fun r => id r =? n) allSessions) (-1))
        as [Hnone | _].
      * pose proof (findIndex_minus_one _ _ Hnone r Hr) as Hfalse.
        cbn in Hfalse. apply Z.eqb_neq in Hfalse. contradiction.
      * destruct (nth_error allSessions _); [| cbn; lia].
        destruct (date _ =? d); [cbn; lia |].
        destruct (notAfterToday env d); [cbn; lia |].
        destruct (allNewDates _ _ _ _); cbn; lia.
    + intros Hout.
      rewrite findIndex_none; [reflexivity |].
      intros r Hr. apply Z.eqb_neq. intros Heq. apply Hout.
      rewrite <- Heq. now apply in_map.
Qed.

Lemma string_sessionId_not_found_witness :
  POST (demoEnv (parseNoon 20006))
       (mkShiftBody "basic2_0_schedule" (JString "2") (Some 20012))
       (mkWorld demoRows 0)
  = (mkResponse 404 (ErrorBody msgNotFound), mkWorld demoRows 0)
  /\ status (fst (GET (demoEnv (parseNoon 20006)) demoQuery (mkWorld demoRows 0)))
     <> 404
  /\ POST (deafEnv (parseNoon 20006))
          (mkShiftBody "basic2_0_schedule" (JString "2") (Some 20012))
          (mkWorld demoRows 0)
     = (mkResponse 500 (ErrorBody msgFetchFailed), mkWorld demoRows 0)
  /\ POST (demoEnv (parseNoon 20006))
          (mkShiftBody "basic2_0_schedule" (JString "") (Some 20012))
          (mkWorld demoRows 0)
     = (mkResponse 400 (ErrorBody msgMissingFields), mkWorld demoRows 0).
Proof.
  destruct (string_sessionId_not_found (demoEnv (parseNoon 20006))
              (mkWorld demoRows 0) "2") as (_ & _ & _ & Hreached).
  destruct (Hreached demoRows "basic2_0_schedule" 20012) as [Hpost Hget];
    [discriminate | discriminate | reflexivity |].
  split; [exact Hpost |].
  split; [destruct (Hget 2 eq_refl) as (_ & Hfound & _); apply Hfound; cbn; auto |].
  split.
  - destruct (string_sessionId_not_found (deafEnv (parseNoon 20006))
                (mkWorld demoRows 0) "2") as (_ & _ & Hfailed & _).
    apply (Hfailed "basic2_0_schedule" 20012);
      [discriminate | discriminate | left; discriminate].
  - destruct (string_sessionId_not_found (demoEnv (parseNoon 20006))
                (mkWorld demoRows 0) "") as (_ & Hmissing & _).
    apply (Hmissing (mkShiftBody "basic2_0_schedule" (JString "") (Some 20012)));
      [reflexivity | right; left; reflexivity].
Defined.

(** C10 as the spec words it fails: not every request whose [sessionId] is a
    string is answered 404.  The empty string is stopped by the field check
    and answered 400, and a string that spells an existing id is answered 500
    when the first query fails. *)
Lemma string_sessionId_not_always_404 :
  POST (demoEnv (parseNoon 20006))
       (mkShiftBody "basic2_0_schedule" (JString "") (Some 20012))
       (mkWorld demoRows 0)
  = (mkResponse 400 (ErrorBody msgMissingFields), mkWorld demoRows 0)
  /\ status (fst (POST (demoEnv (parseNoon 20006))
                       (mkShiftBody "basic2_0_schedule" (JString "") (Some 20012))
                       (mkWorld demoRows 0))) <> 404
  /\ POST (deafEnv (parseNoon 20006))
          (mkShiftBody "basic2_0_schedule" (JString "2") (Some 20012))
          (mkWorld demoRows 0)
     = (mkResponse 500 (ErrorBody msgFetchFailed), mkWorld demoRows 0)
  /\ status (fst (POST (deafEnv (parseNoon 20006))
                       (mkShiftBody "basic2_0_schedule" (JString "2") (Some 20012))
                       (mkWorld demoRows 0))) <> 404.
Proof. repeat split; discriminate. Qed.

(** ** The date check *)

Section DateCheck.

Variable env : Env.

(** A day before the current day is refused by the apply handler, and
    nothing is written. *)
Lemma POST_past_date req w d :
  newDate req = Some d -> d < toISODate (now env) ->
  snd (POST env req w) = w
  /\ In (status (fst (POST env req w))) [400; 404; 500].
Proof.
  intros Hdate Hpast.
  assert (Hcheck : notAfterToday env d = true)
    by (rewrite notAfterToday_spec; now apply Z.ltb_lt).
  unfold POST. rewrite Hdate.
  destruct (negb (String.eqb (tableName req) "")), (truthy (sessionId req));
    try (split; [reflexivity | cbn; auto]).
  unfold bind, dbSelect.
  destruct (selectByWeekSession env (table w)) as [[allSessions |] [message |]];
    cbn [error data]; try (split; [reflexivity | cbn; auto]).
  destruct (_ =? -1); [split; [reflexivity | cbn; auto] |].
  destruct (nth_error _ _); [| split; [reflexivity | cbn; auto]].
  destruct (date _ =? d); [split; [reflexivity | cbn; auto] |].
  rewrite Hcheck. split; [reflexivity | cbn; auto].
Qed.

(** Past the other checks, the answer to a day before the current day is
    the 400 of the date check. *)
Lemma POST_past_date_400 req w allSessions sessionIndex sessionToShift d :
  tableName req <> "" -> truthy (sessionId req) = true -> newDate req = Some d ->
  selectByWeekSession env (table w) = mkReply (Some allSessions) None ->
  findIndex (fun s => strictEq (id s) (sessionId req)) allSessions
  = Z.of_nat sessionIndex ->
  nth_error allSessions sessionIndex = Some sessionToShift ->
  date sessionToShift <> d ->
  d < toISODate (now env) ->
  POST env req w = (mkResponse 400 (ErrorBody msgNotFuture), w).
Proof.
  intros Hname Hid Hdate Hreply Hidx Hnth Hdiff Hpast.
  unfold POST. rewrite Hid, Hdate.
  destruct (String.eqb_spec (tableName req) "") as [| _]; [contradiction |].
  cbn [negb]. unfold bind, dbSelect. rewrite Hreply. cbn [error data].
  rewrite Hidx.
  destruct (Z.eqb_spec (Z.of_nat sessionIndex) (-1)) as [| _]; [lia |].
  rewrite Nat2Z.id, Hnth.
  destruct (Z.eqb_spec (date sessionToShift) d) as [| _]; [contradiction |].
  rewrite notAfterToday_spec.
  destruct (Z.ltb_spec d (toISODate (now env))); [reflexivity | lia].
Qed.

(** The preview never writes, and refuses a day before the current day. *)
Lemma GET_past_date req w d :
  q_newDate req = Some d -> d < toISODate (now env) ->
  snd (GET env req w) = w
  /\ In (status (fst (GET env req w))) [400; 404; 500].
Proof.
  intros Hdate Hpast.
  assert (Hcheck : notAfterToday env d = true)
    by (rewrite notAfterToday_spec; now apply Z.ltb_lt).
  unfold GET. rewrite Hdate.
  destruct (present (q_tableName req)), (q_sessionId req) as [sid |];
    try (split; [reflexivity | cbn; auto]).
  destruct (String.eqb sid ""); [split; [reflexivity | cbn; auto] |].
  unfold bind, dbSelect.
  destruct (selectByWeekSession env (table w)) as [[allSessions |] [message |]];
    cbn [error data]; try (split; [reflexivity | cbn; auto]).
  destruct (_ =? -1); [split; [reflexivity | cbn; auto] |].
  destruct (nth_error _ _); [| split; [reflexivity | cbn; auto]].
  destruct (date _ =? d); [split; [reflexivity | cbn; auto] |].
  rewrite Hcheck. split; [reflexivity | cbn; auto].
Qed.

(** The current day itself passes the check, at every instant of the day:
    noon of the day is after its midnight. *)
Lemma today_passes : notAfterToday env (toISODate (now env)) = false.
Proof. rewrite notAfterToday_spec. apply Z.ltb_irrefl. Qed.

End DateCheck.

(** C1 fails on the code for the current day.  At 09:30 of day 20012, the
    request to move session 2 (stored on day 20005) to day 20012 passes the
    date check in both handlers: the apply handler answers 200 with
    [success: true] after writing the new dates of sessions 2, 3 and 4, and
    the preview answers 200. *)
Theorem shift_to_today_accepted :
  let env := demoEnv morningOf20012 in
  let w := mkWorld demoRows 0 in
  toISODate (now env) = 20012
  /\ newDate demoShift = Some 20012
  /\ notAfterToday env 20012 = false
  /\ fst (POST env demoShift w)
     = json (AppliedBody
               "Successfully shifted class and rescheduled 2 subsequent classes"
               3 [mkUpdate 2 20012 "Wednesday"; mkUpdate 3 20013 "Thursday";
                  mkUpdate 4 20017 "Monday"])
  /\ map date (table (snd (POST env demoShift w))) = [20003; 20012; 20013; 20017]
  /\ map date (table w) = [20003; 20005; 20008; 20010]
  /\ status (fst (GET env demoQuery w)) = 200
  /\ success (body (fst (GET env demoQuery w))) = Some true.
Proof. vm_compute. repeat split. Qed.

(** ** Idempotence of the renumbering *)

Section Idempotence.

Lemma setNumbers_same r : setNumbers (week_number r) (session_number r) r = r.
Proof. now destruct r. Qed.

Lemma withPairs_spec rows : forall pairs,
  List.length pairs = List.length rows ->
  map storedPair (withPairs rows pairs) = pairs
  /\ map fixedColumns (withPairs rows pairs) = map fixedColumns rows
  /\ (map storedPair rows = pairs -> withPairs rows pairs = rows).
Proof.
  unfold withPairs.
  induction rows as [| r rows IH]; intros [| [w n] pairs] Hlen;
    try discriminate; [repeat split |].
  cbn in Hlen. injection Hlen as Hlen.
  destruct (IH pairs Hlen) as (Hp & Hf & Hsame).
  cbn [combine map fst snd]. rewrite Hp, Hf. repeat split.
  intros Heq. cbn [map] in Heq. injection Heq as Hw Hn Hrest.
  rewrite (Hsame Hrest). unfold storedPair in *. subst w n.
  now rewrite setNumbers_same.
Qed.

Lemma fixedColumns_dates l1 l2 :
  map fixedColumns l1 = map fixedColumns l2 -> map date l1 = map date l2.
Proof.
  intros H.
  apply (f_equal (map (fun c : Z * Z * string * string * string =>
                         snd (fst (fst (fst c)))))) in H.
  rewrite !map_map in H. exact H.
Qed.

(** A renumbered list stores the pairs the renumberer assigns to it. *)
Lemma relabel_settled rows :
  map storedPair (relabel rows) = renumber (map date (relabel rows)).
Proof.
  unfold relabel.
  destruct (withPairs_spec rows (renumber (map date rows)))
    as (Hp & Hf & _); [now rewrite renumber_length, length_map |].
  now rewrite Hp, (fixedColumns_dates _ _ Hf).
Qed.

(** On rows that store their assigned pairs the loop issues no update. *)
Lemma renumberRows_settled env rows : forall st w,
  map storedPair rows = assignFrom st (map date rows) ->
  renumberRows env st rows w = (tt, w).
Proof.
  induction rows as [| session rest IH]; intros st w Hsettled; [reflexivity |].
  cbn [map assignFrom] in Hsettled. injection Hsettled as Hw Hn Hrest.
  cbn [renumberRows]. unfold pairChanged. rewrite Hw, Hn, !Z.eqb_refl.
  cbn [negb orb]. unfold bind, ret. now apply IH.
Qed.

(** A pass over a re-fetched list that stores its assigned pairs does
    nothing. *)
Lemma renumberPass_settled env w rows :
  selectByDate env (table w) = mkReply (Some rows) None ->
  map storedPair rows = renumber (map date rows) ->
  renumberPass env w = (tt, w).
Proof.
  intros Hreply Hsettled.
  unfold renumberPass, bind, dbSelect. rewrite Hreply. cbn [error data].
  destruct rows as [| first rest]; [reflexivity |].
  now apply renumberRows_settled.
Qed.

End Idempotence.


(** ** The stable sort *)

Section SortBy.

Context {A : Type} (key : A -> Z).

Lemma insertSorted_perm x l : Permutation (x :: l) (insertSorted key x l).
Proof.
  induction l as [| y l IH]; cbn [insertSorted]; [reflexivity |].
  destruct (key x <=? key y); [reflexivity |].
  rewrite perm_swap. now constructor.
Qed.

Lemma sortBy_perm l : Permutation l (sortBy key l).
Proof.
  induction l as [| x l IH]; cbn [sortBy]; [constructor |].
  rewrite <- insertSorted_perm. now constructor.
Qed.

Lemma insertSorted_ordered x l :
  Sorted (fun a b => key a <= key b) l ->
  Sorted (fun a b => key a <= key b) (insertSorted key x l).
Proof.
  induction 1 as [| y l Hl IH Hhd]; cbn [insertSorted].
  - repeat constructor.
  - destruct (Z.leb_spec (key x) (key y)).
    + repeat constructor; assumption.
    + constructor; [assumption |].
      destruct l as [| z l]; cbn [insertSorted] in *.
      * constructor. lia.
      * destruct (key x <=? key z); constructor; [lia |].
        now inversion Hhd.
Qed.

(** The sort puts the list in ascending order of the key. *)
Lemma sortBy_ordered l : Sorted (fun a b => key a <= key b) (sortBy key l).
Proof.
  induction l as [| x l IH]; cbn [sortBy]; [constructor |].
  now apply insertSorted_ordered.
Qed.

(** The sort commutes with a change of the elements that keeps their key. *)
Lemma sortBy_map (f : A -> A) l :
  (forall x, key (f x) = key x) -> sortBy key (map f l) = map f (sortBy key l).
Proof.
  intros Hkey.
  assert (Hins : forall x l', insertSorted key (f x) (map f l')
                              = map f (insertSorted key x l')).
  { intros x l'. induction l' as [| y l' IH]; cbn [insertSorted map];
      [reflexivity |].
    rewrite !Hkey. destruct (key x <=? key y); [reflexivity |].
    cbn [map]. now rewrite IH. }
  induction l as [| x l IH]; cbn [sortBy map]; [reflexivity |].
  now rewrite IH, Hins.
Qed.

End SortBy.

(** ** The table after the renumbering pass *)

Section RenumberedTable.

Variable env : Env.
Hypothesis env_reliable : reliable env.

Lemma numbersOf_same k w n entries r :
  id r = k -> numbersOf ((k, (w, n)) :: entries) r = setNumbers w n r.
Proof.
  intros <-. unfold numbersOf. cbn [find fst]. now rewrite Z.eqb_refl.
Qed.

Lemma numbersOf_other k p entries r :
  id r <> k -> numbersOf ((k, p) :: entries) r = numbersOf entries r.
Proof.
  intros Hne. unfold numbersOf. cbn [find fst].
  destruct (Z.eqb_spec k (id r)); [congruence | reflexivity].
Qed.

Lemma numbersOf_absent entries r :
  ~ In (id r) (map fst entries) -> numbersOf entries r = r.
Proof.
  induction entries as [| [k p] entries IH]; intros Hout; [reflexivity |].
  rewrite numbersOf_other; [apply IH | ]; intros H; apply Hout; cbn; auto.
Qed.

Lemma numbersOf_fixedColumns entries r :
  fixedColumns (numbersOf entries r) = fixedColumns r.
Proof.
  unfold numbersOf. now destruct (find _ entries) as [[k [w n]] |].
Qed.

Lemma combine_keys {B : Type} (ks : list Z) : forall (vs : list B) k,
  In k (map fst (combine ks vs)) -> In k ks.
Proof.
  induction ks as [| k0 ks IH]; intros [| v vs] k Hin; try contradiction.
  cbn in Hin. destruct Hin as [<- | Hin]; [now left | right; eauto].
Qed.

(** On a reliable store, the loop of step 8 leaves every row it was given
    with its assigned pair, and every other row as it was. *)
Lemma renumberRows_table rows : forall st w,
  NoDup (map id rows) ->
  (forall r s, In r (table w) -> In s rows -> id r = id s ->
               storedPair r = storedPair s) ->
  table (snd (renumberRows env st rows w))
  = map (numbersOf (combine (map id rows) (assignFrom st (map date rows))))
        (table w).
Proof.
  induction rows as [| session rest IH]; intros st w Hnd Hcoherent.
  - cbn. symmetry. erewrite map_ext; [apply map_id | reflexivity].
  - cbn [map] in Hnd. apply NoDup_cons_iff in Hnd as [Hfresh Hnd].
    cbn [renumberRows map assignFrom combine].
    set (st' := advanceWeek st (date session)).
    set (entries := combine (map id rest) (assignFrom st' (map date rest))).
    assert (Hkeys : ~ In (id session) (map fst entries))
      by (intros H; apply Hfresh; exact (combine_keys _ _ _ H)).
    unfold bind at 1.
    destruct (pairChanged session st') eqn:Hchanged.
    + unfold bind at 1, dbUpdate. rewrite env_reliable. unfold ret.
      rewrite IH; [| assumption |]; cbn [table].
      * rewrite map_map. apply map_ext. intros r.
        destruct (Z.eqb_spec (id r) (id session)) as [Heq | Hne].
        -- rewrite numbersOf_same by assumption.
           apply numbersOf_absent. cbn. now rewrite Heq.
        -- now rewrite numbersOf_other.
      * intros r1 s Hr1 Hs Hid.
        apply in_map_iff in Hr1 as [r [<- Hr]].
        destruct (Z.eqb_spec (id r) (id session)) as [Heq | Hne].
        -- exfalso. apply Hfresh. cbn in Hid. rewrite <- Heq, Hid.
           now apply in_map.
        -- apply Hcoherent; [assumption | now right | assumption].
    + unfold ret. rewrite IH; [| assumption |].
      * apply map_ext_in. intros r Hr.
        destruct (Z.eqb_spec (id r) (id session)) as [Heq | Hne].
        -- rewrite numbersOf_same by assumption.
           rewrite numbersOf_absent by now rewrite Heq.
           pose proof (Hcoherent r session Hr (or_introl eq_refl) Heq) as Hpair.
           unfold pairChanged in Hchanged.
           apply orb_false_elim in Hchanged as [Hw Hn].
           apply negb_false_iff, Z.eqb_eq in Hw, Hn.
           unfold storedPair in Hpair. injection Hpair as Hw' Hn'.
           rewrite <- Hw, <- Hn, <- Hw', <- Hn'.
           symmetry. apply setNumbers_same.
        -- now rewrite numbersOf_other.
      * intros r s Hr Hs Hid. apply Hcoherent; [assumption | now right | assumption].
Qed.

(** Writing into each row of a list the pair listed for its id is writing
    the pairs row by row, when the ids are distinct. *)
Lemma numbersOf_withPairs rows : forall pairs,
  NoDup (map id rows) -> List.length pairs = List.length rows ->
  map (numbersOf (combine (map id rows) pairs)) rows = withPairs rows pairs.
Proof.
  unfold withPairs.
  induction rows as [| r rows IH]; intros [| [w n] pairs] Hnd Hlen;
    try discriminate; [reflexivity |].
  cbn [map] in Hnd. apply NoDup_cons_iff in Hnd as [Hfresh Hnd].
  cbn in Hlen. injection Hlen as Hlen.
  cbn [map combine fst snd]. rewrite numbersOf_same by reflexivity.
  f_equal. rewrite <- IH by assumption.
  apply map_ext_in. intros r' Hr'. apply numbersOf_other.
  intros Heq. apply Hfresh. rewrite <- Heq. now apply in_map.
Qed.

Lemma NoDup_map_injective {B : Type} (f : Session -> B) l x y :
  NoDup (map f l) -> In x l -> In y l -> f x = f y -> x = y.
Proof.
  induction l as [| z l IH]; intros Hnd Hx Hy Heq; [contradiction |].
  cbn [map] in Hnd. apply NoDup_cons_iff in Hnd as [Hfresh Hnd].
  destruct Hx as [-> | Hx], Hy as [-> | Hy]; auto.
  - exfalso. apply Hfresh. rewrite Heq. now apply in_map.
  - exfalso. apply Hfresh. rewrite <- Heq. now apply in_map.
Qed.

(** On a reliable store that answers the re-fetch in date order, step 8
    leaves the table, read in date order, as the renumberer numbers it. *)
Lemma renumberPass_table w :
  answers env -> NoDup (map id (table w)) ->
  sortBy date (table (snd (renumberPass env w)))
  = relabel (sortBy date (table w)).
Proof.
  intros Hanswers Hnd.
  unfold renumberPass, bind, dbSelect.
  destruct (Hanswers (table w)) as [_ ->]. cbn [error data].
  pose proof (sortBy_perm date (table w)) as Hperm.
  assert (Hnd' : NoDup (map id (sortBy date (table w))))
    by (eapply Permutation_NoDup; [apply Permutation_map, Hperm | exact Hnd]).
  destruct (sortBy date (table w)) as [| first rest] eqn:Hsorted.
  { unfold ret. cbn [snd]. now rewrite Hsorted. }
  rewrite renumberRows_table; [| assumption |].
  - rewrite sortBy_map, Hsorted.
    + assert (Hlen : List.length (renumber (map date (first :: rest)))
                     = List.length (first :: rest))
        by now rewrite renumber_length, length_map.
      exact (numbersOf_withPairs (first :: rest)
               (renumber (map date (first :: rest))) Hnd' Hlen).
    + intros r.
      pose proof (numbersOf_fixedColumns
                    (combine (map id (first :: rest))
                       (assignFrom (initialWeek (date first))
                                   (map date (first :: rest)))) r) as H.
      unfold fixedColumns in H. now injection H.
  - intros r s Hr Hs Hid.
    apply (Permutation_in _ (Permutation_sym Hperm)) in Hs.
    now rewrite (NoDup_map_injective id (table w) r s Hnd Hr Hs Hid).
Qed.

End RenumberedTable.

Section AfterThePass.

Variable env : Env.
Hypothesis env_reliable : reliable env.
Hypothesis env_answers : answers env.

(** After step 8 the table, read in date order, stores the pairs the
    renumberer assigns to its dates. *)
Lemma renumberPass_numbers w :
  NoDup (map id (table w)) ->
  map storedPair (sortBy date (table (snd (renumberPass env w))))
  = renumber (map date (sortBy date (table (snd (renumberPass env w))))).
Proof.
  intros Hnd. rewrite (renumberPass_table env env_reliable w env_answers Hnd).
  apply relabel_settled.
Qed.

(** Running step 8 a second time changes nothing and issues no update. *)
Lemma renumberPass_twice w :
  NoDup (map id (table w)) ->
  renumberPass env (snd (renumberPass env w))
  = (tt, snd (renumberPass env w)).
Proof.
  intros Hnd.
  apply renumberPass_settled
    with (rows := sortBy date (table (snd (renumberPass env w)))).
  - apply env_answers.
  - now apply renumberPass_numbers.
Qed.

End AfterThePass.

Section PreviewPairs.

Variables (allSessions : list Session) (sessionIndex : Z)
          (sessionToShift : Session).

(** The pairs of the preview rows are those the renumberer assigns to the
    affected items. *)
Lemma previewRows_pairs items : forall st,
  map previewPair (previewRows allSessions sessionIndex sessionToShift st items)
  = map snd
      (filter (fun ip => affected allSessions sessionIndex sessionToShift (fst ip))
              (combine items (assignFrom st (map i_newDate items)))).
Proof.
  induction items as [| item rest IH]; intros st; [reflexivity |].
  cbn [previewRows map assignFrom combine filter fst].
  destruct (affected allSessions sessionIndex sessionToShift item);
    cbn [map snd]; now rewrite IH.
Qed.

(** They increase strictly along the preview. *)
Lemma previewRows_increasing items : forall st,
  let pairs :=
    map previewPair
        (previewRows allSessions sessionIndex sessionToShift st items) in
  Forall (pairLt (currentWeekNumber st, sessionInWeek st)) pairs
  /\ StronglySorted pairLt pairs.
Proof.
  induction items as [| item rest IH]; intros st; cbn zeta;
    [split; constructor |].
  cbn [previewRows].
  destruct (IH (advanceWeek st (i_newDate item))) as [Hafter Hsorted].
  pose proof (pairNext_lt _ _ (advanceWeek_next st (i_newDate item))) as Hstep.
  assert (Hlater : Forall (pairLt (currentWeekNumber st, sessionInWeek st))
                     (map previewPair
                        (previewRows allSessions sessionIndex sessionToShift
                           (advanceWeek st (i_newDate item)) rest))).
  { eapply Forall_impl; [| exact Hafter].
    intros p. now apply pairLt_trans. }
  destruct (affected allSessions sessionIndex sessionToShift item).
  - cbn [map]. split; constructor; assumption.
  - split; assumption.
Qed.

End PreviewPairs.

(** C6.  The pairs a renumbering pass assigns along the list it is given
    (the table in ascending date order) start at (1, 1); each next pair is
    the next position of the same week or position 1 of the next week; so
    the pairs increase strictly in lexicographic order and no two rows get
    the same pair.  In the apply handler, on a store that answers the
    re-fetch and fails no update, the table read in ascending date order
    stores exactly these pairs after the pass; in the preview, the pairs
    announced increase strictly along the preview. *)
Theorem renumber_pairs_increasing :
  (forall dates,
     List.length (renumber dates) = List.length dates
     /\ hd (1, 1) (renumber dates) = (1, 1)
     /\ Sorted pairNext (renumber dates)
     /\ StronglySorted pairLt (renumber dates)
     /\ NoDup (renumber dates))
  /\ (forall env w,
        reliable env -> answers env -> NoDup (map id (table w)) ->
        let rows := sortBy date (table (snd (renumberPass env w))) in
        Sorted (fun a b => date a <= date b) rows
        /\ map storedPair rows = renumber (map date rows))
  /\ (forall allSessions sessionIndex sessionToShift firstDate items,
        StronglySorted pairLt
          (map previewPair
               (previewRows allSessions sessionIndex sessionToShift
                            (initialWeek firstDate) items))).
Proof.
  split; [| split].
  - intros dates.
    split; [apply renumber_length |].
    split; [destruct dates; [reflexivity | now rewrite renumber_cons] |].
    pose proof (renumber_chain dates) as Hchain.
    pose proof (chain_increasing _ Hchain) as Hinc.
    auto using increasing_NoDup.
  - intros env w Hreliable Hanswers Hnd rows. subst rows.
    split; [apply sortBy_ordered | now apply renumberPass_numbers].
  - intros. apply previewRows_increasing.
Qed.

Lemma renumber_pairs_increasing_witness :
  map storedPair
      (sortBy date (table (snd (renumberPass (demoEnv 0) (mkWorld demoRows 0)))))
  = renumber (map date
      (sortBy date (table (snd (renumberPass (demoEnv 0) (mkWorld demoRows 0)))))).
Proof.
  destruct renumber_pairs_increasing as (_ & Happly & _).
  apply (Happly (demoEnv 0) (mkWorld demoRows 0)).
  - intros k. reflexivity.
  - intros rows. split; reflexivity.
  - exact demoRows_NoDup.
Defined.

(** C4.  The renumberer is idempotent.  A list as the renumberer numbers it
    stores the pairs the renumberer assigns to it; on a list that stores its
    assigned pairs (in whatever order it comes, so in date order too),
    writing the assigned pairs changes no row, and the
    renumbering pass of the apply handler issues no update and leaves the
    table as it is; so, on a store that answers the re-fetch and fails no
    update, running the pass a second time changes nothing. *)
Theorem renumber_idempotent :
  (forall rows,
     map storedPair (relabel rows) = renumber (map date (relabel rows)))
  /\ (forall rows,
        map storedPair rows = renumber (map date rows) ->
        relabel rows = rows)
  /\ (forall env w rows,
        selectByDate env (table w) = mkReply (Some rows) None ->
        map storedPair rows = renumber (map date rows) ->
        renumberPass env w = (tt, w))
  /\ (forall env w,
        reliable env -> answers env -> NoDup (map id (table w)) ->
        renumberPass env (snd (renumberPass env w))
        = (tt, snd (renumberPass env w))).
Proof.
  split; [exact relabel_settled |].
  split.
  { intros rows Hsettled. unfold relabel.
    apply (withPairs_spec rows (renumber (map date rows)));
      [now rewrite renumber_length, length_map | exact Hsettled]. }
  split; [exact renumberPass_settled |].
  intros env w Hreliable Hanswers Hnd. now apply renumberPass_twice.
Qed.

Lemma renumber_idempotent_witness :
  relabel (relabel demoRows) = relabel demoRows
  /\ renumberPass (demoEnv 0) (snd (renumberPass (demoEnv 0) (mkWorld demoRows 0)))
     = (tt, snd (renumberPass (demoEnv 0) (mkWorld demoRows 0))).
Proof.
  destruct renumber_idempotent as (_ & Hsame & _ & Htwice).
  split.
  - apply Hsame. reflexivity.
  - apply Htwice.
    + intros k. reflexivity.
    + intros rows. split; reflexivity.
    + exact demoRows_NoDup.
Defined.

(** ** Worked runs *)

(** With the pattern Monday, Wednesday, a session moved to a Tuesday is
    followed on the Wednesday after it. *)
Example next_after_tuesday :
  getDayName (parseNoon 20011) = "Tuesday"
  /\ dayPattern demoRows = [JsNumber 1; JsNumber 3]
  /\ toISODate (findNextDay (parseNoon 20011) (dayPattern demoRows)) = 20012
  /\ getDayName (findNextDay (parseNoon 20011) (dayPattern demoRows)) = "Wednesday".
Proof. repeat split. Qed.

(** The run of [demoShift] on the store whose second update fails: session 3
    keeps its old date, sessions 2 and 4 carry their new ones, and the pass
    renumbers the table as it then stands. *)
Example partial_failure_run :
  POST (flakyEnv (parseNoon 20006)) demoShift (mkWorld demoRows 0)
  = (mkResponse 207
       (PartialBody "Partially updated. 2 succeeded, 1 failed." 2
                    ["Session 3: connection reset"]),
     mkWorld [mkSession 1 1 1 20003 "Monday" "class" "Arrays";
              mkSession 2 2 1 20012 "Wednesday" "class" "Strings";
              mkSession 3 1 2 20008 "Saturday" "contest" "Contest 1";
              mkSession 4 2 2 20017 "Monday" "class" "Trees"]
             5).
Proof. reflexivity. Qed.

(** * Further properties of the route *)

(** ** The date projector *)

Lemma findNextDay_forward fromDate targetDays :
  exists k, 1 <= k <= 8
            /\ findNextDay fromDate targetDays = fromDate + k * msPerDay.
Proof.
  assert (Hscan : forall fuel result,
            exists k, 0 <= k <= Z.of_nat fuel
                      /\ scanDays fuel result targetDays = result + k * msPerDay).
  { induction fuel as [| fuel IH]; intros result.
    - exists 0. cbn. split; lia.
    - cbn [scanDays]. destruct (includes (getDay result) targetDays).
      + exists 0. split; lia.
      + destruct (IH (nextDate result)) as [k [Hk ->]].
        exists (k + 1). unfold nextDate. split; lia. }
  unfold findNextDay. destruct (Hscan 7%nat (nextDate fromDate)) as [k [Hk ->]].
  exists (k + 1). unfold nextDate. cbn in Hk. split; lia.
Qed.

(** [findNextDay] always moves forward: whatever the targets, the date it
    returns lies between one and eight whole days after the start, at the
    same time of day. *)
Theorem findNextDay_strictly_after fromDate targetDays :
  fromDate < findNextDay fromDate targetDays
  /\ exists k, 1 <= k <= 8
               /\ findNextDay fromDate targetDays = fromDate + k * msPerDay.
Proof.
  destruct (findNextDay_forward fromDate targetDays) as [k [Hk Heq]].
  split; [| now exists k].
  rewrite Heq. unfold msPerDay. lia.
Qed.

(** With a weekday among the targets, [findNextDay] returns the nearest day
    after the start that falls on a target day, at most seven days on. *)
Theorem findNextDay_nearest fromDate targetDays n :
  0 <= n < 7 -> In (JsNumber n) targetDays ->
  exists k, 1 <= k <= 7
    /\ findNextDay fromDate targetDays = fromDate + k * msPerDay
    /\ In (JsNumber (getDay (findNextDay fromDate targetDays))) targetDays
    /\ forall j, 1 <= j < k ->
         ~ In (JsNumber (getDay (fromDate + j * msPerDay))) targetDays.
Proof.
  intros Hn Hin.
  destruct (findNextDay_found targetDays fromDate n Hn Hin)
    as [k [Hk [Heq [Hyes Hno]]]].
  exists k. rewrite Heq. split; [lia | split; [reflexivity |]]. split.
  - now apply includes_In.
  - intros j Hj Hmatch. apply includes_In in Hmatch.
    rewrite (Hno j Hj) in Hmatch. discriminate.
Qed.

Lemma findNextDay_nearest_witness :
  exists k, 1 <= k <= 7
    /\ findNextDay (parseNoon 20011) [JsNumber 1; JsNumber 3]
       = parseNoon 20011 + k * msPerDay
    /\ In (JsNumber (getDay (findNextDay (parseNoon 20011) [JsNumber 1; JsNumber 3])))
          [JsNumber 1; JsNumber 3]
    /\ forall j, 1 <= j < k ->
         ~ In (JsNumber (getDay (parseNoon 20011 + j * msPerDay)))
              [JsNumber 1; JsNumber 3].
Proof.
  apply (findNextDay_nearest (parseNoon 20011) [JsNumber 1; JsNumber 3] 1).
  - lia.
  - now left.
Defined.

(** A contest is projected onto Monday to Friday, at most three days after
    the date before it. *)
Theorem contest_within_three_days d :
  exists k, 1 <= k <= 3
    /\ findNextDay (parseNoon d) weekdays = parseNoon (d + k)
    /\ 1 <= weekdayOf (d + k) <= 5.
Proof.
  destruct (findNextDay_found weekdays (parseNoon d) 1 ltac:(lia) ltac:(now left))
    as [k [Hk [Heq [Hyes Hno]]]].
  assert (Hday : forall j, includes (getDay (parseNoon d + j * msPerDay)) weekdays
                           = (1 <=? (weekdayOf d + j) mod 7)
                             && ((weekdayOf d + j) mod 7 <=? 5)).
  { intros j. rewrite getDay_plus_days. fold (weekdayOf d).
    pose proof (Z.mod_pos_bound (weekdayOf d + j) 7 ltac:(lia)) as Hr.
    assert (Hc : (weekdayOf d + j) mod 7 = 0 \/ (weekdayOf d + j) mod 7 = 1
                 \/ (weekdayOf d + j) mod 7 = 2 \/ (weekdayOf d + j) mod 7 = 3
                 \/ (weekdayOf d + j) mod 7 = 4 \/ (weekdayOf d + j) mod 7 = 5
                 \/ (weekdayOf d + j) mod 7 = 6) by lia.
    repeat destruct Hc as [-> | Hc]; try rewrite Hc; reflexivity. }
  exists k. rewrite Heq, parseNoon_plus. rewrite Hday in Hyes.
  apply andb_prop in Hyes as [Hlo Hhi].
  apply Z.leb_le in Hlo, Hhi.
  assert (Hwd : weekdayOf (d + k) = (weekdayOf d + k) mod 7).
  { unfold weekdayOf. rewrite <- parseNoon_plus. apply getDay_plus_days. }
  rewrite Hwd. split; [| split; [reflexivity | lia]].
  split; [lia |].
  (* One of the three days after any date is a weekday. *)
  destruct (Z_le_gt_dec k 3) as [| Hlate]; [assumption | exfalso].
  pose proof (Hno 1 ltac:(lia)) as H1. pose proof (Hno 2 ltac:(lia)) as H2.
  pose proof (Hno 3 ltac:(lia)) as H3.
  rewrite Hday in H1, H2, H3.
  pose proof (getDay_range (parseNoon d)) as Hr. fold (weekdayOf d) in Hr.
  assert (Hc : weekdayOf d = 0 \/ weekdayOf d = 1 \/ weekdayOf d = 2
               \/ weekdayOf d = 3 \/ weekdayOf d = 4 \/ weekdayOf d = 5
               \/ weekdayOf d = 6) by lia.
  repeat destruct Hc as [Hc | Hc]; rewrite Hc in H1, H2, H3;
    cbn in H1, H2, H3; discriminate.
Qed.

(** The two day tables are inverse to each other: the index of the name of
    a date is its weekday, and a name with index [n] is the name of every
    date whose weekday is [n]. *)
Theorem day_name_index_round_trip :
  (forall t, getDayIndex (getDayName t) = JsNumber (getDay t))
  /\ (forall name n t,
        getDayIndex name = JsNumber n -> getDay t = n -> getDayName t = name).
Proof.
  split; [exact getDayIndex_getDayName |].
  intros name n t Hidx Hday.
  destruct (getDayIndex_cases name)
    as [[m [Hown [Heq Hm]]] | [[_ Heq] | [_ [_ Heq]]]];
    rewrite Heq in Hidx; try discriminate.
  - injection Hidx as ->. unfold getDayName. rewrite Hday.
    apply (ownProperty_dayTable name n Hown).
  - injection Hidx as <-. pose proof (getDay_range t). lia.
Qed.

Lemma day_name_index_round_trip_witness :
  getDayName (parseNoon 20003) = "Monday".
Proof.
  apply (proj2 day_name_index_round_trip "Monday" 1 (parseNoon 20003));
    reflexivity.
Defined.

(** ** The cascade, whatever the pattern *)

Section CascadeAlways.

Variable pattern : list JsValue.

(** One turn of the loop goes from a noon to a later noon, at most eight
    days on. *)
Lemma nextSessionDate_forward d session :
  exists d', nextSessionDate (parseNoon d) pattern session = parseNoon d'
             /\ d < d' <= d + 8.
Proof.
  unfold nextSessionDate.
  destruct (isContest session);
    match goal with
    | |- context [findNextDay _ ?t] =>
        destruct (findNextDay_forward (parseNoon d) t) as [k [Hk ->]]
    end;
    exists (d + k); rewrite parseNoon_plus; split; (reflexivity || lia).
Qed.

Lemma reschedule_forward subsequent : forall d,
  Sorted (fun a b => a < b <= a + 8)
         (d :: map u_date (reschedule (parseNoon d) pattern subsequent))
  /\ Forall (fun u => u_day u = getDayName (parseNoon (u_date u)))
            (reschedule (parseNoon d) pattern subsequent).
Proof.
  induction subsequent as [| session rest IH]; intros d.
  - split; repeat constructor.
  - cbn [reschedule].
    destruct (nextSessionDate_forward d session) as [d' [-> Hd']].
    rewrite toISODate_parseNoon. destruct (IH d') as [Hsorted Hdays].
    cbn [map u_date]. split.
    + constructor; [exact Hsorted | now constructor].
    + constructor; [reflexivity | exact Hdays].
Qed.

End CascadeAlways.

Lemma buildUpdates_days allSessions sessionIndex sessionToShift d u :
  In u (buildUpdates allSessions sessionIndex sessionToShift d) ->
  u_day u = getDayName (parseNoon (u_date u)).
Proof.
  unfold buildUpdates. intros [<- | Hin]; [reflexivity |].
  destruct (reschedule_forward (dayPattern allSessions)
              (skipn (S sessionIndex) allSessions) d) as [_ Hdays].
  rewrite Forall_forall in Hdays. now apply Hdays.
Qed.

Lemma cascade_increasing_dates allSessions sessionIndex sessionToShift d :
  StronglySorted Z.lt
    (map u_date (buildUpdates allSessions sessionIndex sessionToShift d)).
Proof.
  assert (Hgap : Sorted (fun a b => a < b <= a + 8)
            (map u_date (buildUpdates allSessions sessionIndex sessionToShift d))).
  { unfold buildUpdates. cbn [map u_date]. apply reschedule_forward. }
  apply Sorted_StronglySorted; [intros a b c; apply Z.lt_trans |].
  induction Hgap as [| a l _ IH Hhd]; constructor; [exact IH |].
  destruct Hhd; constructor. lia.
Qed.

(** On a server in UTC each date of a batch is at most eight days after the
    one before. *)
Lemma buildUpdates_gaps allSessions sessionIndex sessionToShift d :
  Sorted (fun a b => a < b <= a + 8)
         (map u_date (buildUpdates allSessions sessionIndex sessionToShift d)).
Proof. unfold buildUpdates. cbn [map u_date]. apply reschedule_forward. Qed.

Lemma skipn_nth_error {A : Type} (l : list A) i x :
  nth_error l i = Some x -> skipn i l = x :: skipn (S i) l.
Proof.
  intros Hnth.
  destruct (nth_error_split l i Hnth) as [before [after [-> Hlen]]].
  subst i. rewrite !skipn_app.
  rewrite (skipn_all2 before) by lia.
  rewrite (skipn_all2 (n := S (List.length before)) before) by lia.
  replace (List.length before - List.length before)%nat with 0%nat by lia.
  replace (S (List.length before) - List.length before)%nat with 1%nat by lia.
  reflexivity.
Qed.

Lemma buildUpdates_ids_from allSessions sessionIndex sessionToShift d :
  nth_error allSessions sessionIndex = Some sessionToShift ->
  map u_id (buildUpdates allSessions sessionIndex sessionToShift d)
  = map id (skipn sessionIndex allSessions).
Proof.
  intros Hnth. now rewrite buildUpdates_ids, (skipn_nth_error _ _ _ Hnth).
Qed.

(** The batch names the shifted session and every session after it in the
    fetched order, once each and in that order; no session before the
    shifted one is in it. *)
Theorem updates_cover_target_onwards allSessions sessionIndex sessionToShift d :
  nth_error allSessions sessionIndex = Some sessionToShift ->
  map u_id (buildUpdates allSessions sessionIndex sessionToShift d)
  = map id (skipn sessionIndex allSessions)
  /\ List.length (buildUpdates allSessions sessionIndex sessionToShift d)
     = (List.length allSessions - sessionIndex)%nat.
Proof.
  intros Hnth. pose proof (skipn_nth_error _ _ _ Hnth) as Hskip.
  split.
  - now apply buildUpdates_ids_from.
  - rewrite buildUpdates_length, <- (length_skipn sessionIndex), Hskip.
    reflexivity.
Qed.

Lemma updates_cover_target_onwards_witness :
  map u_id (buildUpdates demoRows 1 demoSession2 20012) = [2; 3; 4]
  /\ List.length (buildUpdates demoRows 1 demoSession2 20012) = 3%nat.
Proof.
  apply (updates_cover_target_onwards demoRows 1 demoSession2 20012).
  reflexivity.
Defined.

(** ** What the apply handler writes *)

Section ApplyWrites.

Variable env : Env.

(** A request is refused without a write, or passes every check. *)
Lemma POST_cases req w :
  (snd (POST env req w) = w
   /\ In (status (fst (POST env req w))) [400; 404; 500])
  \/ exists allSessions sessionIndex sessionToShift d,
       ShiftAccepted env req w allSessions sessionIndex sessionToShift d.
Proof.
  unfold POST.
  destruct (String.eqb_spec (tableName req) "") as [| Hname]; cbn [negb];
    [left; split; [reflexivity | cbn; auto] |].
  destruct (truthy (sessionId req)) eqn:Hid;
    [| left; split; [reflexivity | cbn; auto]].
  destruct (newDate req) as [d |] eqn:Hdate;
    [| left; split; [reflexivity | cbn; auto]].
  destruct (selectByWeekSession env (table w)) as [[allSessions |] [message |]]
    eqn:Hreply; unfold bind, dbSelect; rewrite Hreply; cbn [error data];
    try (left; split; [reflexivity | cbn; auto]).
  destruct (Z.eqb_spec
              (findIndex (fun s => strictEq (id s) (sessionId req)) allSessions)
              (-1)) as [| Hfound];
    [left; split; [reflexivity | cbn; auto] |].
  destruct (findIndex_found _ _ Hfound) as [x [Hnth [_ Hrange]]].
  rewrite Hnth.
  destruct (Z.eqb_spec (date x) d) as [| Hdiff];
    [left; split; [reflexivity | cbn; auto] |].
  destruct (notAfterToday env d) eqn:Hcheck;
    [left; split; [reflexivity | cbn; auto] |].
  right. exists allSessions, (Z.to_nat
    (findIndex (fun s => strictEq (id s) (sessionId req)) allSessions)), x, d.
  unfold ShiftAccepted. rewrite Z2Nat.id by lia. repeat split; assumption.
Qed.

Lemma shiftResult_status updates errors successfulUpdates :
  status (shiftResult updates errors successfulUpdates) = 200
  \/ status (shiftResult updates errors successfulUpdates) = 207.
Proof.
  unfold shiftResult. destruct (0 <? List.length errors)%nat; cbn; auto.
Qed.

(** A column that no patch writes keeps its values through a batch. *)
Lemma patchAll_keeps {B : Type} (f : Session -> B) us :
  (forall u r, f (patchOf u r) = f r) ->
  forall t, map f (patchAll us t) = map f t.
Proof.
  intros Hf. induction us as [| u us IH]; intros t; [reflexivity |].
  cbn. fold (patchAll us (map (patchOf u) t)). rewrite IH, map_map.
  apply map_ext, Hf.
Qed.

(** The columns an accepted request leaves: those of the patched table. *)
Lemma POST_fixedColumns req w allSessions sessionIndex sessionToShift d :
  ShiftAccepted env req w allSessions sessionIndex sessionToShift d ->
  map fixedColumns (table (snd (POST env req w)))
  = map fixedColumns
      (patchAll (succeededFrom env (calls w)
                   (buildUpdates allSessions sessionIndex sessionToShift d))
                (table w)).
Proof.
  intros Hacc. rewrite (POST_run env _ _ _ _ _ _ Hacc). cbn [snd].
  now rewrite renumberPass_fixedColumns.
Qed.

End ApplyWrites.

(** The apply handler never adds, removes or reorders rows, and never
    writes an id, a session type or a subject name, whatever the request,
    the store and the failures. *)
Theorem POST_keeps_rows env req w :
  map id (table (snd (POST env req w))) = map id (table w)
  /\ map session_type (table (snd (POST env req w))) = map session_type (table w)
  /\ map subject_name (table (snd (POST env req w))) = map subject_name (table w).
Proof.
  destruct (POST_cases env req w) as [[-> _] | [all [i [s [d Hacc]]]]];
    [repeat split |].
  pose proof (POST_fixedColumns env _ _ _ _ _ _ Hacc) as Hfixed.
  assert (Hcol : forall (B : Type) (g : Z * Z * string * string * string -> B),
            (forall u r, g (fixedColumns (patchOf u r)) = g (fixedColumns r)) ->
            map (fun r => g (fixedColumns r)) (table (snd (POST env req w)))
            = map (fun r => g (fixedColumns r)) (table w)).
  { intros B g Hg.
    rewrite <- (map_map fixedColumns g), Hfixed, (map_map fixedColumns g).
    apply (patchAll_keeps (fun r => g (fixedColumns r))), Hg. }
  split; [| split].
  - apply (Hcol Z (fun c => fst (fst (fst (fst c))))).
    intros u r. unfold patchOf. now destruct (id r =? u_id u).
  - apply (Hcol string (fun c => snd (fst c))).
    intros u r. unfold patchOf. now destruct (id r =? u_id u).
  - apply (Hcol string (fun c => snd c)).
    intros u r. unfold patchOf. now destruct (id r =? u_id u).
Qed.

(** A request that is not answered 200 or 207 has written nothing and has
    issued no update call. *)
Theorem POST_refusal_writes_nothing env req w :
  status (fst (POST env req w)) <> 200 ->
  status (fst (POST env req w)) <> 207 ->
  snd (POST env req w) = w.
Proof.
  intros H200 H207.
  destruct (POST_cases env req w) as [[Hsame _] | [all [i [s [d Hacc]]]]];
    [exact Hsame | exfalso].
  rewrite (POST_run env _ _ _ _ _ _ Hacc) in H200, H207. cbn [fst] in H200, H207.
  destruct (shiftResult_status
              (buildUpdates all i s d)
              (map (fun p => errorLine (fst p) (snd p))
                   (failedFrom env (calls w) (buildUpdates all i s d)))
              (map u_id (succeededFrom env (calls w) (buildUpdates all i s d))));
    contradiction.
Qed.

Lemma POST_refusal_writes_nothing_witness :
  snd (POST (demoEnv (parseNoon 20006))
            (mkShiftBody "basic2_0_schedule" (JNumber 9) (Some 20012))
            (mkWorld demoRows 0))
  = mkWorld demoRows 0.
Proof.
  apply POST_refusal_writes_nothing; discriminate.
Defined.

(** The preview never writes: it leaves the table and the count of update
    calls as they were, whatever the request and the store. *)
Theorem GET_read_only env req w : snd (GET env req w) = w.
Proof.
  unfold GET.
  destruct (present (q_tableName req)), (q_sessionId req) as [sid |],
           (q_newDate req) as [d |]; try reflexivity.
  destruct (String.eqb sid ""); [reflexivity |].
  unfold bind, dbSelect.
  destruct (selectByWeekSession env (table w)) as [[allSessions |] [message |]];
    cbn [error data]; try reflexivity.
  destruct (_ =? -1); [reflexivity |].
  destruct (nth_error _ _); [| reflexivity].
  destruct (date _ =? d); [reflexivity |].
  destruct (notAfterToday env d); [reflexivity |].
  now destruct (allNewDates _ _ _ _).
Qed.

(** ** The checks of the apply handler *)

(** The apply handler answers 400 "Missing required fields" exactly when
    the table name is empty, the new date is missing or the session id is
    falsy; so a numeric id 0 counts as missing, whatever the table holds. *)
Theorem POST_missing_fields env req w :
  (tableName req = "" \/ truthy (sessionId req) = false \/ newDate req = None
   <-> fst (POST env req w) = mkResponse 400 (ErrorBody msgMissingFields))
  /\ (sessionId req = JNumber 0 ->
      POST env req w = (mkResponse 400 (ErrorBody msgMissingFields), w)).
Proof.
  split.
  - split.
    + unfold POST. intros [Hname | [Hid | Hdate]].
      * rewrite Hname. reflexivity.
      * rewrite Hid. now destruct (negb (String.eqb (tableName req) "")).
      * rewrite Hdate.
        now destruct (negb (String.eqb (tableName req) "")),
                     (truthy (sessionId req)).
    + intros Hresp.
      destruct (String.eqb_spec (tableName req) "") as [| Hname]; [now left |].
      destruct (truthy (sessionId req)) eqn:Hid; [| now right; left].
      destruct (newDate req) as [d |] eqn:Hdate; [| now right; right].
      exfalso. revert Hresp. unfold POST. rewrite Hid, Hdate.
      destruct (String.eqb_spec (tableName req) "") as [| _]; [contradiction |].
      cbn [negb]. unfold bind at 1, dbSelect at 1. cbn [fst].
      destruct (selectByWeekSession env (table w)) as [[all |] [message |]];
        cbn [error data]; try discriminate.
      destruct (_ =? -1); [discriminate |].
      destruct (nth_error _ _) as [s |]; [| discriminate].
      destruct (date s =? d); [discriminate |].
      destruct (notAfterToday env d); [discriminate |].
      unfold bind, ret.
      destruct (applyUpdates env _ _) as [r w1].
      destruct (renumberPass env w1) as [[] w2]. cbn [fst].
      intros Hresp. apply (f_equal status) in Hresp.
      destruct (shiftResult_status (buildUpdates all
                  (Z.to_nat (findIndex (fun s0 => strictEq (id s0) (sessionId req)) all))
                  s d) (fst r) (snd r)) as [H | H];
        rewrite H in Hresp; discriminate.
  - intros Hzero. unfold POST. rewrite Hzero. cbn [truthy Z.eqb negb].
    now destruct (negb (String.eqb (tableName req) "")).
Qed.

Lemma POST_missing_fields_witness :
  POST (demoEnv (parseNoon 20006))
       (mkShiftBody "basic2_0_schedule" (JNumber 0) (Some 20012))
       (mkWorld (mkSession 0 1 1 20003 "Monday" "class" "Arrays" :: demoRows) 0)
  = (mkResponse 400 (ErrorBody msgMissingFields),
     mkWorld (mkSession 0 1 1 20003 "Monday" "class" "Arrays" :: demoRows) 0).
Proof.
  apply (POST_missing_fields (demoEnv (parseNoon 20006))
           (mkShiftBody "basic2_0_schedule" (JNumber 0) (Some 20012))).
  reflexivity.
Defined.

(** A request for the day the session is already stored on is refused with
    the 400 of the same-date check and writes nothing, whatever the clock:
    the check comes before the date check, so it also answers for a day in
    the past. *)
Theorem POST_same_date_refused env req w allSessions sessionIndex sessionToShift d :
  ShiftFound env req w allSessions sessionIndex sessionToShift d ->
  date sessionToShift = d ->
  POST env req w = (mkResponse 400 (ErrorBody msgSameDatePost), w).
Proof.
  intros (Hname & Hid & Hdate & Hreply & Hidx & Hnth) Hsame.
  unfold POST. rewrite Hid, Hdate.
  destruct (String.eqb_spec (tableName req) "") as [| _]; [contradiction |].
  cbn [negb]. unfold bind, dbSelect. rewrite Hreply. cbn [error data].
  rewrite Hidx.
  destruct (Z.eqb_spec (Z.of_nat sessionIndex) (-1)) as [| _]; [lia |].
  rewrite Nat2Z.id, Hnth, Hsame, Z.eqb_refl. reflexivity.
Qed.

Lemma POST_same_date_refused_witness :
  POST (demoEnv (parseNoon 20100))
       (mkShiftBody "basic2_0_schedule" (JNumber 2) (Some 20005))
       (mkWorld demoRows 0)
  = (mkResponse 400 (ErrorBody msgSameDatePost), mkWorld demoRows 0).
Proof.
  apply (POST_same_date_refused (demoEnv (parseNoon 20100)) _ _
           demoRows 1 demoSession2 20005).
  - unfold ShiftFound. repeat split; try reflexivity; discriminate.
  - reflexivity.
Defined.

(** With the fields present and the first query answered, a numeric
    session id is answered 404 "Session not found" exactly when no fetched
    row has that id. *)
Theorem POST_unknown_id env req w allSessions n d :
  tableName req <> "" -> sessionId req = JNumber n -> n <> 0 ->
  newDate req = Some d ->
  selectByWeekSession env (table w) = mkReply (Some allSessions) None ->
  (~ In n (map id allSessions)
   <-> POST env req w = (mkResponse 404 (ErrorBody msgNotFound), w)).
Proof.
  intros Hname Hid Hnz Hdate Hreply.
  unfold POST. rewrite Hid, Hdate. cbn [truthy strictEq].
  destruct (String.eqb_spec (tableName req) "") as [| _]; [contradiction |].
  destruct (Z.eqb_spec n 0) as [| _]; [contradiction |].
  cbn [negb]. unfold bind at 1, dbSelect at 1. rewrite Hreply. cbn [error data].
  split.
  - intros Hout. rewrite findIndex_none; [reflexivity |].
    intros r Hr. apply Z.eqb_neq. intros Heq. apply Hout.
    rewrite <- Heq. now apply in_map.
  - intros Hresp Hin. apply in_map_iff in Hin as [r [Hr Hin]].
    destruct (Z.eqb_spec (findIndex (fun s => id s =? n) allSessions) (-1))
      as [Hnone | _].
    + pose proof (findIndex_minus_one _ _ Hnone r Hin) as Hfalse.
      cbn in Hfalse. apply Z.eqb_neq in Hfalse. contradiction.
    + apply (f_equal (fun p => status (fst p))) in Hresp. cbn [fst status] in Hresp.
      destruct (nth_error allSessions _) as [s |]; [| discriminate].
      destruct (date s =? d); [discriminate |].
      destruct (notAfterToday env d); [discriminate |].
      unfold bind, ret in Hresp.
      destruct (applyUpdates env _ _) as [r0 w1].
      destruct (renumberPass env w1) as [[] w2]. cbn [fst] in Hresp.
      match type of Hresp with
      | status (shiftResult ?u ?e ?k) = _ =>
          destruct (shiftResult_status u e k) as [H | H]
      end; rewrite H in Hresp; discriminate.
Qed.

Lemma POST_unknown_id_witness :
  ~ In 9 (map id demoRows)
  <-> POST (demoEnv (parseNoon 20006))
           (mkShiftBody "basic2_0_schedule" (JNumber 9) (Some 20012))
           (mkWorld demoRows 0)
      = (mkResponse 404 (ErrorBody msgNotFound), mkWorld demoRows 0).
Proof.
  apply (POST_unknown_id (demoEnv (parseNoon 20006)) _ _ demoRows 9 20012);
    try reflexivity; discriminate.
Defined.

(** ** The table after an accepted request *)

Section AfterApply.

Lemma patchAll_patchRow us : forall t, patchAll us t = map (patchRow us) t.
Proof.
  induction us as [| u us IH]; intros t.
  - cbn. symmetry. apply map_id.
  - cbn. fold (patchAll us (map (patchOf u) t)). rewrite IH, map_map.
    reflexivity.
Qed.

Lemma patchRow_frame us : forall r,
  ~ In (id r) (map u_id us) -> patchRow us r = r.
Proof.
  induction us as [| u us IH]; intros r Hfree; [reflexivity |].
  cbn. fold (patchRow us (patchOf u r)).
  assert (Hsame : patchOf u r = r).
  { unfold patchOf. destruct (Z.eqb_spec (id r) (u_id u)) as [Heq | _];
      [| reflexivity].
    exfalso. apply Hfree. left. now rewrite Heq. }
  rewrite Hsame. apply IH. intros H. apply Hfree. now right.
Qed.

Lemma succeededFrom_ids env us : forall k x,
  In x (map u_id (succeededFrom env k us)) -> In x (map u_id us).
Proof.
  intros k x Hin. apply in_map_iff in Hin as [u [<- Hu]].
  apply in_map. exact (succeededFrom_In env us k u Hu).
Qed.

End AfterApply.

(** An accepted request leaves the date, the day and the other fixed
    columns of every row that is neither the shifted session nor after it
    in the fetched order as they were, whichever updates fail. *)
Theorem POST_leaves_earlier_sessions
    env req w allSessions sessionIndex sessionToShift d k r :
  ShiftAccepted env req w allSessions sessionIndex sessionToShift d ->
  nth_error (table w) k = Some r ->
  ~ In (id r) (map id (skipn sessionIndex allSessions)) ->
  exists r', nth_error (table (snd (POST env req w))) k = Some r'
             /\ fixedColumns r' = fixedColumns r.
Proof.
  intros Hacc Hk Hfree.
  pose proof (POST_fixedColumns env _ _ _ _ _ _ Hacc) as Hfixed.
  rewrite patchAll_patchRow, map_map in Hfixed.
  apply (f_equal (fun l => nth_error l k)) in Hfixed.
  rewrite !nth_error_map, Hk in Hfixed. cbn [option_map] in Hfixed.
  destruct (nth_error (table (snd (POST env req w))) k) as [r' |];
    [| discriminate].
  exists r'. split; [reflexivity |].
  cbn [option_map] in Hfixed.
  rewrite patchRow_frame in Hfixed; [congruence |].
  intros Hin. apply succeededFrom_ids in Hin.
  rewrite buildUpdates_ids_from in Hin by apply Hacc. contradiction.
Qed.

Lemma POST_leaves_earlier_sessions_witness :
  exists r', nth_error (table (snd (POST (flakyEnv (parseNoon 20006)) demoShift
                                         (mkWorld demoRows 0)))) 0 = Some r'
             /\ fixedColumns r'
                = fixedColumns (mkSession 1 1 1 20003 "Monday" "class" "Arrays").
Proof.
  apply (POST_leaves_earlier_sessions (flakyEnv (parseNoon 20006)) demoShift
           (mkWorld demoRows 0) demoRows 1 demoSession2 20012 0).
  - exact (demoShift_accepted (flakyEnv (parseNoon 20006)) eq_refl eq_refl).
  - reflexivity.
  - cbn. intros [H | [H | [H | []]]]; discriminate.
Defined.

(** ** The renumbering pass *)

Section PassCalls.

Variable env : Env.

Lemma renumberRows_calls rows : forall st w,
  calls (snd (renumberRows env st rows w))
  = (calls w
     + List.length (changedRows rows (assignFrom st (map date rows))))%nat.
Proof.
  unfold changedRows.
  induction rows as [| session rest IH]; intros st w; [cbn; lia |].
  cbn [renumberRows map assignFrom combine filter fst snd].
  unfold pairChanged. unfold bind at 1.
  destruct (negb (week_number session =? currentWeekNumber (advanceWeek st (date session)))
            || negb (session_number session =? sessionInWeek (advanceWeek st (date session)))).
  - unfold bind at 1, dbUpdate.
    destruct (updateFails env (calls w)); unfold ret; rewrite IH;
      cbn [calls List.length]; lia.
  - unfold ret. now rewrite IH.
Qed.

End PassCalls.

(** The renumbering pass writes week and session numbers only: the id, the
    date, the day, the session type and the subject name of every row stay
    as they were, whatever the re-fetch answers and whichever updates fail;
    and over the rows the re-fetch gives, it issues exactly one update call
    for each row whose stored pair is not its assigned pair, and none for
    the others. *)
Theorem renumberPass_writes_numbers_only env w :
  map fixedColumns (table (snd (renumberPass env w))) = map fixedColumns (table w)
  /\ forall rows,
       selectByDate env (table w) = mkReply (Some rows) None ->
       calls (snd (renumberPass env w))
       = (calls w
          + List.length (changedRows rows (renumber (map date rows))))%nat.
Proof.
  split; [apply renumberPass_fixedColumns |].
  intros rows Hreply. unfold renumberPass, bind, dbSelect.
  rewrite Hreply. cbn [error data].
  destruct rows as [| first rest]; [cbn; lia |].
  apply renumberRows_calls.
Qed.

Lemma renumberPass_writes_numbers_only_witness :
  calls (snd (renumberPass (demoEnv 0) (mkWorld demoRows 0))) = 2%nat.
Proof.
  destruct (renumberPass_writes_numbers_only (demoEnv 0) (mkWorld demoRows 0))
    as [_ Hcalls].
  apply (Hcalls demoRows). reflexivity.
Defined.

(** ** Rolling weeks *)

Section WeekSpan.

Lemma assignFrom_span dates : forall week pos ws d wk p,
  StronglySorted Z.le (ws :: dates) ->
  In (d, (wk, p))
     (combine dates (assignFrom (mkWeekState week pos (parseNoon ws)) dates)) ->
  (wk = week /\ 0 <= d - ws < 7)
  \/ (exists a,
        In (a, (wk, 1))
           (combine dates (assignFrom (mkWeekState week pos (parseNoon ws)) dates))
        /\ 0 <= d - a < 7).
Proof.
  induction dates as [| d0 rest IH]; intros week pos ws d wk p Hsorted Hin;
    [contradiction |].
  apply StronglySorted_inv in Hsorted as [Hrest Hws].
  pose proof (Forall_inv Hws) as Hd0. apply Forall_inv_tail in Hws.
  cbn [assignFrom] in *. rewrite advanceWeek_days in *.
  destruct (Z.geb_spec (d0 - ws) 7) as [Hnew | Hold];
    cbn [currentWeekNumber sessionInWeek combine] in *.
  - right. destruct Hin as [[= <- <- <-] | Hin].
    + exists d0. split; [now left | lia].
    + destruct (IH _ _ _ _ _ _ Hrest Hin) as [[-> Hspan] | [a [Ha Hspan]]].
      * exists d0. split; [now left | exact Hspan].
      * exists a. split; [now right | exact Hspan].
  - destruct Hin as [[= <- <- <-] | Hin].
    + left. split; [reflexivity | lia].
    + assert (Hsorted' : StronglySorted Z.le (ws :: rest)).
      { constructor; [now apply StronglySorted_inv in Hrest | exact Hws]. }
      destruct (IH _ _ _ _ _ _ Hsorted' Hin) as [Hleft | [a [Ha Hspan]]].
      * now left.
      * right. exists a. split; [now right | exact Hspan].
Qed.

End WeekSpan.

(** On a server in UTC, in a list in ascending date order, every row lies
    less than seven days after the row that opened its week, the row given
    position 1 of that week. *)
Lemma renumber_span dates d wk p :
  StronglySorted Z.le dates ->
  In (d, (wk, p)) (combine dates (renumber dates)) ->
  exists a, In (a, (wk, 1)) (combine dates (renumber dates)) /\ 0 <= d - a < 7.
Proof.
  intros Hsorted Hin. destruct dates as [| d0 rest]; [contradiction |].
  rewrite renumber_cons in *. cbn [combine] in *.
  destruct Hin as [[= <- <- <-] | Hin].
  - exists d0. split; [now left | lia].
  - destruct (assignFrom_span _ _ _ _ _ _ _ Hsorted Hin)
      as [[-> Hspan] | [a [Ha Hspan]]].
    + exists d0. split; [now left | exact Hspan].
    + exists a. split; [now right | exact Hspan].
Qed.

(** ** The detected pattern *)

Section PatternDistinct.

Lemma NoDup_filter_map {A B : Type} (f : A -> B) (p : B -> bool) (l : list A) :
  NoDup l ->
  (forall x y, In x l -> In y l -> p (f x) = true -> f x = f y -> x = y) ->
  NoDup (filter p (map f l)).
Proof.
  induction 1 as [| x l Hfresh Hnd IH]; intros Hinj; [constructor |].
  cbn [map filter].
  assert (Hrest : NoDup (filter p (map f l))).
  { apply IH. intros a b Ha Hb. apply Hinj; now right. }
  destruct (p (f x)) eqn:Hp; [| exact Hrest].
  constructor; [| exact Hrest].
  intros Hin. apply filter_In in Hin as [Hin _].
  apply in_map_iff in Hin as [y [Heq Hy]].
  apply Hfresh.
  rewrite (Hinj x y (or_introl eq_refl) (or_intror Hy) Hp (eq_sym Heq)).
  exact Hy.
Qed.

(** Two names with the same index, other than -1, are the same name. *)
Lemma getDayIndex_injective x y :
  notMinusOne (getDayIndex x) = true -> getDayIndex x = getDayIndex y -> x = y.
Proof.
  intros Hkeep Heq.
  destruct (getDayIndex_cases x)
    as [[n [Hown [Hx Hn]]] | [[_ Hx] | [_ [_ Hx]]]];
    rewrite Hx in *; [| | discriminate].
  - destruct (getDayIndex_cases y)
      as [[m [Hown' [Hy Hm]]] | [[_ Hy] | [_ [_ Hy]]]];
      rewrite Hy in Heq; try discriminate.
    + injection Heq as <-.
      destruct (ownProperty_dayTable x n Hown) as [_ <-].
      now destruct (ownProperty_dayTable y n Hown') as [_ <-].
    + injection Heq as ->. lia.
  - destruct (getDayIndex_cases y)
      as [[m [_ [Hy _]]] | [[_ Hy] | [_ [_ Hy]]]];
      rewrite Hy in Heq; try discriminate.
    now injection Heq.
Qed.

End PatternDistinct.

(** The detected pattern never lists a value twice, whatever the session
    list: each distinct day name contributes at most one entry. *)
Theorem dayPattern_NoDup allSessions : NoDup (dayPattern allSessions).
Proof.
  unfold dayPattern.
  assert (Hmapped : NoDup (mappedDays allSessions)).
  { unfold mappedDays, uniqueDays. apply NoDup_filter_map.
    - apply NoDup_filter, newSet_NoDup.
    - intros x y _ _. apply getDayIndex_injective. }
  destruct (mappedDays allSessions); [| exact Hmapped].
  unfold defaultPattern. repeat constructor; cbn; intuition discriminate.
Qed.

Lemma dayPattern_refines_witness :
  dayPattern demoRows = map JsNumber (detectorOfSpec demoRows).
Proof.
  apply (dayPattern_refines demoRows).
  intros s Hin _ Hkey. cbn in Hin.
  destruct Hin as [<- | [<- | [<- | [<- | []]]]]; cbn in Hkey;
    repeat (destruct Hkey as [Hkey | Hkey]; [discriminate |]); exact Hkey.
Defined.

(** ** The preview against the apply path *)

Section StableSort.

Context {A : Type} (key : A -> Z).

Lemma sortBy_strongly_ordered l :
  StronglySorted (fun a b => key a <= key b) (sortBy key l).
Proof.
  apply Sorted_StronglySorted; [| apply sortBy_ordered].
  intros a b c. apply Z.le_trans.
Qed.

Lemma insertSorted_head x l :
  Forall (fun z => key x <= key z) l -> insertSorted key x l = x :: l.
Proof.
  intros Hall. destruct l as [| y l]; [reflexivity |].
  cbn [insertSorted]. apply Forall_inv in Hall.
  destruct (Z.leb_spec (key x) (key y)); [reflexivity | lia].
Qed.

Lemma insertSorted_filter (p : A -> bool) x l :
  StronglySorted (fun a b => key a <= key b) l ->
  filter p (insertSorted key x l)
  = if p x then insertSorted key x (filter p l) else filter p l.
Proof.
  induction 1 as [| y l Hl IH Hy]; cbn [insertSorted filter].
  - now destruct (p x).
  - destruct (Z.leb_spec (key x) (key y)) as [Hle | Hgt].
    + cbn [filter]. destruct (p x); [| reflexivity].
      symmetry. apply insertSorted_head.
      destruct (p y).
      * constructor; [exact Hle |].
        apply incl_Forall with (l1 := l); [apply incl_filter |].
        eapply Forall_impl; [| exact Hy]. cbn. intros; lia.
      * apply incl_Forall with (l1 := l); [apply incl_filter |].
        eapply Forall_impl; [| exact Hy]. cbn. intros; lia.
    + cbn [filter]. rewrite IH.
      destruct (p x), (p y); try reflexivity.
      cbn [insertSorted].
      destruct (Z.leb_spec (key x) (key y)); [lia | reflexivity].
Qed.

(** The sort is stable, so it commutes with a filter. *)
Lemma filter_sortBy (p : A -> bool) l :
  filter p (sortBy key l) = sortBy key (filter p l).
Proof.
  induction l as [| x l IH]; [reflexivity |].
  cbn [sortBy filter].
  rewrite insertSorted_filter by apply sortBy_strongly_ordered.
  rewrite IH. now destruct (p x).
Qed.

(** The sort leaves a list in ascending order as it is. *)
Lemma sortBy_ordered_id l :
  StronglySorted (fun a b => key a <= key b) l -> sortBy key l = l.
Proof.
  induction 1 as [| x l Hl IH Hx]; [reflexivity |].
  cbn [sortBy]. rewrite IH. now apply insertSorted_head.
Qed.

End StableSort.

Section Positions.

Lemma findIndex_unique allSessions : forall j r,
  NoDup (map id allSessions) -> nth_error allSessions j = Some r ->
  findIndex (fun s => id s =? id r) allSessions = Z.of_nat j.
Proof.
  induction allSessions as [| x l IH]; intros j r Hnd Hnth;
    [destruct j; discriminate |].
  cbn [map] in Hnd. apply NoDup_cons_iff in Hnd as [Hfresh Hnd].
  cbn [findIndex]. destruct j as [| j]; cbn in Hnth.
  - injection Hnth as ->. now rewrite Z.eqb_refl.
  - destruct (Z.eqb_spec (id x) (id r)) as [Heq | _].
    + exfalso. apply Hfresh. rewrite Heq.
      apply in_map. eapply nth_error_In, Hnth.
    + rewrite (IH j r Hnd Hnth).
      destruct (Z.eqb_spec (Z.of_nat j) (-1)); lia.
Qed.

Lemma In_firstn_nth {A : Type} (l : list A) : forall n x,
  In x (firstn n l) -> exists j, (j < n)%nat /\ nth_error l j = Some x.
Proof.
  induction l as [| y l IH]; intros [| n] x Hin; try contradiction.
  cbn in Hin. destruct Hin as [<- | Hin].
  - exists 0%nat. split; [lia | reflexivity].
  - destruct (IH n x Hin) as [j [Hj Hnth]].
    exists (S j). split; [lia | exact Hnth].
Qed.

Lemma In_skipn_nth {A : Type} (l : list A) : forall n x,
  In x (skipn n l) -> exists j, (n <= j)%nat /\ nth_error l j = Some x.
Proof.
  induction l as [| y l IH]; intros [| n] x Hin; try contradiction.
  - destruct (In_nth_error _ _ Hin) as [j Hj]. exists j. split; [lia | exact Hj].
  - cbn in Hin. destruct (IH n x Hin) as [j [Hj Hnth]].
    exists (S j). split; [lia | exact Hnth].
Qed.

Lemma filter_all {A : Type} (p : A -> bool) l :
  (forall x, In x l -> p x = true) -> filter p l = l.
Proof.
  induction l as [| x l IH]; intros Hall; [reflexivity |].
  cbn. rewrite (Hall x (or_introl eq_refl)), IH; [reflexivity |].
  intros y Hy. apply Hall. now right.
Qed.

Lemma filter_none {A : Type} (p : A -> bool) l :
  (forall x, In x l -> p x = false) -> filter p l = [].
Proof.
  induction l as [| x l IH]; intros Hall; [reflexivity |].
  cbn. rewrite (Hall x (or_introl eq_refl)). apply IH.
  intros y Hy. apply Hall. now right.
Qed.

End Positions.

Section PreviewRun.

Variables (allSessions : list Session) (sessionIndex : nat)
          (sessionToShift : Session) (d : Z).
Hypothesis ids_distinct : NoDup (map id allSessions).
Hypothesis target_found : nth_error allSessions sessionIndex = Some sessionToShift.

(** An item that stands for the row at position [j] is in the preview
    exactly when [j] is the position of the shifted session or a later one. *)
Lemma affected_position item j :
  i_id item = id (oldData item) ->
  nth_error allSessions j = Some (oldData item) ->
  affected allSessions (Z.of_nat sessionIndex) sessionToShift item
  = (sessionIndex <=? j)%nat.
Proof.
  intros Hid Hnth. unfold affected.
  rewrite Hid, (findIndex_unique allSessions j (oldData item) ids_distinct Hnth).
  destruct (Nat.leb_spec sessionIndex j) as [Hle | Hlt].
  - destruct (Nat.eq_dec j sessionIndex) as [-> | Hne].
    + rewrite target_found in Hnth. injection Hnth as <-.
      now rewrite Z.eqb_refl.
    + apply orb_true_iff. right. apply Z.gtb_lt. lia.
  - apply orb_false_iff. split.
    + apply Z.eqb_neq. intros Heq.
      assert (Hsame : oldData item = sessionToShift).
      { apply (NoDup_map_injective id allSessions); auto.
        - eapply nth_error_In, Hnth.
        - eapply nth_error_In, target_found. }
      rewrite Hsame in Hnth.
      pose proof (NoDup_map_inv _ _ ids_distinct) as Hnd.
      rewrite (proj1 (NoDup_nth_error allSessions) Hnd j sessionIndex) in Hlt;
        [lia | | congruence].
      apply nth_error_Some. congruence.
    + destruct (Z.gtb_spec (Z.of_nat j) (Z.of_nat sessionIndex)); [lia | reflexivity].
Qed.

Lemma projectDates_items pattern subsequent : forall currentDate item,
  In item (projectDates currentDate pattern subsequent) ->
  i_id item = id (oldData item) /\ In (oldData item) subsequent.
Proof.
  induction subsequent as [| session rest IH]; intros currentDate item Hin;
    [contradiction |].
  cbn [projectDates] in Hin. destruct Hin as [<- | Hin].
  - split; [reflexivity | now left].
  - destruct (IH _ _ Hin) as [Hid Hold]. split; [exact Hid | now right].
Qed.

(** The items of the shifted session and of those after it, in sorted order,
    are the affected items of [allNewDates]. *)
Lemma allNewDates_affected :
  map itemUpdate
      (filter (affected allSessions (Z.of_nat sessionIndex) sessionToShift)
              (allNewDates allSessions sessionIndex sessionToShift d))
  = buildUpdates allSessions sessionIndex sessionToShift d.
Proof.
  unfold allNewDates. rewrite filter_sortBy, filter_app.
  rewrite filter_none.
  2: { intros item Hin. apply in_map_iff in Hin as [r [<- Hr]].
       destruct (In_firstn_nth _ _ _ Hr) as [j [Hj Hnth]].
       rewrite (affected_position (unchangedItem r) j eq_refl Hnth).
       apply Nat.leb_gt. exact Hj. }
  cbn [app]. rewrite filter_all.
  2: { intros item [<- | Hin].
       - now rewrite (affected_position
                        (mkNewDateItem (id sessionToShift) d
                                       (getDayName (parseNoon d)) sessionToShift)
                        sessionIndex eq_refl target_found),
                     Nat.leb_refl.
       - destruct (projectDates_items _ _ _ _ Hin) as [Hid Hold].
         destruct (In_skipn_nth _ _ _ Hold) as [j [Hj Hnth]].
         rewrite (affected_position item j Hid Hnth).
         apply Nat.leb_le. lia. }
  assert (Hnew : map itemUpdate
                   (mkNewDateItem (id sessionToShift) d (getDayName (parseNoon d))
                                  sessionToShift
                    :: projectDates (parseNoon d) (dayPattern allSessions)
                         (skipn (S sessionIndex) allSessions))
                 = buildUpdates allSessions sessionIndex sessionToShift d).
  { unfold buildUpdates. cbn [map]. f_equal.
    apply (projectDates_reschedule (dayPattern allSessions)). }
  rewrite sortBy_ordered_id; [exact Hnew |].
  (* the new dates increase, so the sort keeps their order *)
  pose proof (cascade_increasing_dates) as Hinc.
  specialize (Hinc allSessions sessionIndex sessionToShift d).
  rewrite <- Hnew, map_map in Hinc. cbn [itemUpdate u_date] in Hinc.
  remember (mkNewDateItem (id sessionToShift) d (getDayName (parseNoon d))
                          sessionToShift
            :: projectDates (parseNoon d) (dayPattern allSessions)
                 (skipn (S sessionIndex) allSessions)) as items eqn:Hitems.
  clear - Hinc. induction items as [| x l IH]; [constructor |].
  cbn [map] in Hinc. apply StronglySorted_inv in Hinc as [Hl Hx].
  constructor; [now apply IH |].
  rewrite Forall_map in Hx. eapply Forall_impl; [| exact Hx].
  cbn. unfold parseDateOnly, msPerDay. intros; lia.
Qed.

End PreviewRun.

Section PreviewAnswer.

Variables (allSessions : list Session) (sessionIndex : Z)
          (sessionToShift : Session).

Lemma previewRows_updates items : forall st,
  map previewUpdate
      (previewRows allSessions sessionIndex sessionToShift st items)
  = map itemUpdate
      (filter (affected allSessions sessionIndex sessionToShift) items).
Proof.
  induction items as [| item rest IH]; intros st; [reflexivity |].
  cbn [previewRows filter].
  destruct (affected allSessions sessionIndex sessionToShift item);
    cbn [map]; now rewrite IH.
Qed.

End PreviewAnswer.

Lemma allNewDates_nonempty allSessions sessionIndex sessionToShift d :
  allNewDates allSessions sessionIndex sessionToShift d <> [].
Proof.
  unfold allNewDates. intros Hnil.
  pose proof (sortBy_perm (fun a => parseDateOnly (i_newDate a))
                (map unchangedItem (firstn sessionIndex allSessions)
                 ++ mkNewDateItem (id sessionToShift) d (getDayName (parseNoon d))
                                  sessionToShift
                    :: projectDates (parseNoon d) (dayPattern allSessions)
                         (skipn (S sessionIndex) allSessions))) as Hperm.
  rewrite Hnil in Hperm. apply Permutation_sym, Permutation_nil in Hperm.
  now destruct (map unchangedItem (firstn sessionIndex allSessions)).
Qed.

(** The answer to an accepted preview. *)
Lemma GET_accepted env req w allSessions sessionIndex sessionToShift d :
  PreviewAccepted env req w allSessions sessionIndex sessionToShift d ->
  exists first,
    hd_error (allNewDates allSessions sessionIndex sessionToShift d) = Some first
    /\ GET env req w
       = (let preview :=
            previewRows allSessions (Z.of_nat sessionIndex) sessionToShift
                        (initialWeek (i_newDate first))
                        (allNewDates allSessions sessionIndex sessionToShift d) in
          json (PreviewBody
                  (id sessionToShift, week_number sessionToShift,
                   session_number sessionToShift)
                  (List.length preview) (uniqueDays allSessions) preview),
          w).
Proof.
  intros (Hname & (sid & Hsid & Hne & Hidx) & Hdate & Hreply & Hnth & Hdiff & Hcheck).
  pose proof (allNewDates_nonempty allSessions sessionIndex sessionToShift d) as Hitems.
  destruct (allNewDates allSessions sessionIndex sessionToShift d)
    as [| first rest] eqn:Heq; [congruence |].
  exists first. split; [reflexivity |].
  unfold GET. rewrite Hname, Hsid, Hdate.
  destruct (String.eqb_spec sid "") as [| _]; [contradiction |].
  unfold bind, dbSelect. rewrite Hreply. cbn [error data]. rewrite Hidx.
  destruct (Z.eqb_spec (Z.of_nat sessionIndex) (-1)) as [| _]; [lia |].
  rewrite Nat2Z.id, Hnth.
  destruct (Z.eqb_spec (date sessionToShift) d) as [| _]; [contradiction |].
  rewrite Hcheck, Heq. reflexivity.
Qed.

(** An accepted preview over rows with distinct ids announces exactly the
    updates the apply handler would write for the same request, in the same
    order: the shifted session and every session after it, each with the
    same new date and day; the affected count is their number. *)
Theorem preview_matches_updates env req w allSessions sessionIndex sessionToShift d :
  PreviewAccepted env req w allSessions sessionIndex sessionToShift d ->
  NoDup (map id allSessions) ->
  exists preview,
    GET env req w
    = (json (PreviewBody
               (id sessionToShift, week_number sessionToShift,
                session_number sessionToShift)
               (List.length allSessions - sessionIndex)
               (uniqueDays allSessions) preview), w)
    /\ map previewUpdate preview
       = buildUpdates allSessions sessionIndex sessionToShift d.
Proof.
  intros Hacc Hnd.
  destruct (GET_accepted env _ _ _ _ _ _ Hacc) as [first [_ Hrun]].
  assert (Hnth : nth_error allSessions sessionIndex = Some sessionToShift)
    by apply Hacc.
  set (preview := previewRows allSessions (Z.of_nat sessionIndex) sessionToShift
                    (initialWeek (i_newDate first))
                    (allNewDates allSessions sessionIndex sessionToShift d)) in *.
  assert (Hsame : map previewUpdate preview
                  = buildUpdates allSessions sessionIndex sessionToShift d).
  { unfold preview. rewrite previewRows_updates.
    now apply allNewDates_affected. }
  exists preview. split; [| exact Hsame].
  rewrite Hrun. cbn zeta. do 3 f_equal.
  rewrite <- (length_map previewUpdate), Hsame, buildUpdates_length.
  rewrite <- (length_skipn sessionIndex), (skipn_nth_error _ _ _ Hnth).
  reflexivity.
Qed.

Lemma preview_matches_updates_witness :
  exists preview,
    GET (demoEnv (parseNoon 20006)) demoQuery (mkWorld demoRows 0)
    = (json (PreviewBody (2, 1, 2) (List.length demoRows - 1)
                         (uniqueDays demoRows) preview), mkWorld demoRows 0)
    /\ map previewUpdate preview = buildUpdates demoRows 1 demoSession2 20012.
Proof.
  apply (preview_matches_updates (demoEnv (parseNoon 20006)) demoQuery
           (mkWorld demoRows 0) demoRows 1 demoSession2 20012).
  - unfold PreviewAccepted. repeat split; try reflexivity; try discriminate.
    exists "2"%string. repeat split; discriminate.
  - exact demoRows_NoDup.
Defined.

(** * The route in any time zone *)

(** ** Zones *)

Section Zones.

Lemma fixedOffset_parseNoon o d :
  Zoned.parseNoon (Zoned.fixedOffset o) d = parseNoon d - o.
Proof. reflexivity. Qed.

Lemma fixedOffset_noonExists o : Zoned.noonExists (Zoned.fixedOffset o).
Proof.
  intros d. unfold Zoned.LocalTime, Zoned.parseNoon, Zoned.UTC.
  cbn [Zoned.fixedOffset Zoned.offsetAt Zoned.offsetOfLocal]. lia.
Qed.

(** From UTC-11:59 to UTC+12 the local noon falls on the same day in UTC. *)
Lemma fixedOffset_noonOnSameDay o :
  - (12 * Zoned.hour) < o <= 12 * Zoned.hour ->
  Zoned.noonOnSameDay (Zoned.fixedOffset o).
Proof.
  intros Ho. split; [apply fixedOffset_noonExists |].
  intros d. rewrite fixedOffset_parseNoon. unfold toISODate, parseNoon.
  symmetry. apply Z.div_unique with (r := 12 * 60 * 60 * 1000 - o).
  - left. unfold msPerDay, Zoned.hour in *. lia.
  - lia.
Qed.

(** Further east it falls on the day before. *)
Lemma fixedOffset_noon_day_before o d :
  12 * Zoned.hour < o <= 36 * Zoned.hour ->
  toISODate (Zoned.parseNoon (Zoned.fixedOffset o) d) = d - 1.
Proof.
  intros Ho. rewrite fixedOffset_parseNoon. unfold toISODate, parseNoon.
  symmetry.
  apply Z.div_unique with (r := msPerDay + 12 * 60 * 60 * 1000 - o).
  - left. unfold msPerDay, Zoned.hour in *. lia.
  - lia.
Qed.

(** New York keeps its noons, on either side of the clock change. *)
Lemma newYork_noonOnSameDay : Zoned.noonOnSameDay Zoned.newYork.
Proof.
  split.
  - intros d.
    unfold Zoned.LocalTime, Zoned.parseNoon, Zoned.UTC, Zoned.localNoon.
    cbn [Zoned.newYork Zoned.offsetAt Zoned.offsetOfLocal].
    unfold Zoned.springForward, Zoned.hour, msPerDay.
    destruct (Z.ltb_spec (d * (1000 * 60 * 60 * 24) + 12 * 60 * 60 * 1000)
                (19792 * (1000 * 60 * 60 * 24) + 7 * (60 * 60 * 1000)
                 - 4 * (60 * 60 * 1000))) as [Hbefore | Hafter].
    + destruct (Z.ltb_spec
                  (d * (1000 * 60 * 60 * 24) + 12 * 60 * 60 * 1000
                   - - (5 * (60 * 60 * 1000)))
                  (19792 * (1000 * 60 * 60 * 24) + 7 * (60 * 60 * 1000)));
        lia.
    + destruct (Z.ltb_spec
                  (d * (1000 * 60 * 60 * 24) + 12 * 60 * 60 * 1000
                   - - (4 * (60 * 60 * 1000)))
                  (19792 * (1000 * 60 * 60 * 24) + 7 * (60 * 60 * 1000)));
        lia.
  - intros d. unfold toISODate, Zoned.parseNoon, Zoned.UTC, Zoned.localNoon.
    cbn [Zoned.newYork Zoned.offsetOfLocal].
    destruct (_ <? _); symmetry.
    + apply Z.div_unique with (r := 17 * 60 * 60 * 1000);
        unfold msPerDay, Zoned.hour; lia.
    + apply Z.div_unique with (r := 16 * 60 * 60 * 1000);
        unfold msPerDay, Zoned.hour; lia.
Qed.

Lemma weekdayName_noon d : getDayName (parseNoon d) = Zoned.weekdayName d.
Proof. unfold getDayName, Zoned.weekdayName. now rewrite getDay_parseNoon. Qed.

End Zones.

(** ** The cascade *)

Section ZonedCascade.

Variable z : Zoned.Zone.
Hypothesis noons : Zoned.noonExists z.

Lemma zoned_getDay_noon d : Zoned.getDay z (Zoned.parseNoon z d) = (d + 4) mod 7.
Proof.
  unfold Zoned.getDay. rewrite noons.
  change (Zoned.localNoon d) with (parseNoon d).
  fold (toISODate (parseNoon d)). now rewrite toISODate_parseNoon.
Qed.

Lemma zoned_nextDate_noon d :
  Zoned.nextDate z (Zoned.parseNoon z d) = Zoned.parseNoon z (d + 1).
Proof.
  unfold Zoned.nextDate. rewrite noons. unfold Zoned.parseNoon. f_equal.
  unfold Zoned.localNoon. lia.
Qed.

Lemma zoned_getDayName_noon d :
  Zoned.getDayName z (Zoned.parseNoon z d) = Zoned.weekdayName d.
Proof. unfold Zoned.getDayName. now rewrite zoned_getDay_noon. Qed.

(** From a noon, the scan visits the noons of the same days as on a server
    in UTC. *)
Lemma zoned_scanDays targets fuel : forall d,
  exists d',
    scanDays fuel (parseNoon d) targets = parseNoon d'
    /\ Zoned.scanDays z fuel (Zoned.parseNoon z d) targets
       = Zoned.parseNoon z d'.
Proof.
  induction fuel as [| fuel IH]; intros d; cbn [scanDays Zoned.scanDays].
  - now exists d.
  - rewrite zoned_getDay_noon, getDay_parseNoon.
    destruct (includes ((d + 4) mod 7) targets); [now exists d |].
    rewrite zoned_nextDate_noon, nextDate_parseNoon. apply IH.
Qed.

Lemma zoned_nextSessionDate pattern session d :
  exists d',
    nextSessionDate (parseNoon d) pattern session = parseNoon d'
    /\ Zoned.nextSessionDate z (Zoned.parseNoon z d) pattern session
       = Zoned.parseNoon z d'.
Proof.
  unfold nextSessionDate, Zoned.nextSessionDate, findNextDay, Zoned.findNextDay.
  rewrite zoned_nextDate_noon, nextDate_parseNoon.
  destruct (isContest session); apply zoned_scanDays.
Qed.

(** The update of a later session on a server in zone [z], from the update
    the server in UTC builds for it: the day is for the same calendar day,
    the date is the UTC day of the local noon of that day. *)
Lemma zoned_reschedule pattern subsequent : forall d,
  Zoned.reschedule z (Zoned.parseNoon z d) pattern subsequent
  = map (fun u => mkUpdate (u_id u)
                           (toISODate (Zoned.parseNoon z (u_date u))) (u_day u))
        (reschedule (parseNoon d) pattern subsequent).
Proof.
  induction subsequent as [| session rest IH]; intros d; [reflexivity |].
  cbn [Zoned.reschedule reschedule map].
  destruct (zoned_nextSessionDate pattern session d) as [d' [-> ->]].
  rewrite IH, toISODate_parseNoon, zoned_getDayName_noon, weekdayName_noon.
  reflexivity.
Qed.

Lemma zoned_projectDates pattern subsequent : forall d,
  Zoned.projectDates z (Zoned.parseNoon z d) pattern subsequent
  = map (fun item => mkNewDateItem (i_id item)
                       (toISODate (Zoned.parseNoon z (i_newDate item)))
                       (i_newDay item) (oldData item))
        (projectDates (parseNoon d) pattern subsequent).
Proof.
  induction subsequent as [| session rest IH]; intros d; [reflexivity |].
  cbn [Zoned.projectDates projectDates map].
  destruct (zoned_nextSessionDate pattern session d) as [d' [-> ->]].
  rewrite IH, toISODate_parseNoon, zoned_getDayName_noon, weekdayName_noon.
  reflexivity.
Qed.

Lemma zoned_buildUpdates_noon allSessions sessionIndex sessionToShift d :
  Zoned.buildUpdates z allSessions sessionIndex sessionToShift d
  = mkUpdate (id sessionToShift) d (Zoned.weekdayName d)
      :: map (fun u => mkUpdate (u_id u)
                         (toISODate (Zoned.parseNoon z (u_date u))) (u_day u))
             (reschedule (parseNoon d) (dayPattern allSessions)
                         (skipn (S sessionIndex) allSessions)).
Proof.
  unfold Zoned.buildUpdates.
  now rewrite zoned_getDayName_noon, zoned_reschedule.
Qed.

End ZonedCascade.

Section ZonedCascadeSameDay.

Variable z : Zoned.Zone.
Hypothesis same_day : Zoned.noonOnSameDay z.

(** Where the local noon falls on the same day in UTC, the batch is the one
    the server in UTC builds. *)
Lemma zoned_buildUpdates allSessions sessionIndex sessionToShift d :
  Zoned.buildUpdates z allSessions sessionIndex sessionToShift d
  = buildUpdates allSessions sessionIndex sessionToShift d.
Proof.
  destruct same_day as [Hnoons Hday].
  rewrite (zoned_buildUpdates_noon z Hnoons). unfold buildUpdates.
  rewrite weekdayName_noon. f_equal.
  erewrite map_ext; [apply map_id |].
  intros [i dt dy]. cbn. now rewrite Hday.
Qed.

Lemma zoned_allNewDates allSessions sessionIndex sessionToShift d :
  Zoned.allNewDates z allSessions sessionIndex sessionToShift d
  = allNewDates allSessions sessionIndex sessionToShift d.
Proof.
  destruct same_day as [Hnoons Hday].
  unfold Zoned.allNewDates, allNewDates.
  rewrite (zoned_getDayName_noon z Hnoons), (zoned_projectDates z Hnoons).
  rewrite weekdayName_noon. do 3 f_equal.
  erewrite map_ext; [apply map_id |].
  intros [i dt dy old]. cbn. now rewrite Hday.
Qed.

End ZonedCascadeSameDay.

(** On a server whose local noon falls on the same calendar day in UTC
    (every zone from UTC-11:59 to UTC+12, with or without daylight saving),
    every update of a batch carries the name of the weekday of its date.  On
    a server further east, where the local noon falls on the day before in
    UTC, every update after the first carries the name of the weekday of the
    day after its date. *)
Theorem updates_day_matches_date allSessions sessionIndex sessionToShift d :
  (forall z u,
     Zoned.noonOnSameDay z ->
     In u (Zoned.buildUpdates z allSessions sessionIndex sessionToShift d) ->
     u_day u = Zoned.weekdayName (u_date u))
  /\ (forall o u,
        12 * Zoned.hour < o <= 36 * Zoned.hour ->
        In u (tl (Zoned.buildUpdates (Zoned.fixedOffset o) allSessions
                    sessionIndex sessionToShift d)) ->
        u_day u = Zoned.weekdayName (u_date u + 1)).
Proof.
  split.
  - intros z u Hsame Hin. rewrite (zoned_buildUpdates z Hsame) in Hin.
    rewrite <- weekdayName_noon. exact (buildUpdates_days _ _ _ _ u Hin).
  - intros o u Ho Hin.
    rewrite (zoned_buildUpdates_noon _ (fixedOffset_noonExists o)) in Hin.
    cbn [tl] in Hin. apply in_map_iff in Hin as [u0 [<- Hu0]]. cbn [u_day u_date].
    rewrite (fixedOffset_noon_day_before o _ Ho).
    replace (u_date u0 - 1 + 1) with (u_date u0) by lia.
    rewrite <- weekdayName_noon.
    destruct (reschedule_forward (dayPattern allSessions)
                (skipn (S sessionIndex) allSessions) d) as [_ Hdays].
    rewrite Forall_forall in Hdays. now apply Hdays.
Qed.

Lemma updates_day_matches_date_witness :
  u_day (mkUpdate 4 20017 "Monday") = Zoned.weekdayName 20017
  /\ u_day (mkUpdate 3 20012 "Thursday") = Zoned.weekdayName (20012 + 1).
Proof.
  destruct (updates_day_matches_date demoRows 1 demoSession2 20012)
    as [Hsame Heast].
  split.
  - apply (Hsame Zoned.newYork); [exact newYork_noonOnSameDay |].
    vm_compute. auto.
  - apply (Heast (14 * Zoned.hour)); [unfold Zoned.hour; lia |].
    vm_compute. auto.
Defined.

(** On a server whose local noon falls on the same calendar day in UTC, the
    dates of a batch increase strictly along the batch, each at most eight
    days after the one before, for every session list and every detected
    pattern. *)
Theorem cascade_dates_increase z allSessions sessionIndex sessionToShift d :
  Zoned.noonOnSameDay z ->
  Sorted (fun a b => a < b <= a + 8)
         (map u_date
              (Zoned.buildUpdates z allSessions sessionIndex sessionToShift d))
  /\ StronglySorted Z.lt
       (map u_date
            (Zoned.buildUpdates z allSessions sessionIndex sessionToShift d)).
Proof.
  intros Hsame. rewrite (zoned_buildUpdates z Hsame).
  split; [apply buildUpdates_gaps | apply cascade_increasing_dates].
Qed.

Lemma cascade_dates_increase_witness :
  StronglySorted Z.lt
    (map u_date (Zoned.buildUpdates Zoned.kolkata demoRows 1 demoSession2 20012)).
Proof.
  apply (cascade_dates_increase Zoned.kolkata demoRows 1 demoSession2 20012).
  apply fixedOffset_noonOnSameDay. unfold Zoned.kolkata, Zoned.hour. lia.
Defined.

(** ** The apply handler *)

Section ZonedApply.

Variables (z : Zoned.Zone) (env : Env).

Lemma zoned_POST_accepted req w allSessions sessionIndex sessionToShift d :
  Zoned.ShiftAccepted z env req w allSessions sessionIndex sessionToShift d ->
  Zoned.POST z env req w
  = (let updates :=
       Zoned.buildUpdates z allSessions sessionIndex sessionToShift d in
     r <- applyUpdates env updates ;;
     _ <- Zoned.renumberPass z env ;;
     ret (shiftResult updates (fst r) (snd r))) w.
Proof.
  intros (Hname & Hid & Hdate & Hreply & Hidx & Hnth & Hdiff & Hfuture).
  unfold Zoned.POST. rewrite Hid, Hdate.
  destruct (String.eqb_spec (tableName req) "") as [| _]; [contradiction |].
  cbn [negb]. unfold bind at 1, dbSelect at 1. rewrite Hreply. cbn [error data].
  rewrite Hidx.
  destruct (Z.eqb_spec (Z.of_nat sessionIndex) (-1)) as [| _]; [lia |].
  rewrite Nat2Z.id, Hnth.
  destruct (Z.eqb_spec (date sessionToShift) d) as [| _]; [contradiction |].
  rewrite Hfuture. reflexivity.
Qed.

(** In every zone the renumbering loop writes week and session numbers
    only. *)
Lemma zoned_renumberRows_fixedColumns rows : forall st w,
  map fixedColumns (table (snd (Zoned.renumberRows z env st rows w)))
  = map fixedColumns (table w).
Proof.
  induction rows as [| session rest IH]; intros st w; [reflexivity |].
  cbn [Zoned.renumberRows]. unfold bind at 1.
  destruct (pairChanged session (Zoned.advanceWeek z st (date session))).
  - unfold bind at 1, dbUpdate.
    destruct (updateFails env (calls w)); unfold ret; rewrite IH;
      cbn [table]; [reflexivity |].
    rewrite map_map. apply map_ext. intros r.
    now destruct (id r =? id session).
  - unfold ret. now rewrite IH.
Qed.

Lemma zoned_renumberPass_fixedColumns w :
  map fixedColumns (table (snd (Zoned.renumberPass z env w)))
  = map fixedColumns (table w).
Proof.
  unfold Zoned.renumberPass, bind, dbSelect.
  destruct (error (selectByDate env (table w))); [reflexivity |].
  destruct (data (selectByDate env (table w))) as [[| first rest] |];
    try reflexivity.
  apply zoned_renumberRows_fixedColumns.
Qed.

(** The run of an accepted request in zone [z]. *)
Lemma zoned_POST_run req w allSessions sessionIndex sessionToShift d :
  Zoned.ShiftAccepted z env req w allSessions sessionIndex sessionToShift d ->
  let updates :=
    Zoned.buildUpdates z allSessions sessionIndex sessionToShift d in
  let failed := failedFrom env (calls w) updates in
  let succeeded := succeededFrom env (calls w) updates in
  Zoned.POST z env req w
  = (shiftResult updates (map (fun p => errorLine (fst p) (snd p)) failed)
                 (map u_id succeeded),
     snd (Zoned.renumberPass z env
            (mkWorld (patchAll succeeded (table w))
                     (calls w + List.length updates)))).
Proof.
  intros Hacc. cbn zeta. rewrite (zoned_POST_accepted _ _ _ _ _ _ Hacc).
  cbn zeta. unfold bind at 1.
  pose proof (applyUpdates_result env
                (Zoned.buildUpdates z allSessions sessionIndex sessionToShift d)
                w) as Hr.
  pose proof (applyUpdates_world env
                (Zoned.buildUpdates z allSessions sessionIndex sessionToShift d)
                w) as Hw.
  destruct (applyUpdates env _ w) as [r w1]. cbn [fst snd] in Hr, Hw.
  subst r w1. unfold bind, ret.
  destruct (Zoned.renumberPass z env _) as [[] w2]. reflexivity.
Qed.

Lemma zoned_POST_fixedColumns req w allSessions sessionIndex sessionToShift d :
  Zoned.ShiftAccepted z env req w allSessions sessionIndex sessionToShift d ->
  map fixedColumns (table (snd (Zoned.POST z env req w)))
  = map fixedColumns
      (patchAll (succeededFrom env (calls w)
                   (Zoned.buildUpdates z allSessions sessionIndex
                                       sessionToShift d))
                (table w)).
Proof.
  intros Hacc. rewrite (zoned_POST_run _ _ _ _ _ _ Hacc). cbn [snd].
  now rewrite zoned_renumberPass_fixedColumns.
Qed.

End ZonedApply.

(** A request that the server in New York accepts. *)
Lemma mondayShift_accepted :
  Zoned.ShiftAccepted Zoned.newYork (demoEnv Zoned.firstOfMarch)
    Zoned.mondayShift (mkWorld Zoned.mondayRows 0) Zoned.mondayRows 2
    (mkSession 3 3 1 19800 "Monday" "class" "Trees") 19801.
Proof. repeat split; discriminate. Qed.

(** On a server whose local noon falls on the same calendar day in UTC,
    after an accepted request whose updates all succeed, every row from the
    shifted session on carries the name of the weekday of its date. *)
Theorem POST_restores_day_of_date
    z env req w allSessions sessionIndex sessionToShift d r :
  Zoned.noonOnSameDay z ->
  Zoned.ShiftAccepted z env req w allSessions sessionIndex sessionToShift d ->
  NoDup (map id allSessions) ->
  failedFrom env (calls w)
    (Zoned.buildUpdates z allSessions sessionIndex sessionToShift d) = [] ->
  In r (table (snd (Zoned.POST z env req w))) ->
  In (id r) (map id (skipn sessionIndex allSessions)) ->
  day r = Zoned.weekdayName (date r).
Proof.
  intros Hsame Hacc Hnd Hnone Hr Hid.
  pose proof (zoned_POST_fixedColumns z env _ _ _ _ _ _ Hacc) as Hfixed.
  rewrite (all_succeeded env _ _ Hnone) in Hfixed.
  rewrite (zoned_buildUpdates z Hsame) in Hfixed.
  apply (in_map fixedColumns) in Hr. rewrite Hfixed in Hr.
  apply in_map_iff in Hr as [r0 [Heq Hr0]].
  unfold fixedColumns in Heq. injection Heq as Hid0 Hdate0 Hday0 _ _.
  assert (Hnth : nth_error allSessions sessionIndex = Some sessionToShift)
    by apply Hacc.
  rewrite <- buildUpdates_ids_from with (sessionToShift := sessionToShift) (d := d)
    in Hid by exact Hnth.
  apply in_map_iff in Hid as [u [Hu Hin]].
  destruct (patchAll_applied
              (buildUpdates allSessions sessionIndex sessionToShift d)
              (buildUpdates_NoDup _ _ _ d Hnd Hnth)
              (table w) u r0 Hin Hr0 ltac:(congruence)) as [Hdate Hday].
  rewrite <- Hdate0, <- Hday0, Hdate, Hday, <- weekdayName_noon.
  exact (buildUpdates_days _ _ _ _ u Hin).
Qed.

Lemma POST_restores_day_of_date_witness :
  day (mkSession 3 2 1 19801 "Tuesday" "class" "Trees")
  = Zoned.weekdayName (date (mkSession 3 2 1 19801 "Tuesday" "class" "Trees")).
Proof.
  apply (POST_restores_day_of_date Zoned.newYork (demoEnv Zoned.firstOfMarch)
           Zoned.mondayShift (mkWorld Zoned.mondayRows 0) Zoned.mondayRows 2
           (mkSession 3 3 1 19800 "Monday" "class" "Trees") 19801).
  - exact newYork_noonOnSameDay.
  - exact mondayShift_accepted.
  - vm_compute. repeat constructor; intros H; cbn in H; intuition discriminate.
  - reflexivity.
  - vm_compute. auto 10.
  - vm_compute. auto.
Defined.

(** ** Rolling weeks and the clock *)

Section ZonedWeeks.

Variable z : Zoned.Zone.

Lemma zoned_parseNoon_offset d :
  Zoned.parseNoon z d = parseNoon d - Zoned.noonOffset z d.
Proof. reflexivity. Qed.

(** In every zone a turn of the loop opens a new week exactly when the noon
    of the row is at least seven times 24 hours after the start of the
    week. *)
Lemma zoned_advanceWeek_elapsed st d :
  Zoned.advanceWeek z st d
  = if Zoned.parseNoon z d - weekStartDate st >=? 7 * msPerDay
    then mkWeekState (currentWeekNumber st + 1) 1 (Zoned.parseNoon z d)
    else mkWeekState (currentWeekNumber st) (sessionInWeek st + 1)
                     (weekStartDate st).
Proof.
  unfold Zoned.advanceWeek, daysSinceWeekStart.
  assert (Hday : 0 < msPerDay) by (unfold msPerDay; lia).
  destruct (Z.geb_spec ((Zoned.parseNoon z d - weekStartDate st) / msPerDay) 7)
    as [Hnew | Hold];
    destruct (Z.geb_spec (Zoned.parseNoon z d - weekStartDate st) (7 * msPerDay))
      as [Hlong | Hshort]; try reflexivity; exfalso.
  - assert ((Zoned.parseNoon z d - weekStartDate st) / msPerDay < 7)
      by (apply Z.div_lt_upper_bound; lia).
    lia.
  - assert (7 <= (Zoned.parseNoon z d - weekStartDate st) / msPerDay)
      by (apply Z.div_le_lower_bound; lia).
    lia.
Qed.

(** Between two noons read with the same offset lies a whole number of
    days: the turn opens a new week exactly when the row is dated seven days
    or more after the start of the week. *)
Lemma zoned_advanceWeek_same_offset week pos ws d :
  Zoned.noonOffset z d = Zoned.noonOffset z ws ->
  Zoned.advanceWeek z (mkWeekState week pos (Zoned.parseNoon z ws)) d
  = if d - ws >=? 7 then mkWeekState (week + 1) 1 (Zoned.parseNoon z d)
    else mkWeekState week (pos + 1) (Zoned.parseNoon z ws).
Proof.
  intros Hsame. rewrite zoned_advanceWeek_elapsed.
  cbn [weekStartDate currentWeekNumber sessionInWeek].
  rewrite !zoned_parseNoon_offset, Hsame.
  destruct (Z.geb_spec (d - ws) 7);
    match goal with
    | |- context [if ?a >=? ?b then _ else _] => destruct (Z.geb_spec a b)
    end; try reflexivity; unfold parseNoon, msPerDay in *; lia.
Qed.

(** Where the clocks went forward between the start of the week and the
    row, by a day at most, the two noons are less than a whole number of
    days apart and the turn opens a new week only from eight days on: a row
    dated exactly seven days after the start of the week stays in it. *)
Lemma zoned_advanceWeek_clock_forward week pos ws d :
  Zoned.noonOffset z ws < Zoned.noonOffset z d
                       <= Zoned.noonOffset z ws + msPerDay ->
  Zoned.advanceWeek z (mkWeekState week pos (Zoned.parseNoon z ws)) d
  = if d - ws >=? 8 then mkWeekState (week + 1) 1 (Zoned.parseNoon z d)
    else mkWeekState week (pos + 1) (Zoned.parseNoon z ws).
Proof.
  intros Hforward. rewrite zoned_advanceWeek_elapsed.
  cbn [weekStartDate currentWeekNumber sessionInWeek].
  rewrite !zoned_parseNoon_offset.
  destruct (Z.geb_spec (d - ws) 8);
    match goal with
    | |- context [if ?a >=? ?b then _ else _] => destruct (Z.geb_spec a b)
    end; try reflexivity; unfold parseNoon, msPerDay in *; lia.
Qed.

Variable o : Z.

(** Over rows whose noons are all read with the offset [o], the loop does
    what it does on a server in UTC. *)
Lemma zoned_advanceWeek_steady st d :
  Zoned.noonOffset z d = o ->
  Zoned.advanceWeek z (Zoned.moveAnchor o st) d
  = Zoned.moveAnchor o (advanceWeek st d).
Proof.
  intros Ho. unfold Zoned.advanceWeek, advanceWeek, daysSinceWeekStart.
  rewrite zoned_parseNoon_offset, Ho.
  cbn [Zoned.moveAnchor weekStartDate currentWeekNumber sessionInWeek].
  replace (parseNoon d - o - (weekStartDate st - o))
    with (parseNoon d - weekStartDate st) by lia.
  now destruct (_ >=? 7).
Qed.

Lemma zoned_renumberRows_steady env rows : forall st w,
  Forall (fun r => Zoned.noonOffset z (date r) = o) rows ->
  Zoned.renumberRows z env (Zoned.moveAnchor o st) rows w
  = renumberRows env st rows w.
Proof.
  induction rows as [| session rest IH]; intros st w Hrows; [reflexivity |].
  apply Forall_cons_iff in Hrows as [Hsession Hrest].
  cbn [Zoned.renumberRows renumberRows].
  rewrite (zoned_advanceWeek_steady st _ Hsession).
  assert (Hchanged :
            pairChanged session (Zoned.moveAnchor o (advanceWeek st (date session)))
            = pairChanged session (advanceWeek st (date session)))
    by reflexivity.
  rewrite Hchanged.
  cbn [Zoned.moveAnchor currentWeekNumber sessionInWeek].
  fold (Zoned.moveAnchor o (advanceWeek st (date session))).
  unfold bind at 1 3.
  match goal with
  | |- (let (_, w') := ?m in _) = _ => destruct m as [u w']
  end.
  now apply IH.
Qed.

Lemma zoned_renumberPass_steady env w :
  (forall rows, data (selectByDate env (table w)) = Some rows ->
                Forall (fun r => Zoned.noonOffset z (date r) = o) rows) ->
  Zoned.renumberPass z env w = renumberPass env w.
Proof.
  intros Hrows. unfold Zoned.renumberPass, renumberPass, bind, dbSelect.
  destruct (error (selectByDate env (table w))); [reflexivity |].
  destruct (data (selectByDate env (table w))) as [[| first rest] |] eqn:Hdata;
    try reflexivity.
  specialize (Hrows _ eq_refl).
  assert (Hstart : Zoned.initialWeek z (date first)
                   = Zoned.moveAnchor o (initialWeek (date first))).
  { unfold Zoned.initialWeek, initialWeek, Zoned.moveAnchor.
    cbn [currentWeekNumber sessionInWeek weekStartDate].
    rewrite zoned_parseNoon_offset. now rewrite (Forall_inv Hrows). }
  rewrite Hstart. now apply zoned_renumberRows_steady.
Qed.

Lemma zoned_previewRows_steady allSessions sessionIndex sessionToShift items :
  forall st,
    Forall (fun item => Zoned.noonOffset z (i_newDate item) = o) items ->
    Zoned.previewRows z allSessions sessionIndex sessionToShift
                      (Zoned.moveAnchor o st) items
    = previewRows allSessions sessionIndex sessionToShift st items.
Proof.
  induction items as [| item rest IH]; intros st Hitems; [reflexivity |].
  apply Forall_cons_iff in Hitems as [Hitem Hrest].
  cbn [Zoned.previewRows previewRows].
  rewrite (zoned_advanceWeek_steady st _ Hitem), (IH _ Hrest).
  reflexivity.
Qed.

End ZonedWeeks.

Section RenumberedSpan.

Lemma In_combine_map {A B C : Type} (f : A -> B) (g : A -> C) (l : list A) x y :
  In (x, y) (combine (map f l) (map g l))
  <-> exists a, In a l /\ f a = x /\ g a = y.
Proof.
  induction l as [| a l IH]; cbn [map combine In].
  - split; [contradiction | intros [a [[] _]]].
  - rewrite IH. split.
    + intros [[= <- <-] | [b [Hb Heq]]]; [exists a | exists b]; auto.
    + intros [b [[<- | Hb] [<- <-]]]; [now left | right; eauto].
Qed.

Lemma Sorted_map_key {A : Type} (key : A -> Z) (l : list A) :
  Sorted (fun a b => key a <= key b) l -> StronglySorted Z.le (map key l).
Proof.
  intros Hord. apply Sorted_StronglySorted; [intros a b c; apply Z.le_trans |].
  induction Hord as [| a l' _ IH Hhd]; cbn [map]; constructor; [exact IH |].
  destruct Hhd; constructor. assumption.
Qed.

(** On a server in UTC, after the renumbering pass on a store that answers
    the re-fetch in date order and fails no update, every row lies less than
    seven days after the row that holds position 1 of its week. *)
Lemma renumberPass_span env w r :
  reliable env -> answers env -> NoDup (map id (table w)) ->
  In r (table (snd (renumberPass env w))) ->
  exists a, In a (table (snd (renumberPass env w)))
            /\ week_number a = week_number r /\ session_number a = 1
            /\ 0 <= date r - date a < 7.
Proof.
  intros Hreliable Hanswers Hnd Hr.
  set (after := table (snd (renumberPass env w))) in *.
  pose proof (renumberPass_numbers env Hreliable Hanswers w Hnd) as Hpairs.
  fold after in Hpairs.
  pose proof (sortBy_perm date after) as Hperm.
  assert (Hsorted : StronglySorted Z.le (map date (sortBy date after)))
    by apply Sorted_map_key, sortBy_ordered.
  assert (Hin : In (date r, (week_number r, session_number r))
                   (combine (map date (sortBy date after))
                            (renumber (map date (sortBy date after))))).
  { rewrite <- Hpairs. apply In_combine_map. exists r.
    split; [exact (Permutation_in _ Hperm Hr) | split; reflexivity]. }
  destruct (renumber_span _ _ _ _ Hsorted Hin) as [d0 [Ha Hspan]].
  rewrite <- Hpairs in Ha. apply In_combine_map in Ha as [a [Ha [Hdate Hpair]]].
  unfold storedPair in Hpair. injection Hpair as Hweek Hone.
  exists a. split; [exact (Permutation_in _ (Permutation_sym Hperm) Ha) |].
  split; [assumption | split; [assumption | lia]].
Qed.

End RenumberedSpan.

(** On a server on which no clock change falls between the dates of the
    table (the noons of all its dates are read with one offset [o]), and on
    a store that answers the re-fetch in date order and fails no update,
    after the renumbering pass every row lies 0 to 6 days after the row that
    holds position 1 of its week: a week never spans seven days. *)
Theorem week_spans_under_seven_days z o env w r :
  (forall s, In s (table w) -> Zoned.noonOffset z (date s) = o) ->
  reliable env -> answers env -> NoDup (map id (table w)) ->
  In r (table (snd (Zoned.renumberPass z env w))) ->
  exists a, In a (table (snd (Zoned.renumberPass z env w)))
            /\ week_number a = week_number r /\ session_number a = 1
            /\ 0 <= date r - date a < 7.
Proof.
  intros Hsteady Hreliable Hanswers Hnd.
  rewrite (zoned_renumberPass_steady z o env w).
  - now apply renumberPass_span.
  - intros rows Hrows. destruct (Hanswers (table w)) as [_ Hdate].
    rewrite Hdate in Hrows. cbn [data] in Hrows. injection Hrows as <-.
    apply Forall_forall. intros s Hs. apply Hsteady.
    exact (Permutation_in _ (Permutation_sym (sortBy_perm date (table w))) Hs).
Qed.

Lemma week_spans_under_seven_days_witness :
  exists a,
    In a (table (snd (Zoned.renumberPass Zoned.newYork (demoEnv 0)
                        (mkWorld demoRows 0))))
    /\ week_number a = 1 /\ session_number a = 1
    /\ 0 <= 20008 - date a < 7.
Proof.
  apply (week_spans_under_seven_days Zoned.newYork (- (4 * Zoned.hour))
           (demoEnv 0) (mkWorld demoRows 0)
           (mkSession 3 1 3 20008 "Saturday" "contest" "Contest 1")).
  - intros s Hs. cbn in Hs.
    destruct Hs as [<- | [<- | [<- | [<- | []]]]]; reflexivity.
  - intros k. reflexivity.
  - intros rows. split; reflexivity.
  - exact demoRows_NoDup.
  - vm_compute. auto 10.
Defined.

(** C5 fails on the code on a server whose clocks change.  In New York the
    clocks went forward on 10 March 2024, so the noons of Monday 4 March and
    Monday 11 March are 6 days and 23 hours apart and the loop counts 6 days
    between them.  When the class of 18 March is moved to the 19th, the
    renumbering pass puts the class of 11 March, seven days after the start
    of week 1, in week 1 as its second session, and the moved class in
    week 2, where the table had them in weeks 2 and 3; the same request on a
    server in UTC leaves them in weeks 2 and 3. *)
Theorem rolling_week_across_clock_change :
  let env := demoEnv Zoned.firstOfMarch in
  let w := mkWorld Zoned.mondayRows 0 in
  Zoned.POST Zoned.newYork env Zoned.mondayShift w
  = (json (AppliedBody
             "Successfully shifted class and rescheduled 0 subsequent classes"
             1 [mkUpdate 3 19801 "Tuesday"]),
     mkWorld [mkSession 1 1 1 19786 "Monday" "class" "Arrays";
              mkSession 2 1 2 19793 "Monday" "class" "Strings";
              mkSession 3 2 1 19801 "Tuesday" "class" "Trees"]
             3)
  /\ map date Zoned.mondayRows = [19786; 19786 + 7; 19786 + 14]
  /\ daysSinceWeekStart (Zoned.initialWeek Zoned.newYork 19786)
                        (Zoned.parseNoon Zoned.newYork 19793) = 6
  /\ Zoned.parseNoon Zoned.newYork 19793 - Zoned.parseNoon Zoned.newYork 19786
     = 7 * msPerDay - Zoned.hour
  /\ Zoned.POST Zoned.utc env Zoned.mondayShift w
     = (json (AppliedBody
                "Successfully shifted class and rescheduled 0 subsequent classes"
                1 [mkUpdate 3 19801 "Tuesday"]),
        mkWorld [mkSession 1 1 1 19786 "Monday" "class" "Arrays";
                 mkSession 2 2 1 19793 "Monday" "class" "Strings";
                 mkSession 3 3 1 19801 "Tuesday" "class" "Trees"]
                1).
Proof.
  cbn zeta. repeat split; vm_compute; reflexivity.
Qed.

(** ** The server in UTC stands for every zone near it *)

Section FixedOffset.

Variable o : Z.

(** The date check looks at the local day of the clock. *)
Lemma fixedOffset_notAfterToday env d :
  Zoned.notAfterToday (Zoned.fixedOffset o) env d
  = notAfterToday (Zoned.localClock o env) d.
Proof.
  unfold Zoned.notAfterToday, notAfterToday, Zoned.setHours0, setHours0,
    Zoned.parseNoon, Zoned.UTC, Zoned.LocalTime.
  cbn [Zoned.fixedOffset Zoned.offsetAt Zoned.offsetOfLocal Zoned.localClock now].
  change (Zoned.localNoon d) with (parseNoon d).
  destruct (Z.leb_spec (parseNoon d)
              (now env + o - (now env + o) mod msPerDay));
    [apply Z.leb_le | apply Z.leb_gt]; lia.
Qed.

Lemma dbUpdate_clock env patch target :
  dbUpdate (Zoned.localClock o env) patch target = dbUpdate env patch target.
Proof. reflexivity. Qed.

Lemma applyUpdates_clock env updates : forall w,
  applyUpdates (Zoned.localClock o env) updates w = applyUpdates env updates w.
Proof.
  induction updates as [| u rest IH]; intros w; [reflexivity |].
  cbn [applyUpdates]. rewrite dbUpdate_clock. unfold bind at 1 3.
  destruct (dbUpdate env _ _ w) as [updateError w1].
  unfold bind. now rewrite IH.
Qed.

Lemma renumberRows_clock env rows : forall st w,
  renumberRows (Zoned.localClock o env) st rows w = renumberRows env st rows w.
Proof.
  induction rows as [| session rest IH]; intros st w; [reflexivity |].
  cbn [renumberRows]. rewrite dbUpdate_clock. unfold bind at 1 3.
  match goal with
  | |- (let (_, w') := ?m in _) = _ => destruct m as [u w']
  end.
  apply IH.
Qed.

Lemma renumberPass_clock env w :
  renumberPass (Zoned.localClock o env) w = renumberPass env w.
Proof.
  unfold renumberPass, bind, dbSelect. cbn [Zoned.localClock selectByDate].
  destruct (error (selectByDate env (table w))); [reflexivity |].
  destruct (data (selectByDate env (table w))) as [[| first rest] |];
    try reflexivity.
  apply renumberRows_clock.
Qed.

Lemma fixedOffset_renumberPass env w :
  Zoned.renumberPass (Zoned.fixedOffset o) env w = renumberPass env w.
Proof.
  apply (zoned_renumberPass_steady (Zoned.fixedOffset o) o).
  intros rows _. apply Forall_forall. reflexivity.
Qed.

Hypothesis near : - (12 * Zoned.hour) < o <= 12 * Zoned.hour.

(** On a server whose clocks never change and stand at most twelve hours
    from UTC, the apply handler does what the handler of the first part does
    when its clock reads the local time of that server. *)
Lemma fixedOffset_POST env req w :
  Zoned.POST (Zoned.fixedOffset o) env req w
  = POST (Zoned.localClock o env) req w.
Proof.
  unfold Zoned.POST, POST.
  destruct (negb (String.eqb (tableName req) "")), (truthy (sessionId req)),
           (newDate req) as [d |]; try reflexivity.
  unfold bind at 1 4, dbSelect. cbn [Zoned.localClock selectByWeekSession].
  destruct (error (selectByWeekSession env (table w))); [reflexivity |].
  destruct (data (selectByWeekSession env (table w))) as [allSessions |];
    [| reflexivity].
  destruct (findIndex _ allSessions =? -1); [reflexivity |].
  destruct (nth_error allSessions _) as [sessionToShift |]; [| reflexivity].
  destruct (date sessionToShift =? d); [reflexivity |].
  rewrite fixedOffset_notAfterToday.
  destruct (notAfterToday (Zoned.localClock o env) d); [reflexivity |].
  rewrite (zoned_buildUpdates _ (fixedOffset_noonOnSameDay o near)).
  unfold bind at 1 3. rewrite applyUpdates_clock.
  destruct (applyUpdates env _ w) as [r w1].
  unfold bind. now rewrite fixedOffset_renumberPass, renumberPass_clock.
Qed.

(** And so does the preview. *)
Lemma fixedOffset_GET env req w :
  Zoned.GET (Zoned.fixedOffset o) env req w
  = GET (Zoned.localClock o env) req w.
Proof.
  unfold Zoned.GET, GET.
  destruct (present (q_tableName req)), (q_sessionId req) as [sessionId |],
           (q_newDate req) as [d |]; try reflexivity.
  destruct (String.eqb sessionId ""); [reflexivity |].
  unfold bind, dbSelect. cbn [Zoned.localClock selectByWeekSession].
  destruct (error (selectByWeekSession env (table w))); [reflexivity |].
  destruct (data (selectByWeekSession env (table w))) as [allSessions |];
    [| reflexivity].
  destruct (findIndex _ allSessions =? -1); [reflexivity |].
  destruct (nth_error allSessions _) as [sessionToShift |]; [| reflexivity].
  destruct (date sessionToShift =? d); [reflexivity |].
  rewrite fixedOffset_notAfterToday.
  destruct (notAfterToday (Zoned.localClock o env) d); [reflexivity |].
  rewrite (zoned_allNewDates _ (fixedOffset_noonOnSameDay o near)).
  destruct (allNewDates allSessions _ sessionToShift d) as [| first rest];
    [reflexivity |].
  assert (Hstart : Zoned.initialWeek (Zoned.fixedOffset o) (i_newDate first)
                   = Zoned.moveAnchor o (initialWeek (i_newDate first)))
    by reflexivity.
  rewrite Hstart, (zoned_previewRows_steady (Zoned.fixedOffset o) o);
    [reflexivity |].
  apply Forall_forall. reflexivity.
Qed.

End FixedOffset.

Lemma localClock_zero env : Zoned.localClock 0 env = env.
Proof. destruct env. unfold Zoned.localClock. cbn. f_equal. lia. Qed.

(** The functions of the first part are the route in the zone UTC. *)
Lemma zoned_POST_utc env req w : Zoned.POST Zoned.utc env req w = POST env req w.
Proof.
  unfold Zoned.utc. rewrite fixedOffset_POST by (unfold Zoned.hour; lia).
  now rewrite localClock_zero.
Qed.

Lemma zoned_GET_utc env req w : Zoned.GET Zoned.utc env req w = GET env req w.
Proof.
  unfold Zoned.utc. rewrite fixedOffset_GET by (unfold Zoned.hour; lia).
  now rewrite localClock_zero.
Qed.

(** * Properties of the meeting route *)

Section TeamsRoute.

Variables (cfg : Teams.Config) (net : Teams.Network).

Lemma Teams_caught_message message :
  message <> "" ->
  Teams.caught message = Teams.mkResponse 500 (Teams.ErrorBody message).
Proof.
  intros Hne. unfold Teams.caught.
  now destruct (String.eqb_spec message "").
Qed.

(** The run of the handler once the fields and the credentials are there:
    the token request is sent first. *)
Lemma Teams_attempt_unfold form subject startDateTime endDateTime
    tenantId clientId clientSecret log :
  Teams.required form = Some (subject, startDateTime, endDateTime) ->
  Teams.credentials cfg = Some (tenantId, clientId, clientSecret) ->
  Teams.attempt cfg net form log
  = match net (Teams.tokenRequest tenantId clientId clientSecret) with
    | Teams.Rejects message =>
        (Teams.Throws message,
         (log ++ [Teams.tokenRequest tenantId clientId clientSecret])%list)
    | Teams.Resolves r1 =>
        let log1 := (log ++ [Teams.tokenRequest tenantId clientId clientSecret])%list in
        if negb (Teams.ok r1)
        then (Teams.Throws ("Failed to get access token: " ++ Teams.text r1)%string,
              log1)
        else
          match Teams.parsed r1 with
          | Teams.JsonThrows message => (Teams.Throws message, log1)
          | Teams.JsonFields fields1 =>
              match Teams.truthyString (Teams.MS_ORGANIZER_USER_ID cfg) with
              | None =>
                  (Teams.Returns
                     (Teams.mkResponse 500 (Teams.ErrorBody Teams.msgNoOrganizer)),
                   log1)
              | Some organizerUserId =>
                  let request2 :=
                    Teams.meetingRequest (Teams.field "access_token" fields1)
                      organizerUserId
                      (Teams.mkMeetingDetails subject startDateTime endDateTime
                         match Teams.f_timeZone form with
                         | Some tz => tz
                         | None => "Asia/Kolkata"
                         end) in
                  match net request2 with
                  | Teams.Rejects message =>
                      (Teams.Throws message, (log1 ++ [request2])%list)
                  | Teams.Resolves r2 =>
                      if negb (Teams.ok r2)
                      then (Teams.Throws
                              ("Failed to create meeting: " ++ Teams.text r2)%string,
                            (log1 ++ [request2])%list)
                      else
                        match Teams.parsed r2 with
                        | Teams.JsonThrows message =>
                            (Teams.Throws message, (log1 ++ [request2])%list)
                        | Teams.JsonFields fields2 =>
                            (Teams.Returns
                               (Teams.mkResponse 200
                                  (Teams.CreatedBody
                                     (Teams.field "joinWebUrl" fields2)
                                     (Teams.field "id" fields2))),
                             (log1 ++ [request2])%list)
                        end
                  end
              end
          end
    end.
Proof.
  unfold Teams.required, Teams.credentials, Teams.attempt, Teams.getAccessToken.
  intros Hform Hcfg.
  destruct (Teams.truthyString (Teams.f_subject form)) as [s1 |]; [| discriminate].
  destruct (Teams.truthyString (Teams.f_startDateTime form)) as [s2 |];
    [| discriminate].
  destruct (Teams.truthyString (Teams.f_endDateTime form)) as [s3 |];
    [| discriminate].
  injection Hform as -> -> ->.
  destruct (Teams.truthyString (Teams.MS_TENANT_ID cfg)) as [c1 |]; [| discriminate].
  destruct (Teams.truthyString (Teams.MS_CLIENT_ID cfg)) as [c2 |]; [| discriminate].
  destruct (Teams.truthyString (Teams.MS_CLIENT_SECRET cfg)) as [c3 |];
    [| discriminate].
  injection Hcfg as -> -> ->.
  unfold Teams.andThen, Teams.fetch, Teams.json, Teams.resolve, Teams.throw,
    Teams.createOnlineMeeting.
  destruct (net (Teams.tokenRequest tenantId clientId clientSecret)) as [m1 | r1];
    [reflexivity |].
  cbn zeta. destruct (Teams.ok r1); cbn [negb]; [| reflexivity].
  destruct (Teams.parsed r1) as [m | fields1]; [reflexivity |].
  destruct (Teams.truthyString (Teams.MS_ORGANIZER_USER_ID cfg)) as [org |];
    [| reflexivity].
  unfold Teams.andThen, Teams.fetch, Teams.json, Teams.resolve, Teams.throw.
  match goal with
  | |- context [net ?q] => destruct (net q) as [m2 | r2]; [reflexivity |]
  end.
  destruct (Teams.ok r2); cbn [negb]; [| reflexivity].
  destruct (Teams.parsed r2) as [m | fields2]; reflexivity.
Qed.

End TeamsRoute.

Lemma Teams_rejected_early cfg net form log :
  (Teams.required form = None ->
   Teams.POST cfg net (Teams.Parsed form) log
   = (Teams.mkResponse 400 (Teams.ErrorBody Teams.msgMissing), log))
  /\ (Teams.required form <> None -> Teams.credentials cfg = None ->
      Teams.POST cfg net (Teams.Parsed form) log
      = (Teams.mkResponse 500 (Teams.ErrorBody Teams.msgNoCredentials), log)).
Proof.
  unfold Teams.required, Teams.credentials, Teams.POST, Teams.attempt,
    Teams.getAccessToken.
  split.
  - intros Hnone.
    destruct (Teams.truthyString (Teams.f_subject form)),
             (Teams.truthyString (Teams.f_startDateTime form)),
             (Teams.truthyString (Teams.f_endDateTime form));
      try discriminate; reflexivity.
  - intros Hform Hcfg.
    destruct (Teams.truthyString (Teams.f_subject form)),
             (Teams.truthyString (Teams.f_startDateTime form)),
             (Teams.truthyString (Teams.f_endDateTime form));
      try congruence.
    destruct (Teams.truthyString (Teams.MS_TENANT_ID cfg)),
             (Teams.truthyString (Teams.MS_CLIENT_ID cfg)),
             (Teams.truthyString (Teams.MS_CLIENT_SECRET cfg));
      try discriminate; reflexivity.
Qed.

(** No request leaves the server for an incomplete form or an incomplete
    configuration: a form without a non-empty subject, start or end is
    answered 400, and a complete form under missing or empty credentials is
    answered 500 with the credentials message; in both cases nothing is
    sent. *)
Theorem Teams_nothing_sent_without_input cfg net form log :
  (Teams.required form = None ->
   Teams.POST cfg net (Teams.Parsed form) log
   = (Teams.mkResponse 400 (Teams.ErrorBody Teams.msgMissing), log))
  /\ (Teams.required form <> None -> Teams.credentials cfg = None ->
      Teams.POST cfg net (Teams.Parsed form) log
      = (Teams.mkResponse 500 (Teams.ErrorBody Teams.msgNoCredentials), log)).
Proof. apply Teams_rejected_early. Qed.

Lemma Teams_nothing_sent_without_input_witness :
  Teams.POST Teams.demoConfig Teams.demoNetwork
             (Teams.Parsed (Teams.mkMeetingForm (Some "Arrays") (Some "") None None))
             []
  = (Teams.mkResponse 400 (Teams.ErrorBody Teams.msgMissing), []).
Proof.
  apply (Teams_nothing_sent_without_input Teams.demoConfig Teams.demoNetwork).
  reflexivity.
Defined.

(** When the token endpoint answers with a status that is not ok, the
    handler answers 500 with "Failed to get access token: " and the text of
    that answer, and the meeting request is never sent. *)
Theorem Teams_token_refused cfg net form log fields tenantId clientId clientSecret r :
  Teams.required form = Some fields ->
  Teams.credentials cfg = Some (tenantId, clientId, clientSecret) ->
  net (Teams.tokenRequest tenantId clientId clientSecret) = Teams.Resolves r ->
  Teams.ok r = false ->
  Teams.POST cfg net (Teams.Parsed form) log
  = (Teams.mkResponse 500
       (Teams.ErrorBody ("Failed to get access token: " ++ Teams.text r)%string),
     (log ++ [Teams.tokenRequest tenantId clientId clientSecret])%list).
Proof.
  destruct fields as [[subject startDateTime] endDateTime].
  intros Hform Hcfg Hnet Hok. unfold Teams.POST.
  rewrite (Teams_attempt_unfold cfg net _ _ _ _ _ _ _ log Hform Hcfg), Hnet.
  cbn zeta. rewrite Hok. cbn [negb].
  rewrite Teams_caught_message by discriminate. reflexivity.
Qed.

Lemma Teams_token_refused_witness :
  Teams.POST Teams.demoConfig Teams.refusingNetwork (Teams.Parsed Teams.demoForm) []
  = (Teams.mkResponse 500
       (Teams.ErrorBody "Failed to get access token: invalid_client"),
     [Teams.tokenRequest "tenant-1" "client-1" "secret-1"]).
Proof.
  apply (Teams_token_refused Teams.demoConfig Teams.refusingNetwork Teams.demoForm []
           ("Arrays", "2024-10-07T10:00:00", "2024-10-07T11:00:00")
           "tenant-1" "client-1" "secret-1"
           (Teams.mkFetchResponse false "invalid_client" (Teams.JsonThrows "")));
    reflexivity.
Defined.

(** The organizer is looked at only after the token is obtained: with a
    missing or empty organizer id the handler still sends the token
    request, and answers 500 "MS_ORGANIZER_USER_ID not configured" once the
    token endpoint has answered; the meeting request is not sent. *)
Theorem Teams_organizer_checked_after_token
    cfg net form log fields tenantId clientId clientSecret r tokenFields :
  Teams.required form = Some fields ->
  Teams.credentials cfg = Some (tenantId, clientId, clientSecret) ->
  net (Teams.tokenRequest tenantId clientId clientSecret) = Teams.Resolves r ->
  Teams.ok r = true -> Teams.parsed r = Teams.JsonFields tokenFields ->
  Teams.truthyString (Teams.MS_ORGANIZER_USER_ID cfg) = None ->
  Teams.POST cfg net (Teams.Parsed form) log
  = (Teams.mkResponse 500 (Teams.ErrorBody Teams.msgNoOrganizer),
     (log ++ [Teams.tokenRequest tenantId clientId clientSecret])%list).
Proof.
  destruct fields as [[subject startDateTime] endDateTime].
  intros Hform Hcfg Hnet Hok Hparsed Horg. unfold Teams.POST.
  rewrite (Teams_attempt_unfold cfg net _ _ _ _ _ _ _ log Hform Hcfg), Hnet.
  cbn zeta. rewrite Hok, Hparsed, Horg. reflexivity.
Qed.

Lemma Teams_organizer_checked_after_token_witness :
  Teams.POST (Teams.mkConfig (Some "tenant-1") (Some "client-1") (Some "secret-1") None)
             Teams.demoNetwork (Teams.Parsed Teams.demoForm) []
  = (Teams.mkResponse 500 (Teams.ErrorBody Teams.msgNoOrganizer),
     [Teams.tokenRequest "tenant-1" "client-1" "secret-1"]).
Proof.
  apply (Teams_organizer_checked_after_token
           (Teams.mkConfig (Some "tenant-1") (Some "client-1") (Some "secret-1") None)
           Teams.demoNetwork Teams.demoForm []
           ("Arrays", "2024-10-07T10:00:00", "2024-10-07T11:00:00")
           "tenant-1" "client-1" "secret-1"
           (Teams.mkFetchResponse true "" (Teams.JsonFields [("access_token", "tok-1")]))
           [("access_token", "tok-1")]);
    reflexivity.
Defined.

(** A 200 answer means that exactly two requests were sent, the token
    request and then the meeting request for the configured organizer,
    carrying as Bearer token the [access_token] of the first answer and the
    subject, start and end of the form; that both were answered ok with
    JSON; and that the join URL and meeting id answered are the
    [joinWebUrl] and [id] of the second answer. *)
Theorem Teams_created_inversion cfg net incoming log :
  Teams.status (fst (Teams.POST cfg net incoming log)) = 200 ->
  exists form subject startDateTime endDateTime tenantId clientId clientSecret
         organizerUserId r1 fields1 r2 fields2,
    incoming = Teams.Parsed form
    /\ Teams.required form = Some (subject, startDateTime, endDateTime)
    /\ Teams.credentials cfg = Some (tenantId, clientId, clientSecret)
    /\ Teams.truthyString (Teams.MS_ORGANIZER_USER_ID cfg) = Some organizerUserId
    /\ net (Teams.tokenRequest tenantId clientId clientSecret) = Teams.Resolves r1
    /\ Teams.ok r1 = true /\ Teams.parsed r1 = Teams.JsonFields fields1
    /\ (exists tz,
          net (Teams.meetingRequest (Teams.field "access_token" fields1)
                 organizerUserId
                 (Teams.mkMeetingDetails subject startDateTime endDateTime tz))
          = Teams.Resolves r2
          /\ Teams.POST cfg net incoming log
             = (Teams.mkResponse 200
                  (Teams.CreatedBody (Teams.field "joinWebUrl" fields2)
                                     (Teams.field "id" fields2)),
                (log ++ [Teams.tokenRequest tenantId clientId clientSecret;
                         Teams.meetingRequest (Teams.field "access_token" fields1)
                           organizerUserId
                           (Teams.mkMeetingDetails subject startDateTime
                                                   endDateTime tz)])%list))
    /\ Teams.ok r2 = true /\ Teams.parsed r2 = Teams.JsonFields fields2.
Proof.
  destruct incoming as [message | form]; [discriminate |].
  destruct (Teams.required form) as [[[subject startDateTime] endDateTime] |] eqn:Hform.
  2: { rewrite (proj1 (Teams_rejected_early cfg net form log) Hform).
       discriminate. }
  destruct (Teams.credentials cfg) as [[[tenantId clientId] clientSecret] |] eqn:Hcfg.
  2: { rewrite (proj2 (Teams_rejected_early cfg net form log));
         [discriminate | congruence | exact Hcfg]. }
  unfold Teams.POST.
  rewrite (Teams_attempt_unfold cfg net _ _ _ _ _ _ _ log Hform Hcfg).
  destruct (net (Teams.tokenRequest tenantId clientId clientSecret))
    as [m1 | r1] eqn:Hnet1; [discriminate |].
  cbn zeta. destruct (Teams.ok r1) eqn:Hok1; cbn [negb]; [| discriminate].
  destruct (Teams.parsed r1) as [m | fields1] eqn:Hparsed1; [discriminate |].
  destruct (Teams.truthyString (Teams.MS_ORGANIZER_USER_ID cfg))
    as [organizerUserId |] eqn:Horg; [| discriminate].
  match goal with
  | |- context [net ?q] => destruct (net q) as [m2 | r2] eqn:Hnet2; [discriminate |]
  end.
  destruct (Teams.ok r2) eqn:Hok2; cbn [negb]; [| discriminate].
  destruct (Teams.parsed r2) as [m | fields2] eqn:Hparsed2; [discriminate |].
  intros _.
  exists form, subject, startDateTime, endDateTime, tenantId, clientId, clientSecret,
         organizerUserId, r1, fields1, r2, fields2.
  repeat (split; [reflexivity || assumption |]).
  split; [| split; assumption].
  eexists. split; [exact Hnet2 |].
  now rewrite <- List.app_assoc.
Qed.

Lemma Teams_created_inversion_witness :
  exists request2,
    Teams.POST Teams.demoConfig Teams.demoNetwork (Teams.Parsed Teams.demoForm) []
    = (Teams.mkResponse 200
         (Teams.CreatedBody (Some "https://teams.example/j/1") (Some "meeting-1")),
       [Teams.tokenRequest "tenant-1" "client-1" "secret-1"; request2])
    /\ Teams.headers request2
       = [("Authorization", "Bearer tok-1"); ("Content-Type", "application/json")].
Proof.
  destruct (Teams_created_inversion Teams.demoConfig Teams.demoNetwork
              (Teams.Parsed Teams.demoForm) [] eq_refl)
    as (form & s1 & s2 & s3 & t & c & k & org & r1 & f1 & r2 & f2 & _).
  eexists. split; reflexivity.
Defined.

(** The time zone of the form, given or defaulted, changes neither the
    requests sent nor the answer; and whatever comes in, the handler sends
    at most two requests and answers 200, 400 or 500. *)
Theorem Teams_timeZone_unused cfg net log :
  (forall subject startDateTime endDateTime tz tz',
     Teams.POST cfg net
       (Teams.Parsed (Teams.mkMeetingForm subject startDateTime endDateTime tz)) log
     = Teams.POST cfg net
         (Teams.Parsed (Teams.mkMeetingForm subject startDateTime endDateTime tz')) log)
  /\ forall incoming,
       In (Teams.status (fst (Teams.POST cfg net incoming log))) [200; 400; 500]
       /\ exists sent, snd (Teams.POST cfg net incoming log) = (log ++ sent)%list
                       /\ (List.length sent <= 2)%nat.
Proof.
  assert (Hcases : forall form,
            In (Teams.status (fst (Teams.POST cfg net (Teams.Parsed form) log)))
               [200; 400; 500]
            /\ exists sent,
                 snd (Teams.POST cfg net (Teams.Parsed form) log) = (log ++ sent)%list
                 /\ (List.length sent <= 2)%nat).
  { intros form.
    destruct (Teams.required form) as [[[s1 s2] s3] |] eqn:Hform.
    2: { rewrite (proj1 (Teams_rejected_early cfg net form log) Hform).
         split; [cbn; auto |]. exists []. rewrite List.app_nil_r. split; [reflexivity | cbn; lia]. }
    destruct (Teams.credentials cfg) as [[[c1 c2] c3] |] eqn:Hcfg.
    2: { rewrite (proj2 (Teams_rejected_early cfg net form log));
           [| congruence | exact Hcfg].
         split; [cbn; auto |]. exists []. rewrite List.app_nil_r. split; [reflexivity | cbn; lia]. }
    unfold Teams.POST.
    rewrite (Teams_attempt_unfold cfg net _ _ _ _ _ _ _ log Hform Hcfg).
    assert (Hone : forall x : Teams.Request,
              exists sent, (log ++ [x])%list = (log ++ sent)%list
                           /\ (List.length sent <= 2)%nat)
      by (intros x; exists [x]; split; [reflexivity | cbn; lia]).
    assert (Htwo : forall x y : Teams.Request,
              exists sent, ((log ++ [x]) ++ [y])%list = (log ++ sent)%list
                           /\ (List.length sent <= 2)%nat)
      by (intros x y; exists [x; y]; split;
          [now rewrite <- List.app_assoc | cbn; lia]).
    destruct (net (Teams.tokenRequest c1 c2 c3)) as [m1 | r1];
      [split; [cbn; auto | apply Hone] |].
    cbn zeta. destruct (Teams.ok r1); cbn [negb];
      [| split; [cbn; auto | apply Hone]].
    destruct (Teams.parsed r1) as [m | fields1];
      [split; [cbn; auto | apply Hone] |].
    destruct (Teams.truthyString (Teams.MS_ORGANIZER_USER_ID cfg)) as [org |];
      [| split; [cbn; auto | apply Hone]].
    match goal with
    | |- context [net ?q] =>
        destruct (net q) as [m2 | r2]; [split; [cbn; auto | apply Htwo] |]
    end.
    destruct (Teams.ok r2); cbn [negb]; [| split; [cbn; auto | apply Htwo]].
    destruct (Teams.parsed r2) as [m | fields2];
      split; try (cbn; auto; fail); apply Htwo. }
  split.
  - intros subject startDateTime endDateTime tz tz'.
    set (form := Teams.mkMeetingForm subject startDateTime endDateTime tz).
    set (form' := Teams.mkMeetingForm subject startDateTime endDateTime tz').
    assert (Hreq : Teams.required form' = Teams.required form) by reflexivity.
    destruct (Teams.required form) as [[[s1 s2] s3] |] eqn:Hform.
    2: { rewrite (proj1 (Teams_rejected_early cfg net form log) Hform).
         now rewrite (proj1 (Teams_rejected_early cfg net form' log) Hreq). }
    destruct (Teams.credentials cfg) as [[[c1 c2] c3] |] eqn:Hcfg.
    2: { rewrite (proj2 (Teams_rejected_early cfg net form log));
           [| congruence | exact Hcfg].
         rewrite (proj2 (Teams_rejected_early cfg net form' log));
           [reflexivity | congruence | exact Hcfg]. }
    unfold Teams.POST.
    rewrite (Teams_attempt_unfold cfg net form _ _ _ _ _ _ log Hform Hcfg).
    rewrite (Teams_attempt_unfold cfg net form' _ _ _ _ _ _ log Hreq Hcfg).
    reflexivity.
  - intros [message | form]; [| apply Hcases].
    split; [cbn; auto |]. exists []. rewrite List.app_nil_r.
    split; [reflexivity | cbn; lia].
Qed.

(** * Properties of the authentication service *)

Ltac auth_simpl :=
  cbn [Auth.s_error Auth.s_session Auth.r_error Auth.r_session Auth.r_user
       Auth.u_error Auth.u_user Auth.isValid Auth.invalid fst snd].

(** The verdict is valid exactly when the session call gives a session with
    a user, the refresh call gives a session and a user, and the user call
    gives a user, none of them with an error or a throw; the user and the
    session returned are then those of the refresh, not those of the first
    or the last call. *)
Theorem verify_valid_iff client log :
  (Auth.isValid (fst (Auth.verifyUserExists client log)) = true
   <-> Auth.sessionGood client
       /\ (exists refreshed u, Auth.refreshGood client refreshed u)
       /\ Auth.userGood client)
  /\ forall refreshed u,
       Auth.sessionGood client -> Auth.refreshGood client refreshed u ->
       Auth.userGood client ->
       fst (Auth.verifyUserExists client log)
       = Auth.mkVerdict true (Some u) (Some refreshed).
Proof.
  unfold Auth.sessionGood, Auth.refreshGood, Auth.userGood, Auth.verifyUserExists.
  split.
  - split.
    + destruct (Auth.getSession client) as [| [[session |] [e |]]]; auth_simpl;
        try (intros Hv; discriminate Hv).
      destruct (Auth.session_user session) as [u0 |] eqn:Hu0; auth_simpl;
        [| intros Hv; discriminate Hv].
      destruct (Auth.refreshSession client) as [| [[refreshed |] [u |] [e |]]];
        auth_simpl; try (intros Hv; discriminate Hv).
      destruct (Auth.getUser client) as [| [[u1 |] [e |]]];
        auth_simpl; try (intros Hv; discriminate Hv).
      intros _. repeat split; eauto.
    + intros [(session & u0 & -> & Hu0) [(refreshed & u & ->) (u1 & ->)]].
      auth_simpl. rewrite Hu0. reflexivity.
  - intros refreshed u (session & u0 & -> & Hu0) -> (u1 & ->).
    auth_simpl. rewrite Hu0. reflexivity.
Qed.

Lemma verify_valid_iff_witness :
  fst (Auth.verifyUserExists Auth.demoClient [])
  = Auth.mkVerdict true (Some "user-1")
      (Some (Auth.mkSession "jwt-2" (Some "user-1"))).
Proof.
  destruct (verify_valid_iff Auth.demoClient []) as [_ Hvalue].
  apply Hvalue.
  - exists Auth.demoSession, "user-1"%string. split; reflexivity.
  - reflexivity.
  - exists "user-1"%string. reflexivity.
Defined.

(** A verdict that is not valid carries no user and no session; and the
    calls are made in order and stop at the first one that fails: the
    refresh is called only after a good session call, the user call only
    after a good refresh. *)
Theorem verify_stops_at_first_failure client log :
  (Auth.isValid (fst (Auth.verifyUserExists client log)) = false ->
   fst (Auth.verifyUserExists client log) = Auth.invalid)
  /\ (snd (Auth.verifyUserExists client log) = (log ++ [Auth.CallGetSession])%list
      \/ (Auth.sessionGood client
          /\ snd (Auth.verifyUserExists client log)
             = (log ++ [Auth.CallGetSession; Auth.CallRefreshSession])%list)
      \/ (Auth.sessionGood client
          /\ (exists refreshed u, Auth.refreshGood client refreshed u)
          /\ snd (Auth.verifyUserExists client log)
             = (log ++ [Auth.CallGetSession; Auth.CallRefreshSession;
                        Auth.CallGetUser])%list)).
Proof.
  unfold Auth.sessionGood, Auth.refreshGood, Auth.verifyUserExists.
  destruct (Auth.getSession client) as [| [[session |] [e |]]]; auth_simpl;
    try (split; [reflexivity | left; reflexivity]).
  destruct (Auth.session_user session) as [u0 |] eqn:Hu0; auth_simpl;
    [| split; [reflexivity | left; reflexivity]].
  assert (Hgood : exists s u,
            Auth.Replies (Auth.mkSessionReply (Some session) None)
            = Auth.Replies (Auth.mkSessionReply (Some s) None)
            /\ Auth.session_user s = Some u) by eauto.
  destruct (Auth.refreshSession client) as [| [[refreshed |] [u |] [e |]]];
    auth_simpl;
    try (split; [reflexivity |];
         right; left; split; [exact Hgood | now rewrite <- List.app_assoc]).
  assert (Hrefresh : exists r v,
            Auth.Replies (Auth.mkRefreshReply (Some refreshed) (Some u) None)
            = Auth.Replies (Auth.mkRefreshReply (Some r) (Some v) None)) by eauto.
  destruct (Auth.getUser client) as [| [[u1 |] [e |]]]; auth_simpl;
    (split; [first [reflexivity | intros Hv; discriminate Hv] |]);
    right; right; (split; [exact Hgood |]); (split; [exact Hrefresh |]);
    now rewrite <- !List.app_assoc.
Qed.

Lemma verify_stops_at_first_failure_witness :
  fst (Auth.verifyUserExists
         (Auth.mkClient (Auth.Replies (Auth.mkSessionReply None None))
                        Auth.Throws Auth.Throws) [])
  = Auth.invalid.
Proof.
  apply (verify_stops_at_first_failure
           (Auth.mkClient (Auth.Replies (Auth.mkSessionReply None None))
                          Auth.Throws Auth.Throws) []).
  reflexivity.
Defined.

(** * Properties of the cohort form *)

Section CohortNumber.

Import CohortForm.

Lemma digit_not_dot c : isDigit c = true -> Ascii.eqb c "." = false.
Proof.
  intros Hd. destruct (Ascii.eqb_spec c ".") as [-> | _]; [discriminate | reflexivity].
Qed.

(** A string is its leading digits followed by what comes after them. *)
Lemma afterDigits_split s :
  exists a, s = (a ++ afterDigits s)%string /\ allDigits a = true.
Proof.
  induction s as [| c s [a [Heq Ha]]]; [exists ""%string; split; reflexivity |].
  cbn [afterDigits]. destruct (isDigit c) eqn:Hc.
  - exists (String c a). cbn. rewrite Hc, Ha. split; [now f_equal | reflexivity].
  - exists ""%string. split; reflexivity.
Qed.

Lemma afterDigits_app a c rest :
  allDigits a = true -> isDigit c = false ->
  afterDigits (a ++ String c rest) = String c rest.
Proof.
  intros Ha Hc. induction a as [| x a IH]; cbn.
  - now rewrite Hc.
  - cbn in Ha. apply andb_prop in Ha as [Hx Ha]. rewrite Hx. now apply IH.
Qed.

Lemma replaceDot_digits a rest :
  allDigits a = true ->
  replaceDot (a ++ String "." rest) = (a ++ String "_" rest)%string.
Proof.
  intros Ha. induction a as [| x a IH]; [reflexivity |].
  cbn in *. apply andb_prop in Ha as [Hx Ha].
  rewrite (digit_not_dot x Hx). now rewrite IH.
Qed.

Lemma digits_noDot a : allDigits a = true -> noDot a = true.
Proof.
  induction a as [| x a IH]; [reflexivity |]. cbn.
  intros Ha. apply andb_prop in Ha as [Hx Ha].
  now rewrite (digit_not_dot x Hx), IH.
Qed.

Lemma noDot_app a b : noDot (a ++ b) = noDot a && noDot b.
Proof.
  induction a as [| x a IH]; [reflexivity |]. cbn. rewrite IH.
  now rewrite andb_assoc.
Qed.

Lemma pattern_shape n :
  cohortNumPattern n = true
  <-> exists a b, n = (a ++ "." ++ b)%string /\ a <> ""%string /\ b <> ""%string
                  /\ allDigits a = true /\ allDigits b = true.
Proof.
  split.
  - unfold cohortNumPattern. destruct n as [| c n']; [discriminate |].
    intros H. apply andb_prop in H as [Hc H].
    destruct (afterDigits_split (String c n')) as [a [Heq Ha]].
    destruct (afterDigits (String c n')) as [| x rest]; [discriminate |].
    destruct (Ascii.eqb_spec x ".") as [-> | Hx].
    + apply andb_prop in H as [Hne Hb].
      exists a, rest. split; [exact Heq |].
      split; [| split; [| split; assumption]].
      * intros ->. cbn in Heq. injection Heq as -> _. discriminate.
      * intros ->. discriminate.
    + exfalso. revert H.
      destruct x as [[] [] [] [] [] [] [] []]; try discriminate;
        now contradiction Hx.
  - intros (a & b & -> & Hane & Hbne & Ha & Hb).
    unfold cohortNumPattern. destruct a as [| c a]; [contradiction |].
    cbn [String.append]. cbn in Ha. apply andb_prop in Ha as [Hc Ha].
    rewrite Hc. cbn [andb].
    change (String c (a ++ String "." b))
      with (String c a ++ String "." b)%string.
    rewrite afterDigits_app; [| cbn; now rewrite Hc, Ha | reflexivity].
    rewrite Hb. destruct (String.eqb_spec b ""); [contradiction | reflexivity].
Qed.

End CohortNumber.

(** The cohort number check accepts exactly the strings made of one or more
    digits, a dot and one or more digits; for such a number the name
    announced after a success replaces the dot by an underscore and holds
    no dot. *)
Theorem cohort_number_shape n :
  (CohortForm.cohortNumPattern n = true
   <-> exists a b, n = (a ++ "." ++ b)%string /\ a <> ""%string /\ b <> ""%string
                   /\ CohortForm.allDigits a = true
                   /\ CohortForm.allDigits b = true)
  /\ (CohortForm.cohortNumPattern n = true ->
      CohortForm.noDot (CohortForm.replaceDot n) = true
      /\ exists a b, n = (a ++ "." ++ b)%string
                     /\ CohortForm.replaceDot n = (a ++ "_" ++ b)%string).
Proof.
  split; [apply pattern_shape |].
  intros Hpat. apply pattern_shape in Hpat as (a & b & -> & _ & _ & Ha & Hb).
  change (a ++ "." ++ b)%string with (a ++ String "." b)%string.
  rewrite replaceDot_digits by exact Ha. split.
  - rewrite noDot_app. cbn [CohortForm.noDot].
    now rewrite (digits_noDot a Ha), (digits_noDot b Hb).
  - exists a, b. split; reflexivity.
Qed.

Lemma cohort_number_shape_witness :
  CohortForm.noDot (CohortForm.replaceDot "12.0") = true
  /\ exists a b, "12.0"%string = (a ++ "." ++ b)%string
                 /\ CohortForm.replaceDot "12.0" = (a ++ "_" ++ b)%string.
Proof.
  apply (cohort_number_shape "12.0"). reflexivity.
Defined.

Section Submit.

Variables (net : CohortForm.Network) (form : CohortForm.Form) (loading : bool).

(** The run of the handler on a valid form. *)
Lemma handleSubmit_valid iso :
  CohortForm.valid form -> CohortForm.startDate form = Some iso ->
  CohortForm.handleSubmit net form loading
  = let request :=
      CohortForm.mkCreateRequest (CohortForm.cohortType form)
        (CohortForm.cohortNumber form) (CohortForm.day1 form)
        (CohortForm.day2 form) iso in
    match net request with
    | CohortForm.Rejects message =>
        (CohortForm.mkView (CohortForm.orElse (Some message) CohortForm.msgCaught)
                           "" None false, [request])
    | CohortForm.Resolves response =>
        match CohortForm.parsed response with
        | CohortForm.JsonThrows message =>
            (CohortForm.mkView
               (CohortForm.orElse (Some message) CohortForm.msgCaught)
               "" None false, [request])
        | CohortForm.JsonData data =>
            if negb (CohortForm.ok response)
            then if CohortForm.setupRequired data
                 then (CohortForm.mkView "" "" (Some data) false, [request])
                 else (CohortForm.mkView
                         (CohortForm.orElse (CohortForm.d_error data)
                                            CohortForm.msgFailed)
                         "" None false, [request])
            else (CohortForm.mkView "" (CohortForm.successMessage form data)
                                    None false, [request])
        end
    end.
Proof.
  intros (Ht & Hn & Hd1 & Hd2 & _ & Hdiff & Hpat) Hiso.
  unfold CohortForm.handleSubmit. rewrite Hiso, Hpat.
  destruct (String.eqb_spec (CohortForm.cohortType form) ""); [contradiction |].
  destruct (String.eqb_spec (CohortForm.cohortNumber form) ""); [contradiction |].
  destruct (String.eqb_spec (CohortForm.day1 form) ""); [contradiction |].
  destruct (String.eqb_spec (CohortForm.day2 form) ""); [contradiction |].
  destruct (String.eqb_spec (CohortForm.day1 form) (CohortForm.day2 form));
    [contradiction |].
  reflexivity.
Qed.

(** The run of the handler on a form that fails a check. *)
Lemma handleSubmit_invalid :
  ~ CohortForm.valid form ->
  exists message,
    In message [CohortForm.msgFill; CohortForm.msgDays; CohortForm.msgFormat]
    /\ CohortForm.handleSubmit net form loading
       = (CohortForm.mkView message "" None loading, []).
Proof.
  intros Hinvalid. unfold CohortForm.handleSubmit.
  destruct (CohortForm.startDate form) as [iso |] eqn:Hiso;
    [| eexists; split; [| reflexivity]; cbn; auto].
  destruct (String.eqb_spec (CohortForm.cohortType form) "");
    [eexists; split; [| reflexivity]; cbn; auto |].
  destruct (String.eqb_spec (CohortForm.cohortNumber form) "");
    [eexists; split; [| reflexivity]; cbn; auto |].
  destruct (String.eqb_spec (CohortForm.day1 form) "");
    [eexists; split; [| reflexivity]; cbn; auto |].
  destruct (String.eqb_spec (CohortForm.day2 form) "");
    [eexists; split; [| reflexivity]; cbn; auto |].
  cbn [orb].
  destruct (String.eqb_spec (CohortForm.day1 form) (CohortForm.day2 form));
    [eexists; split; [| reflexivity]; cbn; auto |].
  destruct (CohortForm.cohortNumPattern (CohortForm.cohortNumber form)) eqn:Hpat;
    [| eexists; split; [| reflexivity]; cbn; auto].
  exfalso. apply Hinvalid. unfold CohortForm.valid.
  repeat split; try assumption. congruence.
Qed.

End Submit.

(** The form sends a request only when it is valid: every field filled,
    two different days, a cohort number of the accepted shape.  A valid
    form sends exactly one request, carrying its five fields, and ends with
    the loading flag off whatever the network does; a form that fails a
    check sends nothing, shows one of the three validation messages and
    leaves the loading flag as it was. *)
Theorem submit_sends_only_valid net form loading :
  (CohortForm.valid form ->
   exists iso,
     CohortForm.startDate form = Some iso
     /\ snd (CohortForm.handleSubmit net form loading)
        = [CohortForm.mkCreateRequest (CohortForm.cohortType form)
             (CohortForm.cohortNumber form) (CohortForm.day1 form)
             (CohortForm.day2 form) iso]
     /\ CohortForm.isLoading (fst (CohortForm.handleSubmit net form loading))
        = false)
  /\ (~ CohortForm.valid form ->
      exists message,
        In message [CohortForm.msgFill; CohortForm.msgDays; CohortForm.msgFormat]
        /\ CohortForm.handleSubmit net form loading
           = (CohortForm.mkView message "" None loading, [])).
Proof.
  split; [| apply handleSubmit_invalid].
  intros Hvalid.
  destruct (CohortForm.startDate form) as [iso |] eqn:Hiso;
    [| now destruct Hvalid as (_ & _ & _ & _ & Hdate & _)].
  exists iso. split; [reflexivity |].
  rewrite (handleSubmit_valid net form loading iso Hvalid Hiso). cbn zeta.
  destruct (net _) as [message | response]; [split; reflexivity |].
  destruct (CohortForm.parsed response) as [message | data]; [split; reflexivity |].
  destruct (CohortForm.ok response); cbn [negb]; [split; reflexivity |].
  destruct (CohortForm.setupRequired data); split; reflexivity.
Qed.

Lemma submit_sends_only_valid_witness :
  exists iso,
    CohortForm.startDate CohortForm.demoForm = Some iso
    /\ snd (CohortForm.handleSubmit CohortForm.demoNetwork CohortForm.demoForm false)
       = [CohortForm.mkCreateRequest "basic" "2.0" "Monday" "Wednesday" iso]
    /\ CohortForm.isLoading
         (fst (CohortForm.handleSubmit CohortForm.demoNetwork CohortForm.demoForm false))
       = false.
Proof.
  apply (submit_sends_only_valid CohortForm.demoNetwork CohortForm.demoForm false).
  unfold CohortForm.valid. repeat split; try discriminate.
Defined.

(** A success is shown only for a request that was answered ok with JSON,
    and then no error and no setup notice is shown with it; the setup
    notice is shown only for an answer that is not ok and asks for the
    setup, and then with no error. *)
Theorem submit_outcome net form loading :
  let view := fst (CohortForm.handleSubmit net form loading) in
  (CohortForm.success view <> ""%string ->
   CohortForm.error view = ""%string /\ CohortForm.setupInfo view = None
   /\ exists request response data,
        snd (CohortForm.handleSubmit net form loading) = [request]
        /\ net request = CohortForm.Resolves response
        /\ CohortForm.ok response = true
        /\ CohortForm.parsed response = CohortForm.JsonData data
        /\ CohortForm.success view = CohortForm.successMessage form data)
  /\ (forall data, CohortForm.setupInfo view = Some data ->
      CohortForm.error view = ""%string /\ CohortForm.success view = ""%string
      /\ CohortForm.setupRequired data = true
      /\ exists request response,
           net request = CohortForm.Resolves response
           /\ CohortForm.ok response = false
           /\ CohortForm.parsed response = CohortForm.JsonData data).
Proof.
  cbn zeta.
  assert (Hdec : CohortForm.valid form \/ ~ CohortForm.valid form).
  { unfold CohortForm.valid.
    destruct (String.eqb_spec (CohortForm.cohortType form) ""); [right; tauto |].
    destruct (String.eqb_spec (CohortForm.cohortNumber form) ""); [right; tauto |].
    destruct (String.eqb_spec (CohortForm.day1 form) ""); [right; tauto |].
    destruct (String.eqb_spec (CohortForm.day2 form) ""); [right; tauto |].
    destruct (CohortForm.startDate form); [| right; tauto].
    destruct (String.eqb_spec (CohortForm.day1 form) (CohortForm.day2 form));
      [right; tauto |].
    destruct (CohortForm.cohortNumPattern (CohortForm.cohortNumber form));
      [left; repeat split; auto; discriminate | right; intuition discriminate]. }
  destruct Hdec as [Hvalid | Hinvalid].
  2: { destruct (handleSubmit_invalid net form loading Hinvalid)
         as [message [_ ->]]. cbn. split; [tauto | discriminate]. }
  destruct (CohortForm.startDate form) as [iso |] eqn:Hiso;
    [| now destruct Hvalid as (_ & _ & _ & _ & Hdate & _)].
  rewrite (handleSubmit_valid net form loading iso Hvalid Hiso). cbn zeta.
  destruct (net _) as [message | response] eqn:Hnet;
    [cbn; split; [tauto | discriminate] |].
  destruct (CohortForm.parsed response) as [message | data] eqn:Hparsed;
    [cbn; split; [tauto | discriminate] |].
  destruct (CohortForm.ok response) eqn:Hok; cbn [negb].
  - cbn. split; [| discriminate]. intros _.
    repeat split. eauto 10.
  - destruct (CohortForm.setupRequired data) eqn:Hsetup; cbn.
    + split; [tauto |]. intros data' [= <-]. repeat split; eauto.
    + split; [tauto | discriminate].
Qed.

Lemma submit_outcome_witness :
  CohortForm.success
    (fst (CohortForm.handleSubmit CohortForm.demoNetwork CohortForm.demoForm false))
  = "Successfully created basic2_0_schedule table with 48 records!"%string
  /\ CohortForm.error
       (fst (CohortForm.handleSubmit CohortForm.demoNetwork CohortForm.demoForm false))
     = ""%string.
Proof.
  destruct (submit_outcome CohortForm.demoNetwork CohortForm.demoForm false)
    as [Hsuccess _].
  destruct Hsuccess as (Herror & _ & _); [discriminate |].
  split; [reflexivity | exact Herror].
Defined.
